(** * LSS LoRa Sensor Station: packet codec, mesh router and command applier

    A shallow embedding of [LSS-Arduino/src/packets.cpp], [mesh.cpp],
    [node_config.cpp] and [command_handler.cpp], followed by the properties
    of the protocol specification that are stated about them; then of the
    code around them, [sensor_base.h], [sensors.cpp] and [main.cpp], with
    further properties of the whole.

    Conventions.
    - A [uint8_t], [uint16_t] or [uint32_t] value is a [Z]; every
      assignment that truncates in C is written with an explicit [mod].
    - A buffer [uint8_t *buf, size_t len] is a [list Z] whose length is
      [len]; sizes and offsets ([size_t]) are [nat].
    - A [float] is carried as its 32-bit IEEE-754 pattern: the codec and the
      command applier only [memcpy] floats, they never compute with them.
    - The target (ESP32-S3) is little-endian; [memcpy] of an integer object
      reads or writes its bytes least-significant first.
    - [millis()] is an explicit argument [now]. *)

From stdpp Require Import base numbers list strings gmap.
From Stdlib Require Import ZArith Lia.

Local Open Scope Z_scope.

(* ===================================================================== *)
(** ** Object representations and [memcpy]                                *)
(* ===================================================================== *)

(** Object representation of a [uint16_t] (little-endian). *)
Definition le16 (x : Z) : list Z := [x mod 256; (x / 256) mod 256].

(** Object representation of a [uint32_t], or of a [float] given by its
    bit pattern (little-endian). *)
Definition le32 (x : Z) : list Z :=
  [x mod 256; (x / 256) mod 256; (x / 65536) mod 256; (x / 16777216) mod 256].

(** [buf[off]]. *)
Definition rd8 (buf : list Z) (off : nat) : Z := nth off buf 0.

(** [memcpy(&x, buf + off, 2)] for a [uint16_t x]. *)
Definition rd16 (buf : list Z) (off : nat) : Z :=
  rd8 buf off + 256 * rd8 buf (off + 1).

(** [memcpy(&x, buf + off, 4)] for a [uint32_t] or [float] [x]. *)
Definition rd32 (buf : list Z) (off : nat) : Z :=
  rd8 buf off + 256 * rd8 buf (off + 1)
  + 65536 * rd8 buf (off + 2) + 16777216 * rd8 buf (off + 3).

(** A [char a[n]] or [uint8_t a[n]] member always occupies exactly [n]
    bytes. *)
Definition fixed (n : nat) (l : list Z) : list Z := take n (l ++ replicate n 0).

(** The [n] bytes that [memcpy(_, src, n)] reads.  Bytes past the end of
    the object [src] are outside the C semantics; they read as zero here. *)
Definition mem_read (src : list Z) (n : nat) : list Z := fixed n src.

(** [memcpy(dst + off, src, length src)]: the destination after the copy. *)
Definition memcpy (dst : list Z) (off : nat) (src : list Z) : list Z :=
  take off dst ++ src ++ drop (off + length src) dst.

(* ===================================================================== *)
(** ** CRC-16/CCITT-FALSE ([lss_crc16])                                   *)
(* ===================================================================== *)

(** One iteration of the inner loop over the bits of a byte. *)
Definition crc16_bit (crc : Z) : Z :=
  if negb (Z.land crc 0x8000 =? 0)
  then Z.lxor (Z.shiftl crc 1) 0x1021 mod 65536
  else Z.shiftl crc 1 mod 65536.

(** One iteration of the outer loop: [crc ^= (uint16_t)data[i] << 8]
    followed by the eight bit steps. *)
Definition crc16_byte (crc d : Z) : Z :=
  Nat.iter 8 crc16_bit (Z.lxor crc (Z.shiftl d 8) mod 65536).

Definition lss_crc16 (data : list Z) : Z := fold_left crc16_byte data 0xFFFF.

(* ===================================================================== *)
(** ** Packet structures ([packets.h])                                    *)
(* ===================================================================== *)

Definition SYNC_LEGACY : Z := 0x1234.
Definition SYNC_MULTI_SENSOR : Z := 0xABCD.
Definition SYNC_COMMAND : Z := 0xCDEF.

Definition MAX_SENSOR_VALUES : Z := 16.

(** [enum PacketType]. *)
Inductive PacketType :=
  PACKET_LEGACY | PACKET_MULTI_SENSOR | PACKET_CONFIG | PACKET_ACK.

(** [enum CommandType], by code. *)
Definition CMD_PING : Z := 0x00.
Definition CMD_GET_CONFIG : Z := 0x01.
Definition CMD_SET_INTERVAL : Z := 0x02.
Definition CMD_SET_LOCATION : Z := 0x03.
Definition CMD_SET_TEMP_THRESH : Z := 0x04.
Definition CMD_SET_BATTERY_THRESH : Z := 0x05.
Definition CMD_SET_MESH_CONFIG : Z := 0x06.
Definition CMD_RESTART : Z := 0x07.
Definition CMD_FACTORY_RESET : Z := 0x08.
Definition CMD_SET_LORA_PARAMS : Z := 0x09.
Definition CMD_TIME_SYNC : Z := 0x0A.
Definition CMD_SENSOR_ANNOUNCE : Z := 0x0B.
Definition CMD_BASE_WELCOME : Z := 0x0C.
Definition CMD_ACK : Z := 0xA0.
Definition CMD_NACK : Z := 0xA1.

(** [SensorValuePacket] (packed, 5 bytes). *)
Record SensorValuePacket := mkSensorValuePacket {
  sv_type : Z;    (* uint8_t type *)
  sv_value : Z    (* float value, as its bit pattern *)
}.

(** [MultiSensorHeader] (packed, 60 bytes). *)
Record MultiSensorHeader := mkMultiSensorHeader {
  hdr_syncWord : Z;
  hdr_networkId : Z;
  hdr_packetType : Z;
  hdr_sensorId : Z;
  hdr_valueCount : Z;
  hdr_batteryPercent : Z;
  hdr_powerState : Z;
  hdr_lastCommandSeq : Z;
  hdr_ackStatus : Z;
  hdr_pad : Z;
  hdr_location : list Z;   (* char location[32] *)
  hdr_zone : list Z        (* char zone[16] *)
}.

(** [MultiSensorPacket]: the header, [values[MAX_SENSOR_VALUES]] and the
    checksum, as assembled in memory. *)
Record MultiSensorPacket := mkMultiSensorPacket {
  header : MultiSensorHeader;
  values : list SensorValuePacket;
  checksum : Z
}.

(** [CommandPacket] (packed, 2 + 5 + 192 + 2 = 201 bytes). *)
Record CommandPacket := mkCommandPacket {
  cmd_syncWord : Z;
  cmd_commandType : Z;
  cmd_targetSensorId : Z;
  cmd_sequenceNumber : Z;
  cmd_dataLength : Z;
  cmd_pad : Z;
  cmd_data : list Z;       (* uint8_t data[192] *)
  cmd_checksum : Z
}.

(** [AckPacket] (packed, 2 + 6 + 192 + 2 = 202 bytes). *)
Record AckPacket := mkAckPacket {
  ack_syncWord : Z;
  ack_commandType : Z;
  ack_sensorId : Z;
  ack_sequenceNumber : Z;
  ack_statusCode : Z;
  ack_dataLength : Z;
  ack_pad : Z;
  ack_data : list Z;       (* uint8_t data[192] *)
  ack_checksum : Z
}.

Definition sizeof_MultiSensorHeader : nat := 60.
Definition sizeof_SensorValuePacket : nat := 5.
Definition sizeof_uint16_t : nat := 2.
Definition sizeof_CommandPacket : nat := 201.
Definition sizeof_AckPacket : nat := 202.
(** [SensorDataLegacy]: 2 + 1 + 2 + 4 + 4 + 1 + 1 + 4 bytes. *)
Definition sizeof_SensorDataLegacy : nat := 19.

(** *** Object representations *)

Definition value_bytes (v : SensorValuePacket) : list Z :=
  sv_type v :: le32 (sv_value v).

Definition values_bytes (vs : list SensorValuePacket) : list Z :=
  flat_map value_bytes vs.

Definition header_bytes (h : MultiSensorHeader) : list Z :=
  le16 (hdr_syncWord h) ++ le16 (hdr_networkId h)
  ++ [hdr_packetType h; hdr_sensorId h; hdr_valueCount h;
      hdr_batteryPercent h; hdr_powerState h; hdr_lastCommandSeq h;
      hdr_ackStatus h; hdr_pad h]
  ++ fixed 32 (hdr_location h) ++ fixed 16 (hdr_zone h).

(** What lies in memory from [pkt->values] onwards: the sixteen entries and
    then the checksum member (offset 140 of the 142-byte object). *)
Definition values_image (pkt : MultiSensorPacket) : list Z :=
  values_bytes (values pkt) ++ le16 (checksum pkt).

Definition command_bytes (c : CommandPacket) : list Z :=
  le16 (cmd_syncWord c)
  ++ [cmd_commandType c; cmd_targetSensorId c; cmd_sequenceNumber c;
      cmd_dataLength c; cmd_pad c]
  ++ fixed 192 (cmd_data c) ++ le16 (cmd_checksum c).

Definition ack_bytes (a : AckPacket) : list Z :=
  le16 (ack_syncWord a)
  ++ [ack_commandType a; ack_sensorId a; ack_sequenceNumber a;
      ack_statusCode a; ack_dataLength a; ack_pad a]
  ++ fixed 192 (ack_data a) ++ le16 (ack_checksum a).

(** [memcpy(&h, buf, sizeof(MultiSensorHeader))]. *)
Definition header_of_bytes (buf : list Z) : MultiSensorHeader :=
  {| hdr_syncWord := rd16 buf 0;
     hdr_networkId := rd16 buf 2;
     hdr_packetType := rd8 buf 4;
     hdr_sensorId := rd8 buf 5;
     hdr_valueCount := rd8 buf 6;
     hdr_batteryPercent := rd8 buf 7;
     hdr_powerState := rd8 buf 8;
     hdr_lastCommandSeq := rd8 buf 9;
     hdr_ackStatus := rd8 buf 10;
     hdr_pad := rd8 buf 11;
     hdr_location := take 32 (drop 12 buf);
     hdr_zone := take 16 (drop 44 buf) |}.

(** [memcpy] of [n] value entries out of a byte buffer. *)
Fixpoint values_of_bytes (n : nat) (buf : list Z) : list SensorValuePacket :=
  match n with
  | O => []
  | S n' =>
      {| sv_type := rd8 buf 0; sv_value := rd32 buf 1 |}
      :: values_of_bytes n' (drop 5 buf)
  end.

(** [memcpy(out, buf, sizeof(CommandPacket))]. *)
Definition command_of_bytes (buf : list Z) : CommandPacket :=
  {| cmd_syncWord := rd16 buf 0;
     cmd_commandType := rd8 buf 2;
     cmd_targetSensorId := rd8 buf 3;
     cmd_sequenceNumber := rd8 buf 4;
     cmd_dataLength := rd8 buf 5;
     cmd_pad := rd8 buf 6;
     cmd_data := take 192 (drop 7 buf);
     cmd_checksum := rd16 buf 199 |}.

(* ===================================================================== *)
(** ** Codec ([packets.cpp])                                              *)
(* ===================================================================== *)

Definition lss_multi_sensor_size (pkt : MultiSensorPacket) : nat :=
  (sizeof_MultiSensorHeader
   + Z.to_nat (hdr_valueCount (header pkt)) * sizeof_SensorValuePacket
   + sizeof_uint16_t)%nat.

(** Returns the number of bytes written and the buffer afterwards. *)
Definition lss_serialize_multi_sensor
    (pkt : MultiSensorPacket) (buf : list Z) : nat * list Z :=
  let needed := lss_multi_sensor_size pkt in
  if (length buf <? needed)%nat then (0%nat, buf) else
  let offset := 0%nat in
  (* Copy header *)
  let buf := memcpy buf offset (header_bytes (header pkt)) in
  let offset := (offset + sizeof_MultiSensorHeader)%nat in
  (* Copy value entries *)
  let vals_sz :=
    (Z.to_nat (hdr_valueCount (header pkt)) * sizeof_SensorValuePacket)%nat in
  let buf := memcpy buf offset (mem_read (values_image pkt) vals_sz) in
  let offset := (offset + vals_sz)%nat in
  (* Compute CRC over header + values *)
  let crc := lss_crc16 (take offset buf) in
  let buf := memcpy buf offset (le16 crc) in
  let offset := (offset + sizeof_uint16_t)%nat in
  (offset, buf).

(** Returns the success flag and [*out] afterwards. *)
Definition lss_deserialize_multi_sensor
    (buf : list Z) (out : MultiSensorPacket) : bool * MultiSensorPacket :=
  if (length buf <? sizeof_MultiSensorHeader + sizeof_uint16_t)%nat
  then (false, out) else
  let out := {| header := header_of_bytes buf;
                values := values out; checksum := checksum out |} in
  if negb (hdr_syncWord (header out) =? SYNC_MULTI_SENSOR)
  then (false, out) else
  if hdr_valueCount (header out) >? MAX_SENSOR_VALUES
  then (false, out) else
  let payload_end :=
    (sizeof_MultiSensorHeader
     + Z.to_nat (hdr_valueCount (header out)) * sizeof_SensorValuePacket)%nat in
  if (length buf <? payload_end + sizeof_uint16_t)%nat
  then (false, out) else
  (* Verify CRC *)
  let received_crc := rd16 buf payload_end in
  if negb (lss_crc16 (take payload_end buf) =? received_crc)
  then (false, out) else
  (* Copy value entries *)
  let n := Z.to_nat (hdr_valueCount (header out)) in
  (true,
   {| header := header out;
      values := values_of_bytes n (drop sizeof_MultiSensorHeader buf)
                ++ drop n (values out);
      checksum := received_crc |}).

Definition lss_serialize_command
    (pkt : CommandPacket) (buf : list Z) : nat * list Z :=
  if (length buf <? sizeof_CommandPacket)%nat then (0%nat, buf) else
  let buf := memcpy buf 0 (command_bytes pkt) in
  (* Recompute CRC over everything except the trailing uint16_t *)
  let payload_end := (sizeof_CommandPacket - sizeof_uint16_t)%nat in
  let crc := lss_crc16 (take payload_end buf) in
  let buf := memcpy buf payload_end (le16 crc) in
  (sizeof_CommandPacket, buf).

Definition lss_deserialize_command
    (buf : list Z) (out : CommandPacket) : bool * CommandPacket :=
  if (length buf <? sizeof_CommandPacket)%nat then (false, out) else
  let out := command_of_bytes buf in
  if negb (cmd_syncWord out =? SYNC_COMMAND) then (false, out) else
  let payload_end := (sizeof_CommandPacket - sizeof_uint16_t)%nat in
  let expected := lss_crc16 (take payload_end buf) in
  if negb (cmd_checksum out =? expected) then (false, out) else
  (true, out).

Definition lss_serialize_ack
    (pkt : AckPacket) (buf : list Z) : nat * list Z :=
  if (length buf <? sizeof_AckPacket)%nat then (0%nat, buf) else
  let buf := memcpy buf 0 (ack_bytes pkt) in
  let payload_end := (sizeof_AckPacket - sizeof_uint16_t)%nat in
  let crc := lss_crc16 (take payload_end buf) in
  let buf := memcpy buf payload_end (le16 crc) in
  (sizeof_AckPacket, buf).

Definition lss_build_ack (ack_type sensor_id seq status_code : Z)
    (buf : list Z) : nat * list Z :=
  let pkt :=
    {| ack_syncWord := SYNC_COMMAND;
       ack_commandType := ack_type mod 256;
       ack_sensorId := sensor_id;
       ack_sequenceNumber := seq;
       ack_statusCode := status_code;
       ack_dataLength := 0;
       ack_pad := 0;
       ack_data := replicate 192 0;
       ack_checksum := 0 |} in
  lss_serialize_ack pkt buf.

Definition lss_detect_packet (buf : list Z) : option PacketType :=
  if (length buf <? 2)%nat then None else
  let sync := rd16 buf 0 in
  if (sync =? SYNC_LEGACY) && (sizeof_SensorDataLegacy <=? length buf)%nat
  then Some PACKET_LEGACY
  else if sync =? SYNC_MULTI_SENSOR then Some PACKET_MULTI_SENSOR
  else if sync =? SYNC_COMMAND then
    if (3 <=? length buf)%nat
       && ((rd8 buf 2 =? CMD_ACK) || (rd8 buf 2 =? CMD_NACK))
    then Some PACKET_ACK else Some PACKET_CONFIG
  else None.

(** Modelled from the spec: the parser of acknowledgement frames.  The
    firmware only builds them; they are parsed on the base station
    ([BaseStation/lss_basestation/packet_parser.py]), whose code is not
    embedded here.  The spec gives the layout (section 3: "sync word (u16),
    command type (u8), sensor id (u8), sequence number (u8), status code
    (u8), data length (u8), one pad byte, 192-byte data area, trailing u16
    CRC") and the validity rule ("a valid command or ACK frame has fixed
    total size and CRC matching the header area excluding the trailing
    CRC"). *)
Definition deserialize_ack (buf : list Z) : option AckPacket :=
  if (length buf <? sizeof_AckPacket)%nat then None else
  if negb (rd16 buf 0 =? SYNC_COMMAND) then None else
  if negb (rd16 buf 200 =? lss_crc16 (take 200 buf)) then None else
  Some {| ack_syncWord := rd16 buf 0;
          ack_commandType := rd8 buf 2;
          ack_sensorId := rd8 buf 3;
          ack_sequenceNumber := rd8 buf 4;
          ack_statusCode := rd8 buf 5;
          ack_dataLength := rd8 buf 6;
          ack_pad := rd8 buf 7;
          ack_data := take 192 (drop 8 buf);
          ack_checksum := rd16 buf 200 |}.

(* ===================================================================== *)
(** ** Mesh router ([mesh.h], [mesh.cpp])                                 *)
(* ===================================================================== *)

(** [enum MeshPacketType]. *)
Definition MESH_DATA : Z := 0.
Definition MESH_ROUTE_REQUEST : Z := 1.
Definition MESH_ROUTE_REPLY : Z := 2.
Definition MESH_ROUTE_ERROR : Z := 3.
Definition MESH_NEIGHBOR_BEACON : Z := 4.

Definition MESH_MAX_ROUTES : nat := 20.
Definition MESH_MAX_HOPS : Z := 5.
Definition MESH_ROUTE_TIMEOUT : Z := 600000.
Definition MESH_BEACON_INTERVAL : Z := 30000.

(** [MeshHeader] (packed, 9 bytes). *)
Record MeshHeader := mkMeshHeader {
  mh_packetType : Z;
  mh_sourceId : Z;
  mh_destId : Z;
  mh_nextHop : Z;
  mh_prevHop : Z;
  mh_hopCount : Z;
  mh_ttl : Z;
  mh_sequenceNum : Z
}.

Definition sizeof_MeshHeader : nat := 9.

Definition meshheader_bytes (h : MeshHeader) : list Z :=
  [mh_packetType h; mh_sourceId h; mh_destId h; mh_nextHop h;
   mh_prevHop h; mh_hopCount h; mh_ttl h] ++ le16 (mh_sequenceNum h).

(** [memcpy(&hdr, raw, sizeof(MeshHeader))]. *)
Definition meshheader_of_bytes (raw : list Z) : MeshHeader :=
  {| mh_packetType := rd8 raw 0;
     mh_sourceId := rd8 raw 1;
     mh_destId := rd8 raw 2;
     mh_nextHop := rd8 raw 3;
     mh_prevHop := rd8 raw 4;
     mh_hopCount := rd8 raw 5;
     mh_ttl := rd8 raw 6;
     mh_sequenceNum := rd16 raw 7 |}.

Record RouteEntry := mkRouteEntry {
  re_destId : Z;
  re_nextHop : Z;
  re_hopCount : Z;
  re_lastUpdated : Z;   (* millis() timestamp *)
  re_valid : bool
}.

(** The private members of [class MeshRouter]; [_routes] has
    [MESH_MAX_ROUTES] entries. *)
Record MeshRouter := mkMeshRouter {
  _node_id : Z;
  _enabled : bool;
  _routes : list RouteEntry;
  _seq : Z;
  _last_beacon : Z
}.

(** [a - b] on [uint32_t]. *)
Definition u32_sub (a b : Z) : Z := (a - b) mod 4294967296.

Definition zero_route : RouteEntry :=
  {| re_destId := 0; re_nextHop := 0; re_hopCount := 0;
     re_lastUpdated := 0; re_valid := false |}.

(** The constructor: all members initialised, the table zeroed. *)
Definition MeshRouter_new (node_id : Z) (enabled : bool) : MeshRouter :=
  {| _node_id := node_id; _enabled := enabled;
     _routes := replicate MESH_MAX_ROUTES zero_route;
     _seq := 0; _last_beacon := 0 |}.

Definition set_routes (m : MeshRouter) (rs : list RouteEntry) : MeshRouter :=
  {| _node_id := _node_id m; _enabled := _enabled m; _routes := rs;
     _seq := _seq m; _last_beacon := _last_beacon m |}.

Definition set_enabled (enabled : bool) (m : MeshRouter) : MeshRouter :=
  {| _node_id := _node_id m; _enabled := enabled; _routes := _routes m;
     _seq := _seq m; _last_beacon := _last_beacon m |}.

(** [_routes[i]] for an [int] index. *)
Definition route_at (m : MeshRouter) (i : Z) : RouteEntry :=
  nth (Z.to_nat i) (_routes m) zero_route.

(** The loop of [_find_route] from index [i] on; [-1] when it runs out. *)
Fixpoint find_route_from (i : Z) (rs : list RouteEntry) (dest_id : Z) : Z :=
  match rs with
  | [] => -1
  | r :: rs' =>
      if re_valid r && (re_destId r =? dest_id) then i
      else find_route_from (i + 1) rs' dest_id
  end.

Definition _find_route (m : MeshRouter) (dest_id : Z) : Z :=
  find_route_from 0 (_routes m) dest_id.

(** First loop of [_alloc_slot]: the first invalid slot from index [i] on;
    [-1] when the loop ends without returning. *)
Fixpoint first_invalid_from (i : Z) (rs : list RouteEntry) : Z :=
  match rs with
  | [] => -1
  | r :: rs' => if negb (re_valid r) then i else first_invalid_from (i + 1) rs'
  end.

(** Second loop of [_alloc_slot], from index [i] on. *)
Fixpoint oldest_from (i : Z) (rs : list RouteEntry) (oldest oldest_ts : Z) : Z :=
  match rs with
  | [] => oldest
  | r :: rs' =>
      if re_lastUpdated r <? oldest_ts
      then oldest_from (i + 1) rs' i (re_lastUpdated r)
      else oldest_from (i + 1) rs' oldest oldest_ts
  end.

Definition _alloc_slot (m : MeshRouter) : Z :=
  (* Prefer an invalid slot *)
  let i := first_invalid_from 0 (_routes m) in
  if 0 <=? i then i else
  (* Evict oldest *)
  oldest_from 1 (drop 1 (_routes m)) 0 (re_lastUpdated (route_at m 0)).

(** [_seq++]: the value returned and the router afterwards. *)
Definition _next_seq (m : MeshRouter) : Z * MeshRouter :=
  (_seq m,
   {| _node_id := _node_id m; _enabled := _enabled m; _routes := _routes m;
      _seq := (_seq m + 1) mod 65536; _last_beacon := _last_beacon m |}).

Definition update_route (now : Z) (dest_id next_hop hop_count : Z)
    (m : MeshRouter) : MeshRouter :=
  let idx := _find_route m dest_id in
  let idx := if idx <? 0 then _alloc_slot m else idx in
  set_routes m
    (<[Z.to_nat idx :=
        {| re_destId := dest_id; re_nextHop := next_hop;
           re_hopCount := hop_count; re_lastUpdated := now;
           re_valid := true |}]> (_routes m)).

Definition next_hop_for (m : MeshRouter) (dest_id : Z) : Z :=
  let idx := _find_route m dest_id in
  if (0 <=? idx) && re_valid (route_at m idx)
  then re_nextHop (route_at m idx)
  else 255.  (* no route: broadcast as fallback *)

Definition evict_stale_routes (now : Z) (m : MeshRouter) : MeshRouter :=
  set_routes m
    (map (fun r =>
            if re_valid r && (u32_sub now (re_lastUpdated r) >? MESH_ROUTE_TIMEOUT)
            then {| re_destId := re_destId r; re_nextHop := re_nextHop r;
                    re_hopCount := re_hopCount r;
                    re_lastUpdated := re_lastUpdated r; re_valid := false |}
            else r)
         (_routes m)).

(** [receive]: [Some payload] stands for the result [true] with
    [*out_payload = raw + sizeof(MeshHeader)] and
    [*out_len = len - sizeof(MeshHeader)]; [None] for the result [false],
    the out-parameters untouched. *)
Definition receive (now : Z) (raw : list Z) (m : MeshRouter)
    : option (list Z) * MeshRouter :=
  if (length raw <? sizeof_MeshHeader)%nat then (None, m) else
  let hdr := meshheader_of_bytes raw in
  (* Drop packets that have exceeded the hop limit *)
  if mh_hopCount hdr >=? MESH_MAX_HOPS then (None, m) else
  (* Record the neighbor that sent this packet *)
  let m :=
    if negb (mh_prevHop hdr =? 0) && negb (mh_prevHop hdr =? 255)
    then update_route now (mh_sourceId hdr) (mh_prevHop hdr) (mh_hopCount hdr) m
    else m in
  if mh_packetType hdr =? MESH_NEIGHBOR_BEACON then
    (None, update_route now (mh_sourceId hdr) (mh_sourceId hdr) 1 m)
  else if mh_packetType hdr =? MESH_ROUTE_REQUEST then
    if mh_destId hdr =? _node_id m
    then (Some (drop sizeof_MeshHeader raw), m)
    else (None, m)
  (* MESH_DATA: check if we are the destination *)
  else if (mh_destId hdr =? _node_id m) || (mh_destId hdr =? 255)
  then (Some (drop sizeof_MeshHeader raw), m)
  else (None, m).

(** [wrap]: bytes written, the output buffer and the router afterwards. *)
Definition wrap (dest_id : Z) (payload : list Z) (out_buf : list Z)
    (m : MeshRouter) : nat * list Z * MeshRouter :=
  let total := (sizeof_MeshHeader + length payload)%nat in
  if (length out_buf <? total)%nat then (0%nat, out_buf, m) else
  let '(seq, m') := _next_seq m in
  let hdr :=
    {| mh_packetType := MESH_DATA;
       mh_sourceId := _node_id m;
       mh_destId := dest_id;
       mh_nextHop := if dest_id =? 255 then 255 else next_hop_for m dest_id;
       mh_prevHop := _node_id m;
       mh_hopCount := 0;
       mh_ttl := MESH_MAX_HOPS;
       mh_sequenceNum := seq |} in
  let out_buf := memcpy out_buf 0 (meshheader_bytes hdr) in
  let out_buf := memcpy out_buf sizeof_MeshHeader payload in
  (total, out_buf, m').

(** [tick]: bytes written, the output buffer and the router afterwards. *)
Definition tick (now : Z) (out_buf : list Z) (m : MeshRouter)
    : nat * list Z * MeshRouter :=
  let m := evict_stale_routes now m in
  if u32_sub now (_last_beacon m) <? MESH_BEACON_INTERVAL
  then (0%nat, out_buf, m) else
  let m := {| _node_id := _node_id m; _enabled := _enabled m;
              _routes := _routes m; _seq := _seq m; _last_beacon := now |} in
  if (length out_buf <? sizeof_MeshHeader)%nat then (0%nat, out_buf, m) else
  let '(seq, m') := _next_seq m in
  let hdr :=
    {| mh_packetType := MESH_NEIGHBOR_BEACON;
       mh_sourceId := _node_id m;
       mh_destId := 255;    (* broadcast *)
       mh_nextHop := 255;
       mh_prevHop := _node_id m;
       mh_hopCount := 0;
       mh_ttl := 1;         (* beacons are single-hop *)
       mh_sequenceNum := seq |} in
  (sizeof_MeshHeader, memcpy out_buf 0 (meshheader_bytes hdr), m').

(** A call of one public method of the router, for reasoning about
    arbitrary interleavings. *)
Inductive RouterCall :=
| CallReceive (raw : list Z)
| CallWrap (dest_id : Z) (payload out_buf : list Z)
| CallTick (out_buf : list Z)
| CallUpdateRoute (dest_id next_hop hop_count : Z)
| CallEvictStaleRoutes
| CallSetEnabled (enabled : bool).

(** The router after a call made when [millis()] reads [now]. *)
Definition call (now : Z) (c : RouterCall) (m : MeshRouter) : MeshRouter :=
  match c with
  | CallReceive raw => (receive now raw m).2
  | CallWrap dest_id payload out_buf => (wrap dest_id payload out_buf m).2
  | CallTick out_buf => (tick now out_buf m).2
  | CallUpdateRoute d nh hc => update_route now d nh hc m
  | CallEvictStaleRoutes => evict_stale_routes now m
  | CallSetEnabled b => set_enabled b m
  end.

(** A sequence of timestamped calls, first call first. *)
Definition calls (cs : list (Z * RouterCall)) (m : MeshRouter) : MeshRouter :=
  fold_left (fun m tc => call tc.1 tc.2 m) cs m.

(* ===================================================================== *)
(** ** C strings                                                          *)
(* ===================================================================== *)

(** [strnlen(s, n)]. *)
Fixpoint strnlen (s : list Z) (n : nat) : nat :=
  match n, s with
  | S n', c :: s' => if c =? 0 then O else S (strnlen s' n')
  | _, _ => O
  end.

(** The [n] bytes that [strncpy(_, src, n)] writes: the characters of [src]
    before its terminator (at most [n]), then zero padding. *)
Definition strncpy_bytes (src : list Z) (n : nat) : list Z :=
  let k := strnlen src n in take k src ++ replicate (n - k) 0.

(** The C string held in a [char] array. *)
Definition cstr (a : list Z) : list Z := take (strnlen a (length a)) a.

(* ===================================================================== *)
(** ** Node configuration store ([node_config.h], [node_config.cpp])      *)
(* ===================================================================== *)

Definition LOCATION_MAXLEN : nat := 32.
Definition ZONE_MAXLEN : nat := 16.

Record NodeConfig := mkNodeConfig {
  nodeId : Z;
  networkId : Z;
  telemetryIntervalMs : Z;
  location : list Z;              (* char location[LOCATION_MAXLEN] *)
  zone : list Z;                  (* char zone[ZONE_MAXLEN] *)
  tempThreshHigh : Z;             (* float *)
  tempThreshLow : Z;              (* float *)
  batteryThreshLow : Z;           (* float *)
  batteryThreshCritical : Z;      (* float *)
  loraFrequency : Z;              (* float *)
  loraSpreadingFactor : Z;
  loraTxPower : Z;
  meshEnabled : bool;
  tzOffsetMinutes : Z;            (* int32_t *)
  lastTimeSync : Z
}.

(** A value stored under a key of the NVS namespace, by the [Preferences]
    call that writes it. *)
Inductive NvsValue :=
| NvsUChar (v : Z)
| NvsUShort (v : Z)
| NvsULong (v : Z)
| NvsLong (v : Z)
| NvsFloat (bits : Z)
| NvsBool (b : bool)
| NvsString (s : list Z).

(** [NodeConfigStore]: the in-memory config [_cfg] and the flash namespace
    ["lss_node"] behind it.  [nvs_ok] tells whether [Preferences::begin]
    opens the namespace. *)
Record NodeConfigStore := mkNodeConfigStore {
  _cfg : NodeConfig;
  nvs_ok : bool;
  nvs : gmap string NvsValue
}.

Definition set_cfg (s : NodeConfigStore) (c : NodeConfig) : NodeConfigStore :=
  {| _cfg := c; nvs_ok := nvs_ok s; nvs := nvs s |}.

(** ["Unknown"] and ["default"]. *)
Definition str_Unknown : list Z := [85; 110; 107; 110; 111; 119; 110; 0].
Definition str_default : list Z := [100; 101; 102; 97; 117; 108; 116; 0].

(** [strncpy(dst, src, n - 1); dst[n - 1] = '\0'] on a [char dst[n]]. *)
Definition copy_string (n : nat) (dst src : list Z) : list Z :=
  let dst := memcpy (fixed n dst) 0 (strncpy_bytes src (n - 1)) in
  memcpy dst (n - 1) [0].

Definition _fill_defaults (cfg : NodeConfig) : NodeConfig :=
  {| nodeId := 1;
     networkId := 1;
     telemetryIntervalMs := 30000;
     location := copy_string LOCATION_MAXLEN (location cfg) str_Unknown;
     zone := copy_string ZONE_MAXLEN (zone cfg) str_default;
     tempThreshHigh := 0x42480000;         (* 50.0f *)
     tempThreshLow := 0xC1A00000;          (* -20.0f *)
     batteryThreshLow := 0x41A00000;       (* 20.0f *)
     batteryThreshCritical := 0x41200000;  (* 10.0f *)
     loraFrequency := 0x4464C000;          (* 915.0f *)
     loraSpreadingFactor := 10;
     loraTxPower := 20;
     meshEnabled := true;
     tzOffsetMinutes := 0;
     lastTimeSync := 0 |}.

(** The fifteen [put] calls of [save]. *)
Definition nvs_put_all (c : NodeConfig) (m : gmap string NvsValue)
    : gmap string NvsValue :=
  <["time_sync" := NvsULong (lastTimeSync c)]>
  (<["tz_offset" := NvsLong (tzOffsetMinutes c)]>
  (<["mesh_en" := NvsBool (meshEnabled c)]>
  (<["lora_txpwr" := NvsUChar (loraTxPower c)]>
  (<["lora_sf" := NvsUChar (loraSpreadingFactor c)]>
  (<["lora_freq" := NvsFloat (loraFrequency c)]>
  (<["batt_crit" := NvsFloat (batteryThreshCritical c)]>
  (<["batt_lo" := NvsFloat (batteryThreshLow c)]>
  (<["temp_lo" := NvsFloat (tempThreshLow c)]>
  (<["temp_hi" := NvsFloat (tempThreshHigh c)]>
  (<["zone" := NvsString (cstr (zone c))]>
  (<["location" := NvsString (cstr (location c))]>
  (<["tx_interval" := NvsULong (telemetryIntervalMs c)]>
  (<["network_id" := NvsUShort (networkId c)]>
  (<["node_id" := NvsUChar (nodeId c)]> m)))))))))))))).

(** [NodeConfigStore::save] (firmware build): the result and the store. *)
Definition save (s : NodeConfigStore) : bool * NodeConfigStore :=
  if negb (nvs_ok s) then (false, s) else
  (true, {| _cfg := _cfg s; nvs_ok := nvs_ok s;
            nvs := nvs_put_all (_cfg s) (nvs s) |}).

(** [NodeConfigStore::factory_reset] (firmware build). *)
Definition factory_reset (s : NodeConfigStore) : NodeConfigStore :=
  let s := {| _cfg := _cfg s; nvs_ok := nvs_ok s;
              nvs := if nvs_ok s then ∅ else nvs s |} in
  let s := set_cfg s (_fill_defaults (_cfg s)) in
  (save s).2.

(* ===================================================================== *)
(** ** Command applier ([command_handler.cpp], firmware build)            *)
(* ===================================================================== *)

(** How a call of [handle_command] ends: it returns a byte count, or the
    node reboots inside the call ([ESP.restart()]). *)
Inductive Outcome :=
| Returned (n : nat)
| Restarted.

Definition _ack (sensor_id seq : Z) (success : bool) (buf : list Z)
    : nat * list Z :=
  lss_build_ack (if success then CMD_ACK else CMD_NACK)
                sensor_id seq
                (if success then 0x00 else 0x01)
                buf.

(** [(int16_t)x] for the two bytes copied into an [int16_t]. *)
Definition int16_of (x : Z) : Z := if x <? 32768 then x else x - 65536.

(** [a - b] on [size_t] (32 bits on the target). *)
Definition size_sub (a b : Z) : Z := (a - b) mod 4294967296.

Definition with_interval (c : NodeConfig) (v : Z) : NodeConfig :=
  {| nodeId := nodeId c; networkId := networkId c;
     telemetryIntervalMs := v;
     location := location c; zone := zone c;
     tempThreshHigh := tempThreshHigh c; tempThreshLow := tempThreshLow c;
     batteryThreshLow := batteryThreshLow c;
     batteryThreshCritical := batteryThreshCritical c;
     loraFrequency := loraFrequency c;
     loraSpreadingFactor := loraSpreadingFactor c;
     loraTxPower := loraTxPower c; meshEnabled := meshEnabled c;
     tzOffsetMinutes := tzOffsetMinutes c; lastTimeSync := lastTimeSync c |}.

Definition with_location (c : NodeConfig) (l : list Z) : NodeConfig :=
  {| nodeId := nodeId c; networkId := networkId c;
     telemetryIntervalMs := telemetryIntervalMs c;
     location := l; zone := zone c;
     tempThreshHigh := tempThreshHigh c; tempThreshLow := tempThreshLow c;
     batteryThreshLow := batteryThreshLow c;
     batteryThreshCritical := batteryThreshCritical c;
     loraFrequency := loraFrequency c;
     loraSpreadingFactor := loraSpreadingFactor c;
     loraTxPower := loraTxPower c; meshEnabled := meshEnabled c;
     tzOffsetMinutes := tzOffsetMinutes c; lastTimeSync := lastTimeSync c |}.

Definition with_zone (c : NodeConfig) (z : list Z) : NodeConfig :=
  {| nodeId := nodeId c; networkId := networkId c;
     telemetryIntervalMs := telemetryIntervalMs c;
     location := location c; zone := z;
     tempThreshHigh := tempThreshHigh c; tempThreshLow := tempThreshLow c;
     batteryThreshLow := batteryThreshLow c;
     batteryThreshCritical := batteryThreshCritical c;
     loraFrequency := loraFrequency c;
     loraSpreadingFactor := loraSpreadingFactor c;
     loraTxPower := loraTxPower c; meshEnabled := meshEnabled c;
     tzOffsetMinutes := tzOffsetMinutes c; lastTimeSync := lastTimeSync c |}.

Definition with_temp_thresh (c : NodeConfig) (lo hi : Z) : NodeConfig :=
  {| nodeId := nodeId c; networkId := networkId c;
     telemetryIntervalMs := telemetryIntervalMs c;
     location := location c; zone := zone c;
     tempThreshHigh := hi; tempThreshLow := lo;
     batteryThreshLow := batteryThreshLow c;
     batteryThreshCritical := batteryThreshCritical c;
     loraFrequency := loraFrequency c;
     loraSpreadingFactor := loraSpreadingFactor c;
     loraTxPower := loraTxPower c; meshEnabled := meshEnabled c;
     tzOffsetMinutes := tzOffsetMinutes c; lastTimeSync := lastTimeSync c |}.

Definition with_battery_thresh (c : NodeConfig) (lo crit : Z) : NodeConfig :=
  {| nodeId := nodeId c; networkId := networkId c;
     telemetryIntervalMs := telemetryIntervalMs c;
     location := location c; zone := zone c;
     tempThreshHigh := tempThreshHigh c; tempThreshLow := tempThreshLow c;
     batteryThreshLow := lo; batteryThreshCritical := crit;
     loraFrequency := loraFrequency c;
     loraSpreadingFactor := loraSpreadingFactor c;
     loraTxPower := loraTxPower c; meshEnabled := meshEnabled c;
     tzOffsetMinutes := tzOffsetMinutes c; lastTimeSync := lastTimeSync c |}.

Definition with_mesh_enabled (c : NodeConfig) (b : bool) : NodeConfig :=
  {| nodeId := nodeId c; networkId := networkId c;
     telemetryIntervalMs := telemetryIntervalMs c;
     location := location c; zone := zone c;
     tempThreshHigh := tempThreshHigh c; tempThreshLow := tempThreshLow c;
     batteryThreshLow := batteryThreshLow c;
     batteryThreshCritical := batteryThreshCritical c;
     loraFrequency := loraFrequency c;
     loraSpreadingFactor := loraSpreadingFactor c;
     loraTxPower := loraTxPower c; meshEnabled := b;
     tzOffsetMinutes := tzOffsetMinutes c; lastTimeSync := lastTimeSync c |}.

Definition with_lora (c : NodeConfig) (freq sf tx_power : Z) : NodeConfig :=
  {| nodeId := nodeId c; networkId := networkId c;
     telemetryIntervalMs := telemetryIntervalMs c;
     location := location c; zone := zone c;
     tempThreshHigh := tempThreshHigh c; tempThreshLow := tempThreshLow c;
     batteryThreshLow := batteryThreshLow c;
     batteryThreshCritical := batteryThreshCritical c;
     loraFrequency := freq; loraSpreadingFactor := sf;
     loraTxPower := tx_power; meshEnabled := meshEnabled c;
     tzOffsetMinutes := tzOffsetMinutes c; lastTimeSync := lastTimeSync c |}.

Definition with_time (c : NodeConfig) (epoch tz : Z) : NodeConfig :=
  {| nodeId := nodeId c; networkId := networkId c;
     telemetryIntervalMs := telemetryIntervalMs c;
     location := location c; zone := zone c;
     tempThreshHigh := tempThreshHigh c; tempThreshLow := tempThreshLow c;
     batteryThreshLow := batteryThreshLow c;
     batteryThreshCritical := batteryThreshCritical c;
     loraFrequency := loraFrequency c;
     loraSpreadingFactor := loraSpreadingFactor c;
     loraTxPower := loraTxPower c; meshEnabled := meshEnabled c;
     tzOffsetMinutes := tz; lastTimeSync := epoch |}.

(** The body of the [CMD_SET_LOCATION] case, up to [cfg_store.save()]. *)
Definition set_location (pkt : CommandPacket) (cfg : NodeConfig) : NodeConfig :=
  let data := fixed 192 (cmd_data pkt) in
  let loc_len := strnlen data LOCATION_MAXLEN in
  let cfg := with_location cfg (copy_string LOCATION_MAXLEN (location cfg) data) in
  let zone_ptr := drop (loc_len + 1) data in
  let remaining := size_sub (cmd_dataLength pkt) (Z.of_nat (loc_len + 1)) in
  if (remaining >? 0) && (remaining <=? Z.of_nat ZONE_MAXLEN)
  then with_zone cfg (copy_string ZONE_MAXLEN (zone cfg) zone_ptr)
  else cfg.

(** [handle_command]: how the call ends, [ack_buf], the config store and
    the mesh router afterwards. *)
Definition handle_command (pkt : CommandPacket) (cfg_store : NodeConfigStore)
    (mesh : MeshRouter) (ack_buf : list Z)
    : Outcome * list Z * NodeConfigStore * MeshRouter :=
  let cfg := _cfg cfg_store in
  let seq := cmd_sequenceNumber pkt in
  let nid := nodeId cfg in
  let data := fixed 192 (cmd_data pkt) in
  let c := cmd_commandType pkt in
  let finish (ok : bool) (st : NodeConfigStore) (me : MeshRouter) :=
    let '(n, buf) := _ack nid seq ok ack_buf in (Returned n, buf, st, me) in
  if (c =? CMD_PING) || (c =? CMD_GET_CONFIG) then
    finish true cfg_store mesh
  else if c =? CMD_SET_INTERVAL then
    if cmd_dataLength pkt >=? 4 then
      let interval := rd32 data 0 in
      if (interval >=? 1000) && (interval <=? 3600000)
      then finish true (save (set_cfg cfg_store (with_interval cfg interval))).2 mesh
      else finish false cfg_store mesh
    else finish false cfg_store mesh
  else if c =? CMD_SET_LOCATION then
    finish true (save (set_cfg cfg_store (set_location pkt cfg))).2 mesh
  else if c =? CMD_SET_TEMP_THRESH then
    if cmd_dataLength pkt >=? 8 then
      let lo := rd32 data 0 in
      let hi := rd32 data 4 in
      finish true (save (set_cfg cfg_store (with_temp_thresh cfg lo hi))).2 mesh
    else finish false cfg_store mesh
  else if c =? CMD_SET_BATTERY_THRESH then
    if cmd_dataLength pkt >=? 8 then
      let lo := rd32 data 0 in
      let crit := rd32 data 4 in
      finish true (save (set_cfg cfg_store (with_battery_thresh cfg lo crit))).2 mesh
    else finish false cfg_store mesh
  else if c =? CMD_SET_MESH_CONFIG then
    if cmd_dataLength pkt >=? 1 then
      let enabled := negb (rd8 data 0 =? 0) in
      finish true (save (set_cfg cfg_store (with_mesh_enabled cfg enabled))).2
             (set_enabled enabled mesh)
    else finish false cfg_store mesh
  else if c =? CMD_RESTART then
    (* ACK before restart so the base station knows we got it *)
    let '(_, buf) := lss_build_ack CMD_ACK nid seq 0 ack_buf in
    (Restarted, buf, cfg_store, mesh)
  else if c =? CMD_FACTORY_RESET then
    let '(_, buf) := lss_build_ack CMD_ACK nid seq 0 ack_buf in
    (Restarted, buf, factory_reset cfg_store, mesh)
  else if c =? CMD_SET_LORA_PARAMS then
    if cmd_dataLength pkt >=? 7 then
      let freq := rd32 data 0 in
      let sf := rd8 data 4 in
      let tx_power := rd8 data 6 in
      finish true (save (set_cfg cfg_store (with_lora cfg freq sf tx_power))).2 mesh
    else finish false cfg_store mesh
  else if (c =? CMD_TIME_SYNC) || (c =? CMD_BASE_WELCOME) then
    if cmd_dataLength pkt >=? 6 then
      let epoch := rd32 data 0 in
      let tz := int16_of (rd16 data 4) in
      finish true (save (set_cfg cfg_store (with_time cfg epoch tz))).2 mesh
    else finish false cfg_store mesh
  else finish false cfg_store mesh.

(** *** Frame bodies: the bytes a CRC covers *)

(** The body of a serialised multi-sensor frame: header and value bytes. *)
Definition frame_body (p : MultiSensorPacket) : list Z :=
  header_bytes (header p)
  ++ mem_read (values_image p)
       (Z.to_nat (hdr_valueCount (header p)) * sizeof_SensorValuePacket).

(** The bytes of a command object before its checksum member. *)
Definition command_body (c : CommandPacket) : list Z :=
  le16 (cmd_syncWord c)
  ++ [cmd_commandType c; cmd_targetSensorId c; cmd_sequenceNumber c;
      cmd_dataLength c; cmd_pad c]
  ++ fixed 192 (cmd_data c).

(** The bytes of an acknowledgement object before its checksum member. *)
Definition ack_body (a : AckPacket) : list Z :=
  le16 (ack_syncWord a)
  ++ [ack_commandType a; ack_sensorId a; ack_sequenceNumber a;
      ack_statusCode a; ack_dataLength a; ack_pad a]
  ++ fixed 192 (ack_data a).

(* ===================================================================== *)
(** ** Well-formed values of the C types                                  *)
(* ===================================================================== *)

Definition is_u8 (x : Z) : bool := (0 <=? x) && (x <? 256).
Definition is_u16 (x : Z) : bool := (0 <=? x) && (x <? 65536).
Definition is_u32 (x : Z) : bool := (0 <=? x) && (x <? 4294967296).

(** A [uint8_t a[n]] or [char a[n]]. *)
Definition is_array (n : nat) (a : list Z) : bool :=
  (length a =? n)%nat && forallb is_u8 a.

Definition value_wf (v : SensorValuePacket) : bool :=
  is_u8 (sv_type v) && is_u32 (sv_value v).

Definition header_wf (h : MultiSensorHeader) : bool :=
  is_u16 (hdr_syncWord h) && is_u16 (hdr_networkId h)
  && is_u8 (hdr_packetType h) && is_u8 (hdr_sensorId h)
  && is_u8 (hdr_valueCount h) && is_u8 (hdr_batteryPercent h)
  && is_u8 (hdr_powerState h) && is_u8 (hdr_lastCommandSeq h)
  && is_u8 (hdr_ackStatus h) && is_u8 (hdr_pad h)
  && is_array 32 (hdr_location h) && is_array 16 (hdr_zone h).

(** A [MultiSensorPacket] object. *)
Definition packet_wf (p : MultiSensorPacket) : bool :=
  header_wf (header p)
  && (length (values p) =? Z.to_nat MAX_SENSOR_VALUES)%nat
  && forallb value_wf (values p) && is_u16 (checksum p).

(** A well-formed multi-sensor packet in the sense of the protocol: the
    sync word is right and at most sixteen values are announced. *)
Definition multi_sensor_wf (p : MultiSensorPacket) : bool :=
  packet_wf p
  && (hdr_syncWord (header p) =? SYNC_MULTI_SENSOR)
  && (hdr_valueCount (header p) <=? MAX_SENSOR_VALUES).

(** A [CommandPacket] object with the right sync word. *)
Definition command_wf (c : CommandPacket) : bool :=
  (cmd_syncWord c =? SYNC_COMMAND)
  && is_u8 (cmd_commandType c) && is_u8 (cmd_targetSensorId c)
  && is_u8 (cmd_sequenceNumber c) && is_u8 (cmd_dataLength c)
  && is_u8 (cmd_pad c) && is_array 192 (cmd_data c)
  && is_u16 (cmd_checksum c).

(** An [AckPacket] object with the right sync word. *)
Definition ack_wf (a : AckPacket) : bool :=
  (ack_syncWord a =? SYNC_COMMAND)
  && is_u8 (ack_commandType a) && is_u8 (ack_sensorId a)
  && is_u8 (ack_sequenceNumber a) && is_u8 (ack_statusCode a)
  && is_u8 (ack_dataLength a) && is_u8 (ack_pad a)
  && is_array 192 (ack_data a) && is_u16 (ack_checksum a).

(** The packet with another checksum member. *)
Definition command_with_checksum (c : CommandPacket) (crc : Z) : CommandPacket :=
  {| cmd_syncWord := cmd_syncWord c; cmd_commandType := cmd_commandType c;
     cmd_targetSensorId := cmd_targetSensorId c;
     cmd_sequenceNumber := cmd_sequenceNumber c;
     cmd_dataLength := cmd_dataLength c; cmd_pad := cmd_pad c;
     cmd_data := cmd_data c; cmd_checksum := crc |}.

Definition ack_with_checksum (a : AckPacket) (crc : Z) : AckPacket :=
  {| ack_syncWord := ack_syncWord a; ack_commandType := ack_commandType a;
     ack_sensorId := ack_sensorId a;
     ack_sequenceNumber := ack_sequenceNumber a;
     ack_statusCode := ack_statusCode a;
     ack_dataLength := ack_dataLength a; ack_pad := ack_pad a;
     ack_data := ack_data a; ack_checksum := crc |}.

(** The trailing CRC of a frame of [n] bytes verifies. *)
Definition crc_verifies (frame : list Z) : Prop :=
  rd16 frame (length frame - 2) = lss_crc16 (take (length frame - 2) frame).

(** The router's table has its [MESH_MAX_ROUTES] slots. *)
Definition router_wf (m : MeshRouter) : bool :=
  (length (_routes m) =? MESH_MAX_ROUTES)%nat.

(** *** Auxiliary notions *)

(** The test of the loop of [_find_route]. *)
Definition route_matches (dest_id : Z) (r : RouteEntry) : bool :=
  re_valid r && (re_destId r =? dest_id).


(* ===================================================================== *)
(** ** Sample data                                                        *)
(* ===================================================================== *)

(** ["123456789"]. *)
Definition check_string : list Z := [49; 50; 51; 52; 53; 54; 55; 56; 57].

Definition sample_header (value_count : Z) : MultiSensorHeader :=
  {| hdr_syncWord := SYNC_MULTI_SENSOR; hdr_networkId := 1;
     hdr_packetType := 1; hdr_sensorId := 5; hdr_valueCount := value_count;
     hdr_batteryPercent := 85; hdr_powerState := 0;
     hdr_lastCommandSeq := 0; hdr_ackStatus := 0; hdr_pad := 0;
     hdr_location := fixed 32 [83; 104; 101; 100];               (* "Shed" *)
     hdr_zone := fixed 16 [79; 117; 116; 100; 111; 111; 114] |}. (* "Outdoor" *)

(** Temperature 19.5 and humidity 62.0 in the first two slots. *)
Definition sample_values : list SensorValuePacket :=
  [ {| sv_type := 0; sv_value := 0x419C0000 |};
    {| sv_type := 1; sv_value := 0x42780000 |} ]
  ++ replicate 14 {| sv_type := 0; sv_value := 0 |}.

Definition sample_packet (value_count : Z) : MultiSensorPacket :=
  {| header := sample_header value_count; values := sample_values;
     checksum := 0 |}.

(** [SET_INTERVAL] carrying the little-endian [v]. *)
Definition set_interval_command (seq target data_length v : Z) : CommandPacket :=
  {| cmd_syncWord := SYNC_COMMAND; cmd_commandType := CMD_SET_INTERVAL;
     cmd_targetSensorId := target; cmd_sequenceNumber := seq;
     cmd_dataLength := data_length; cmd_pad := 0;
     cmd_data := fixed 192 (le32 v); cmd_checksum := 0 |}.

Definition sample_ack : AckPacket :=
  {| ack_syncWord := SYNC_COMMAND; ack_commandType := CMD_NACK;
     ack_sensorId := 2; ack_sequenceNumber := 9; ack_statusCode := 1;
     ack_dataLength := 0; ack_pad := 0; ack_data := replicate 192 0;
     ack_checksum := 0 |}.

Definition default_store : NodeConfigStore :=
  {| _cfg := _fill_defaults
       {| nodeId := 0; networkId := 0; telemetryIntervalMs := 0;
          location := replicate 32 0; zone := replicate 16 0;
          tempThreshHigh := 0; tempThreshLow := 0; batteryThreshLow := 0;
          batteryThreshCritical := 0; loraFrequency := 0;
          loraSpreadingFactor := 0; loraTxPower := 0; meshEnabled := false;
          tzOffsetMinutes := 0; lastTimeSync := 0 |};
     nvs_ok := true; nvs := ∅ |}.

(** A mesh frame as the tests build it: [nextHop = dest], [prevHop = src],
    sequence number 1. *)
Definition mesh_frame (pkt_type src dest hop_count ttl : Z) (payload : list Z)
    : list Z :=
  meshheader_bytes
    {| mh_packetType := pkt_type; mh_sourceId := src; mh_destId := dest;
       mh_nextHop := dest; mh_prevHop := src; mh_hopCount := hop_count;
       mh_ttl := ttl; mh_sequenceNum := 1 |} ++ payload.

(** The 202 bytes of a serialised ACK or NACK with an empty data area. *)
Definition ack_frame (kind sensor_id seq status_code : Z) : list Z :=
  let body := le16 SYNC_COMMAND
              ++ [kind; sensor_id; seq; status_code; 0; 0]
              ++ replicate 192 0 in
  body ++ le16 (lss_crc16 body).

(** [SET_LOCATION] with the given data area. *)
Definition set_location_command (data_length : Z) (data : list Z) : CommandPacket :=
  {| cmd_syncWord := SYNC_COMMAND; cmd_commandType := CMD_SET_LOCATION;
     cmd_targetSensorId := 1; cmd_sequenceNumber := 3;
     cmd_dataLength := data_length; cmd_pad := 0;
     cmd_data := fixed 192 data; cmd_checksum := 0 |}.

(** The configuration after a command is applied to the default store. *)
Definition applied_config (pkt : CommandPacket) : NodeConfig :=
  _cfg (handle_command pkt default_store (MeshRouter_new 1 true)
                       (replicate 255 0)).1.2.

(** The default store on a node whose NVS namespace does not open
    ([Preferences::begin] fails). *)
Definition unopened_store : NodeConfigStore :=
  {| _cfg := _cfg default_store; nvs_ok := false; nvs := ∅ |}.

(* ===================================================================== *)
(** ** Configuration store: reading back ([node_config.cpp])            *)
(* ===================================================================== *)

(** *** Reading the configuration back ([NodeConfigStore::load]) *)

(** The getters of [Preferences] (the NVS wrapper of the ESP32 Arduino
    core): the value stored under the key by the put call of the same type,
    or the default. *)
Definition getUChar (m : gmap string NvsValue) (key : string) (def : Z) : Z :=
  match m !! key with Some (NvsUChar v) => v | _ => def end.

Definition getUShort (m : gmap string NvsValue) (key : string) (def : Z) : Z :=
  match m !! key with Some (NvsUShort v) => v | _ => def end.

Definition getULong (m : gmap string NvsValue) (key : string) (def : Z) : Z :=
  match m !! key with Some (NvsULong v) => v | _ => def end.

Definition getLong (m : gmap string NvsValue) (key : string) (def : Z) : Z :=
  match m !! key with Some (NvsLong v) => v | _ => def end.

Definition getFloat (m : gmap string NvsValue) (key : string) (def : Z) : Z :=
  match m !! key with Some (NvsFloat v) => v | _ => def end.

Definition getBool (m : gmap string NvsValue) (key : string) (def : bool) : bool :=
  match m !! key with Some (NvsBool b) => b | _ => def end.

(** [getString(key, buf, max_len)]: the stored string and its terminator
    are copied to the front of [buf] when they fit in [max_len] bytes;
    otherwise, and when the key is missing, [buf] is left alone. *)
Definition getString (m : gmap string NvsValue) (key : string)
    (buf : list Z) (max_len : nat) : list Z :=
  match m !! key with
  | Some (NvsString s) =>
      if (length s + 1 <=? max_len)%nat then memcpy buf 0 (s ++ [0]) else buf
  | _ => buf
  end.

(** [NodeConfigStore::load] (firmware build).  [ro_ok] tells whether the
    read-only [Preferences::begin] opens the namespace (it does not before
    the namespace is first written). *)
Definition load (ro_ok : bool) (s : NodeConfigStore) : bool * NodeConfigStore :=
  if negb ro_ok then
    (* Namespace doesn't exist yet: write defaults *)
    save (set_cfg s (_fill_defaults (_cfg s)))
  else
    let m := nvs s in
    let c := _cfg s in
    (true,
     set_cfg s
       {| nodeId := getUChar m "node_id" 1;
          networkId := getUShort m "network_id" 1;
          telemetryIntervalMs := getULong m "tx_interval" 30000;
          location := getString m "location" (location c) LOCATION_MAXLEN;
          zone := getString m "zone" (zone c) ZONE_MAXLEN;
          tempThreshHigh := getFloat m "temp_hi" 0x42480000;
          tempThreshLow := getFloat m "temp_lo" 0xC1A00000;
          batteryThreshLow := getFloat m "batt_lo" 0x41A00000;
          batteryThreshCritical := getFloat m "batt_crit" 0x41200000;
          loraFrequency := getFloat m "lora_freq" 0x4464C000;
          loraSpreadingFactor := getUChar m "lora_sf" 10;
          loraTxPower := getUChar m "lora_txpwr" 20;
          meshEnabled := getBool m "mesh_en" true;
          tzOffsetMinutes := getLong m "tz_offset" 0;
          lastTimeSync := getULong m "time_sync" 0 |}).

(** Two configurations with the same settings: equal members, the two
    [char] arrays equal as C strings. *)
Definition same_settings (a b : NodeConfig) : Prop :=
  nodeId a = nodeId b /\ networkId a = networkId b
  /\ telemetryIntervalMs a = telemetryIntervalMs b
  /\ cstr (location a) = cstr (location b) /\ cstr (zone a) = cstr (zone b)
  /\ tempThreshHigh a = tempThreshHigh b /\ tempThreshLow a = tempThreshLow b
  /\ batteryThreshLow a = batteryThreshLow b
  /\ batteryThreshCritical a = batteryThreshCritical b
  /\ loraFrequency a = loraFrequency b
  /\ loraSpreadingFactor a = loraSpreadingFactor b
  /\ loraTxPower a = loraTxPower b /\ meshEnabled a = meshEnabled b
  /\ tzOffsetMinutes a = tzOffsetMinutes b /\ lastTimeSync a = lastTimeSync b.

(** The fifteen keys of the namespace. *)
Definition nvs_keys : list string :=
  ["node_id"; "network_id"; "tx_interval"; "location"; "zone"; "temp_hi";
   "temp_lo"; "batt_lo"; "batt_crit"; "lora_freq"; "lora_sf"; "lora_txpwr";
   "mesh_en"; "tz_offset"; "time_sync"].

(* ===================================================================== *)
(** ** Sensor drivers ([sensor_base.h], [sensors.h], [sensors.cpp])       *)
(* ===================================================================== *)

Definition VALUE_TEMPERATURE : Z := 0.
Definition VALUE_HUMIDITY : Z := 1.
Definition VALUE_PRESSURE : Z := 2.
Definition VALUE_LIGHT : Z := 3.
Definition VALUE_VOLTAGE : Z := 4.
Definition VALUE_CURRENT : Z := 5.
Definition VALUE_POWER : Z := 6.
Definition VALUE_ENERGY : Z := 7.
Definition VALUE_GAS_RESISTANCE : Z := 8.
Definition VALUE_BATTERY : Z := 9.
Definition VALUE_SIGNAL_STRENGTH : Z := 10.
Definition VALUE_MOISTURE : Z := 11.
Definition VALUE_GENERIC : Z := 12.
Definition VALUE_THERMISTOR_TEMPERATURE : Z := 13.

(** The drivers, each with the [_ready] flag of [SensorBase] and its cached
    readings ([float]s, by bit pattern). *)
Inductive SensorBase :=
| DHTSensor (_ready : bool) (_temp _hum : Z)
| DS18B20Sensor (_ready : bool) (_temp : Z)
| BME680Sensor (_ready : bool) (_temp _hum _press _gas : Z)
| BH1750Sensor (_ready : bool) (_lux : Z)
| INA219Sensor (_ready : bool) (_v _i _p : Z)
| SHT31Sensor (_ready : bool) (_temp _hum : Z)
| BMP280Sensor (_ready : bool) (_temp _press : Z)
| ThermistorSensor (_ready : bool) (_temp : Z)
| SoilMoistureSensor (_ready : bool) (_moisture : Z).

Definition is_ready (s : SensorBase) : bool :=
  match s with
  | DHTSensor r _ _ | DS18B20Sensor r _ | BME680Sensor r _ _ _ _
  | BH1750Sensor r _ | INA219Sensor r _ _ _ | SHT31Sensor r _ _
  | BMP280Sensor r _ _ | ThermistorSensor r _ | SoilMoistureSensor r _ => r
  end.

(** [_write_value(out, max_len, &idx, type, value)]: the result, the array
    and [*idx] afterwards. *)
Definition _write_value (out : list SensorValuePacket) (max_len idx : Z)
    (type value : Z) : Z * (list SensorValuePacket * Z) :=
  if idx >=? max_len then (0, (out, idx))
  else (1, (<[Z.to_nat idx := {| sv_type := type; sv_value := value |}]> out,
            (idx + 1) mod 256)).

(** [values(out, max_len)] of each driver: the array afterwards and the
    count returned. *)
Definition sensor_values (s : SensorBase) (out : list SensorValuePacket)
    (max_len : Z) : list SensorValuePacket * Z :=
  let idx := 0 in
  match s with
  | DHTSensor _ _temp _hum =>
      let '(_, (out, idx)) := _write_value out max_len idx VALUE_TEMPERATURE _temp in
      let '(_, (out, idx)) := _write_value out max_len idx VALUE_HUMIDITY _hum in
      (out, idx)
  | DS18B20Sensor _ _temp =>
      let '(_, (out, idx)) := _write_value out max_len idx VALUE_TEMPERATURE _temp in
      (out, idx)
  | BME680Sensor _ _temp _hum _press _gas =>
      let '(_, (out, idx)) := _write_value out max_len idx VALUE_TEMPERATURE _temp in
      let '(_, (out, idx)) := _write_value out max_len idx VALUE_HUMIDITY _hum in
      let '(_, (out, idx)) := _write_value out max_len idx VALUE_PRESSURE _press in
      let '(_, (out, idx)) := _write_value out max_len idx VALUE_GAS_RESISTANCE _gas in
      (out, idx)
  | BH1750Sensor _ _lux =>
      let '(_, (out, idx)) := _write_value out max_len idx VALUE_LIGHT _lux in
      (out, idx)
  | INA219Sensor _ _v _i _p =>
      let '(_, (out, idx)) := _write_value out max_len idx VALUE_VOLTAGE _v in
      let '(_, (out, idx)) := _write_value out max_len idx VALUE_CURRENT _i in
      let '(_, (out, idx)) := _write_value out max_len idx VALUE_POWER _p in
      (out, idx)
  | SHT31Sensor _ _temp _hum =>
      let '(_, (out, idx)) := _write_value out max_len idx VALUE_TEMPERATURE _temp in
      let '(_, (out, idx)) := _write_value out max_len idx VALUE_HUMIDITY _hum in
      (out, idx)
  | BMP280Sensor _ _temp _press =>
      let '(_, (out, idx)) := _write_value out max_len idx VALUE_TEMPERATURE _temp in
      let '(_, (out, idx)) := _write_value out max_len idx VALUE_PRESSURE _press in
      (out, idx)
  | ThermistorSensor _ _temp =>
      let '(_, (out, idx)) :=
        _write_value out max_len idx VALUE_THERMISTOR_TEMPERATURE _temp in
      (out, idx)
  | SoilMoistureSensor _ _moisture =>
      let '(_, (out, idx)) := _write_value out max_len idx VALUE_MOISTURE _moisture in
      (out, idx)
  end.

(** The readings a driver reports, in order. *)
Definition readings (s : SensorBase) : list SensorValuePacket :=
  let v t x := {| sv_type := t; sv_value := x |} in
  match s with
  | DHTSensor _ t h => [v VALUE_TEMPERATURE t; v VALUE_HUMIDITY h]
  | DS18B20Sensor _ t => [v VALUE_TEMPERATURE t]
  | BME680Sensor _ t h p g =>
      [v VALUE_TEMPERATURE t; v VALUE_HUMIDITY h; v VALUE_PRESSURE p;
       v VALUE_GAS_RESISTANCE g]
  | BH1750Sensor _ l => [v VALUE_LIGHT l]
  | INA219Sensor _ u i p => [v VALUE_VOLTAGE u; v VALUE_CURRENT i; v VALUE_POWER p]
  | SHT31Sensor _ t h => [v VALUE_TEMPERATURE t; v VALUE_HUMIDITY h]
  | BMP280Sensor _ t p => [v VALUE_TEMPERATURE t; v VALUE_PRESSURE p]
  | ThermistorSensor _ t => [v VALUE_THERMISTOR_TEMPERATURE t]
  | SoilMoistureSensor _ m => [v VALUE_MOISTURE m]
  end.

(* ===================================================================== *)
(** ** Node firmware ([main.cpp])                                         *)
(* ===================================================================== *)

(** The calls [main.cpp] makes on the radio to set it up and to send, in
    order; what it reads from the radio is in [Hardware] below.  (GPIO
    writes, serial output and delays are left out.) *)
Inductive RadioCall :=
| RadioBegin (freq sf sync_word power : Z)
| RadioSetDio1Action
| RadioStartReceive
| RadioStartTransmit (data : list Z)
| RadioTransmit (data : list Z).

(** The module globals.  [sensors] holds the [sensor_count] entries in
    use ([None] for a null pointer); [mesh_router] is [None] until [setup]
    allocates the router. *)
Record Globals := mkGlobals {
  cfg_store : NodeConfigStore;
  mesh_router : option MeshRouter;
  sensors : list (option SensorBase);
  last_tx_ms : Z;
  tx_buf : list Z;            (* uint8_t tx_buf[255] *)
  rx_buf : list Z;            (* uint8_t rx_buf[255] *)
  rx_done_flag : bool;
  tx_done_flag : bool
}.

(** What the hardware gives during one pass of [loop]. *)
Record Hardware := mkHardware {
  hw_read_ok : bool;          (* radio.readData(...) == RADIOLIB_ERR_NONE *)
  hw_packet : list Z;         (* the packet; getPacketLength() is its length *)
  hw_now : Z;                 (* millis() in loop *)
  hw_tick_now : Z;            (* millis() in MeshRouter::tick *)
  hw_battery : Z;             (* read_battery_percent() *)
  hw_read : nat -> SensorBase -> SensorBase   (* sensors[i]->read() *)
}.

Definition zero_value : SensorValuePacket := {| sv_type := 0; sv_value := 0 |}.

(** Inner loop of [transmit_telemetry]: [pkt.values[vcount++] = tmp[j]]
    over the entries returned, while [vcount < MAX_SENSOR_VALUES]. *)
Fixpoint copy_values (tmp : list SensorValuePacket)
    (vals : list SensorValuePacket) (vcount : Z) : list SensorValuePacket * Z :=
  match tmp with
  | [] => (vals, vcount)
  | v :: tmp' =>
      if vcount <? MAX_SENSOR_VALUES
      then copy_values tmp' (<[Z.to_nat vcount := v]> vals) (vcount + 1)
      else (vals, vcount)
  end.

(** Outer loop of [transmit_telemetry], from sensor [i] on: the sensors
    after their [read()], [pkt.values] and [vcount]. *)
Fixpoint collect_values (read : nat -> SensorBase -> SensorBase) (i : nat)
    (ss : list (option SensorBase)) (vals : list SensorValuePacket)
    (vcount : Z) : list (option SensorBase) * list SensorValuePacket * Z :=
  match ss with
  | [] => ([], vals, vcount)
  | s :: ss' =>
      if vcount <? MAX_SENSOR_VALUES then
        let '(s, vals, vcount) :=
          match s with
          | Some sb =>
              if is_ready sb then
                let sb := read i sb in
                (* SensorValuePacket tmp[4]: only entries written are read *)
                let '(tmp, n) := sensor_values sb (replicate 4 zero_value) 4 in
                let '(vals, vcount) := copy_values (take (Z.to_nat n) tmp) vals vcount in
                (Some sb, vals, vcount)
              else (s, vals, vcount)
          | None => (s, vals, vcount)
          end in
        let '(ss', vals, vcount) := collect_values read (S i) ss' vals vcount in
        (s :: ss', vals, vcount)
      else (ss, vals, vcount)
  end.

(** The readings of the ready sensors after their [read()], from sensor
    [i] on. *)
Fixpoint readings_from (read : nat -> SensorBase -> SensorBase) (i : nat)
    (ss : list (option SensorBase)) : list SensorValuePacket :=
  match ss with
  | [] => []
  | s :: ss' =>
      match s with
      | Some sb => if is_ready sb then readings (read i sb) else []
      | None => []
      end ++ readings_from read (S i) ss'
  end.

(** The packet [transmit_telemetry] fills in. *)
Definition telemetry_packet (cfg : NodeConfig)
    (battery last_cmd_seq ack_status : Z)
    (vals : list SensorValuePacket) (vcount : Z) : MultiSensorPacket :=
  {| header :=
       {| hdr_syncWord := SYNC_MULTI_SENSOR;
          hdr_networkId := networkId cfg;
          hdr_packetType := 1;           (* PACKET_MULTI_SENSOR *)
          hdr_sensorId := nodeId cfg;
          hdr_valueCount := vcount;
          hdr_batteryPercent := battery;
          hdr_powerState := 0;
          hdr_lastCommandSeq := last_cmd_seq;
          hdr_ackStatus := ack_status;
          hdr_pad := 0;
          hdr_location :=
            memcpy (replicate 32 0) 0 (strncpy_bytes (location cfg) 31);
          hdr_zone :=
            memcpy (replicate 16 0) 0 (strncpy_bytes (zone cfg) 15) |};
     values := vals;
     checksum := 0 |}.

Definition set_sensors_tx (g : Globals) (ss : list (option SensorBase))
    (buf : list Z) (m : option MeshRouter) : Globals :=
  {| cfg_store := cfg_store g; mesh_router := m; sensors := ss;
     last_tx_ms := last_tx_ms g; tx_buf := buf; rx_buf := rx_buf g;
     rx_done_flag := rx_done_flag g; tx_done_flag := tx_done_flag g |}.

(** [transmit_telemetry(last_cmd_seq, ack_status)]: the radio calls and
    the globals afterwards. *)
Definition transmit_telemetry (hw : Hardware) (last_cmd_seq ack_status : Z)
    (g : Globals) : list RadioCall * Globals :=
  let cfg := _cfg (cfg_store g) in
  let '(ss, vals, vcount) :=
    collect_values (hw_read hw) 0 (sensors g)
                   (replicate (Z.to_nat MAX_SENSOR_VALUES) zero_value) 0 in
  let pkt := telemetry_packet cfg (hw_battery hw) last_cmd_seq ack_status
                              vals vcount in
  (* Optionally wrap in a mesh frame *)
  let dest := 0 in   (* Base station = node 0 *)
  match (if meshEnabled cfg then mesh_router g else None) with
  | Some m =>
      let '(pay_len, payload) :=
        lss_serialize_multi_sensor pkt (replicate 255 0) in
      if (pay_len =? 0)%nat then ([], set_sensors_tx g ss (tx_buf g) (Some m)) else
      let '(raw_len, buf, m) := wrap dest (take pay_len payload) (tx_buf g) m in
      (if (0 <? raw_len)%nat then [RadioStartTransmit (take raw_len buf)] else [],
       set_sensors_tx g ss buf (Some m))
  | None =>
      let '(raw_len, buf) := lss_serialize_multi_sensor pkt (tx_buf g) in
      (if (0 <? raw_len)%nat then [RadioStartTransmit (take raw_len buf)] else [],
       set_sensors_tx g ss buf (mesh_router g))
  end.

(** The command [send_announce] serialises. *)
Definition announce_command (cfg : NodeConfig) : CommandPacket :=
  {| cmd_syncWord := SYNC_COMMAND; cmd_commandType := CMD_SENSOR_ANNOUNCE;
     cmd_targetSensorId := nodeId cfg; cmd_sequenceNumber := 0;
     cmd_dataLength := 0; cmd_pad := 0; cmd_data := replicate 192 0;
     cmd_checksum := 0 |}.

Definition send_announce (g : Globals) : list RadioCall * Globals :=
  let '(len, buf) :=
    lss_serialize_command (announce_command (_cfg (cfg_store g))) (tx_buf g) in
  (if (0 <? len)%nat then [RadioTransmit (take len buf)] else [],
   set_sensors_tx g (sensors g) buf (mesh_router g)).

(** The globals as the program starts: zeroed statics, and the flash the
    store finds. *)
Definition power_on (flash_ok : bool) (flash : gmap string NvsValue) : Globals :=
  {| cfg_store :=
       {| _cfg := {| nodeId := 0; networkId := 0; telemetryIntervalMs := 0;
                     location := replicate LOCATION_MAXLEN 0;
                     zone := replicate ZONE_MAXLEN 0;
                     tempThreshHigh := 0; tempThreshLow := 0;
                     batteryThreshLow := 0; batteryThreshCritical := 0;
                     loraFrequency := 0; loraSpreadingFactor := 0;
                     loraTxPower := 0; meshEnabled := false;
                     tzOffsetMinutes := 0; lastTimeSync := 0 |};
          nvs_ok := flash_ok; nvs := flash |};
     mesh_router := None;
     sensors := [];
     last_tx_ms := 0;
     tx_buf := replicate 255 0;
     rx_buf := replicate 255 0;
     rx_done_flag := false;
     tx_done_flag := false |}.

(** [(int8_t)x] for a [uint8_t] argument [x]. *)
Definition int8_of (x : Z) : Z :=
  if x mod 256 <? 128 then x mod 256 else x mod 256 - 256.

(** The sensor loop of [setup]: [sensors[i]->begin()] on every slot in
    use, from slot [i] on.  The call goes through the pointer without a null
    test: on a null slot it is outside the C semantics (the ESP32 traps),
    which is [None] here. *)
Fixpoint begin_sensors (begin : nat -> SensorBase -> SensorBase) (i : nat)
    (ss : list (option SensorBase)) : option (list (option SensorBase)) :=
  match ss with
  | [] => Some []
  | None :: _ => None
  | Some s :: ss' =>
      match begin_sensors begin (S i) ss' with
      | Some ss'' => Some (Some (begin i s) :: ss'')
      | None => None
      end
  end.

(** [setup()].  [ro_ok]: the read-only open of the namespace in [load];
    [begin i s]: the sensor after [sensors[i]->begin()].  [RadioBegin]
    carries the arguments as [SX1262::begin(float freq, float bw,
    uint8_t sf, uint8_t cr, uint8_t syncWord, int8_t power, ...)] receives
    them.  [None]: [setup] does not return (null sensor slot). *)
Definition setup (ro_ok : bool) (begin : nat -> SensorBase -> SensorBase)
    (g : Globals) : option (list RadioCall * Globals) :=
  (* Load persistent configuration from NVS *)
  let store := (load ro_ok (cfg_store g)).2 in
  let cfg := _cfg store in
  (* Initialise LoRa radio *)
  let calls :=
    [RadioBegin (loraFrequency cfg) (loraSpreadingFactor cfg)
                ((0x12 + networkId cfg mod 244) mod 256)
                (int8_of (loraTxPower cfg));
     RadioSetDio1Action; RadioStartReceive] in
  (* Initialise mesh router *)
  let m := MeshRouter_new (nodeId cfg) (meshEnabled cfg) in
  match begin_sensors begin 0 (sensors g) with
  | None => None
  | Some ss =>
      let g := {| cfg_store := store; mesh_router := Some m; sensors := ss;
                  last_tx_ms := last_tx_ms g; tx_buf := tx_buf g;
                  rx_buf := rx_buf g; rx_done_flag := rx_done_flag g;
                  tx_done_flag := tx_done_flag g |} in
      (* Announce presence to base station *)
      let '(calls', g) := send_announce g in
      Some (calls ++ calls', g)
  end.

(** A sensor slot in use holds a null pointer. *)
Definition has_null_slot (ss : list (option SensorBase)) : bool :=
  existsb (fun s => match s with None => true | Some _ => false end) ss.

(** How a pass of [loop] ends: it returns, or the node reboots inside
    [handle_command] with the flash as the store left it. *)
Inductive LoopResult :=
| LoopDone (calls : list RadioCall) (g : Globals)
| LoopRestart (calls : list RadioCall) (store : NodeConfigStore).

Definition zero_command : CommandPacket :=
  {| cmd_syncWord := 0; cmd_commandType := 0; cmd_targetSensorId := 0;
     cmd_sequenceNumber := 0; cmd_dataLength := 0; cmd_pad := 0;
     cmd_data := replicate 192 0; cmd_checksum := 0 |}.

(** The bytes [loop] parses: the frame at offset 0, or at offset 4 when no
    packet is detected at offset 0 and more than four bytes came. *)
Definition parse_window (frame : list Z) : list Z :=
  match lss_detect_packet frame with
  | None => if (4 <? length frame)%nat then drop 4 frame else frame
  | Some _ => frame
  end.

(** The receive path of [loop].  ([handle_command] takes [*mesh_router];
    with a null router the call is outside the C semantics and the command
    is dropped here.) *)
Definition loop_receive (hw : Hardware) (g : Globals) : LoopResult :=
  if negb (rx_done_flag g) then LoopDone [] g else
  let rx :=
    if hw_read_ok hw then memcpy (rx_buf g) 0 (take 254 (hw_packet hw))
    else rx_buf g in
  let g := {| cfg_store := cfg_store g; mesh_router := mesh_router g;
              sensors := sensors g; last_tx_ms := last_tx_ms g;
              tx_buf := tx_buf g; rx_buf := rx;
              rx_done_flag := false; tx_done_flag := tx_done_flag g |} in
  if negb (hw_read_ok hw) then LoopDone [RadioStartReceive] g else
  let len := length (hw_packet hw) in
  let parse_buf := parse_window (take len rx) in
  match lss_detect_packet parse_buf, mesh_router g with
  | Some PACKET_CONFIG, Some m =>
      let '(ok, cmd) := lss_deserialize_command parse_buf zero_command in
      if ok && ((cmd_targetSensorId cmd =? nodeId (_cfg (cfg_store g)))
                || (cmd_targetSensorId cmd =? 255))
      then
        (* Process command and send ACK *)
        match handle_command cmd (cfg_store g) m (tx_buf g) with
        | (Returned ack_len, buf, store, m) =>
            let g := {| cfg_store := store; mesh_router := Some m;
                        sensors := sensors g; last_tx_ms := last_tx_ms g;
                        tx_buf := buf; rx_buf := rx_buf g;
                        rx_done_flag := rx_done_flag g;
                        tx_done_flag := tx_done_flag g |} in
            LoopDone
              ((if (0 <? ack_len)%nat
                then [RadioTransmit (take ack_len buf); RadioStartReceive]
                else []) ++ [RadioStartReceive]) g
        | (Restarted, _, store, _) => LoopRestart [] store
        end
      else LoopDone [RadioStartReceive] g
  | _, _ => LoopDone [RadioStartReceive] g
  end.

(** The transmit path of [loop]: telemetry on schedule. *)
Definition loop_telemetry (hw : Hardware) (g : Globals) : list RadioCall * Globals :=
  let calls := if tx_done_flag g then [RadioStartReceive] else [] in
  let g := {| cfg_store := cfg_store g; mesh_router := mesh_router g;
              sensors := sensors g; last_tx_ms := last_tx_ms g;
              tx_buf := tx_buf g; rx_buf := rx_buf g;
              rx_done_flag := rx_done_flag g; tx_done_flag := false |} in
  if u32_sub (hw_now hw) (last_tx_ms g) >=? telemetryIntervalMs (_cfg (cfg_store g))
  then
    let g := {| cfg_store := cfg_store g; mesh_router := mesh_router g;
                sensors := sensors g; last_tx_ms := hw_now hw;
                tx_buf := tx_buf g; rx_buf := rx_buf g;
                rx_done_flag := rx_done_flag g;
                tx_done_flag := tx_done_flag g |} in
    let '(calls', g) := transmit_telemetry hw 0 0 g in
    (calls ++ calls', g)
  else (calls, g).

(** The mesh beacon of [loop]. *)
Definition loop_beacon (hw : Hardware) (g : Globals) : list RadioCall * Globals :=
  match mesh_router g with
  | Some m =>
      if meshEnabled (_cfg (cfg_store g)) then
        let '(blen, beacon, m) :=
          tick (hw_tick_now hw) (replicate sizeof_MeshHeader 0) m in
        (if (0 <? blen)%nat
         then [RadioTransmit (take blen beacon); RadioStartReceive] else [],
         set_sensors_tx g (sensors g) (tx_buf g) (Some m))
      else ([], g)
  | None => ([], g)
  end.

(** One pass of [loop()]. *)
Definition loop (hw : Hardware) (g : Globals) : LoopResult :=
  match loop_receive hw g with
  | LoopRestart calls store => LoopRestart calls store
  | LoopDone calls1 g =>
      let '(calls2, g) := loop_telemetry hw g in
      let '(calls3, g) := loop_beacon hw g in
      LoopDone (calls1 ++ calls2 ++ calls3) g
  end.

(** *** Well-formed values of the firmware's types *)

(** A [NodeConfig] object, as far as the frames show it. *)
Definition config_wf (c : NodeConfig) : bool :=
  is_u8 (nodeId c) && is_u16 (networkId c)
  && is_array LOCATION_MAXLEN (location c) && is_array ZONE_MAXLEN (zone c).

(** The cached readings of a driver are [float]s. *)
Definition sensor_wf (s : SensorBase) : bool := forallb value_wf (readings s).

(** The values the hardware gives have their C types. *)
Definition hardware_wf (hw : Hardware) : Prop :=
  is_u8 (hw_battery hw) = true
  /\ forall i s, sensor_wf (hw_read hw i s) = true.

(** The [n] values a telemetry frame carries, in the sixteen slots. *)
Definition telemetry_values (hw : Hardware) (g : Globals) : list SensorValuePacket :=
  take (Z.to_nat MAX_SENSOR_VALUES) (readings_from (hw_read hw) 0 (sensors g)).

(** The state [setup] leaves and [loop] keeps: the router is allocated,
    carries the node id and the mesh flag of the configuration, and holds
    no valid route; the configuration and the buffers have their C types. *)
Definition node_ok (g : Globals) : bool :=
  match mesh_router g with
  | Some m =>
      config_wf (_cfg (cfg_store g))
      && eqb (_enabled m) (meshEnabled (_cfg (cfg_store g)))
      && (_node_id m =? nodeId (_cfg (cfg_store g)))
      && router_wf m
      && forallb (fun r => negb (re_valid r)) (_routes m)
      && is_array 255 (rx_buf g)
      && (length (tx_buf g) =? 255)%nat
  | None => false
  end.

(** The globals after the receive path took a packet into [rx_buf]. *)
Definition received (hw : Hardware) (g : Globals) : Globals :=
  {| cfg_store := cfg_store g; mesh_router := mesh_router g;
     sensors := sensors g; last_tx_ms := last_tx_ms g; tx_buf := tx_buf g;
     rx_buf := if hw_read_ok hw
               then memcpy (rx_buf g) 0 (take 254 (hw_packet hw))
               else rx_buf g;
     rx_done_flag := false; tx_done_flag := tx_done_flag g |}.

(** The first two bytes of a four-byte radio header read as one of the
    three sync words. *)
Definition starts_with_sync (h : list Z) : bool :=
  (rd16 h 0 =? SYNC_LEGACY) || (rd16 h 0 =? SYNC_MULTI_SENSOR)
  || (rd16 h 0 =? SYNC_COMMAND).

(** A serialised command, as the base station sends it. *)
Definition command_frame (c : CommandPacket) : list Z :=
  command_body c ++ le16 (lss_crc16 (command_body c)).

(* ===================================================================== *)
(** ** Further auxiliary notions                                          *)
(* ===================================================================== *)

(** *** CRC: the register before a shift step *)

(** The step that undoes [crc16_bit]: the low bit of the result tells
    whether the polynomial was applied. *)
Definition crc16_bit_inv (r : Z) : Z :=
  if Z.odd r then Z.lxor r 0x1021 / 2 + 0x8000 else r / 2.

(** [crc16_bit_inv] undoes [crc16_bit] on the [n] states from [c] on. *)
Fixpoint crc16_bit_inv_upto (n : nat) (c : Z) : bool :=
  match n with
  | O => true
  | S n' => (crc16_bit_inv (crc16_bit c) =? c) && crc16_bit_inv_upto n' (c + 1)
  end.

(** *** Route table *)

(** No two valid entries of the table name the same destination. *)
Fixpoint unique_routes (rs : list RouteEntry) : bool :=
  match rs with
  | [] => true
  | r :: rs' =>
      (negb (re_valid r)
       || forallb (fun r' => negb (route_matches (re_destId r) r')) rs')
      && unique_routes rs'
  end.

(** The table as the router keeps it: [MESH_MAX_ROUTES] slots, at most one
    valid entry per destination. *)
Definition table_ok (m : MeshRouter) : bool :=
  router_wf m && unique_routes (_routes m).

(** The table has room for the destination without evicting another one:
    it already has a valid entry for it, or it has an invalid slot. *)
Definition has_room_for (m : MeshRouter) (dest_id : Z) : bool :=
  existsb (route_matches dest_id) (_routes m)
  || existsb (fun r => negb (re_valid r)) (_routes m).

(** Every slot holds a valid entry. *)
Definition table_full (m : MeshRouter) : bool := forallb re_valid (_routes m).

(** The entry [update_route] writes. *)
Definition new_route (now dest_id next_hop hop_count : Z) : RouteEntry :=
  {| re_destId := dest_id; re_nextHop := next_hop; re_hopCount := hop_count;
     re_lastUpdated := now; re_valid := true |}.

(** The entry [evict_stale_routes] leaves in a slot. *)
Definition evicted (now : Z) (r : RouteEntry) : RouteEntry :=
  if re_valid r && (u32_sub now (re_lastUpdated r) >? MESH_ROUTE_TIMEOUT)
  then {| re_destId := re_destId r; re_nextHop := re_nextHop r;
          re_hopCount := re_hopCount r;
          re_lastUpdated := re_lastUpdated r; re_valid := false |}
  else r.

(** *** Commands *)

(** The commands [handle_command] acknowledges, by command type, data
    length and (for [SET_INTERVAL]) the interval carried. *)
Definition command_acknowledged (pkt : CommandPacket) : bool :=
  let c := cmd_commandType pkt in
  let dl := cmd_dataLength pkt in
  if (c =? CMD_PING) || (c =? CMD_GET_CONFIG) || (c =? CMD_SET_LOCATION) then true
  else if c =? CMD_SET_INTERVAL then
    (4 <=? dl) && (1000 <=? rd32 (fixed 192 (cmd_data pkt)) 0)
    && (rd32 (fixed 192 (cmd_data pkt)) 0 <=? 3600000)
  else if (c =? CMD_SET_TEMP_THRESH) || (c =? CMD_SET_BATTERY_THRESH) then 8 <=? dl
  else if c =? CMD_SET_MESH_CONFIG then 1 <=? dl
  else if c =? CMD_SET_LORA_PARAMS then 7 <=? dl
  else if (c =? CMD_TIME_SYNC) || (c =? CMD_BASE_WELCOME) then 6 <=? dl
  else false.

(** The commands that end in [ESP.restart()]. *)
Definition command_restarts (pkt : CommandPacket) : bool :=
  (cmd_commandType pkt =? CMD_RESTART) || (cmd_commandType pkt =? CMD_FACTORY_RESET).

(** A [char a[n]] that holds a terminated string: [n] bytes, the last one
    NUL. *)
Definition terminated (n : nat) (a : list Z) : bool :=
  (length a =? n)%nat && (nth (n - 1) a 1 =? 0).

(** The two string members of the config are terminated arrays. *)
Definition strings_ok (c : NodeConfig) : bool :=
  terminated LOCATION_MAXLEN (location c) && terminated ZONE_MAXLEN (zone c).

(** The packet with another command type. *)
Definition with_commandType (pkt : CommandPacket) (c : Z) : CommandPacket :=
  {| cmd_syncWord := cmd_syncWord pkt; cmd_commandType := c;
     cmd_targetSensorId := cmd_targetSensorId pkt;
     cmd_sequenceNumber := cmd_sequenceNumber pkt;
     cmd_dataLength := cmd_dataLength pkt; cmd_pad := cmd_pad pkt;
     cmd_data := cmd_data pkt; cmd_checksum := cmd_checksum pkt |}.

(** A command of the given type with the given data area. *)
Definition command_with (c data_length : Z) (data : list Z) : CommandPacket :=
  {| cmd_syncWord := SYNC_COMMAND; cmd_commandType := c;
     cmd_targetSensorId := 1; cmd_sequenceNumber := 3;
     cmd_dataLength := data_length; cmd_pad := 0;
     cmd_data := fixed 192 data; cmd_checksum := 0 |}.

(* ===================================================================== *)
(** ** Further sample data                                                *)
(* ===================================================================== *)

(** *** Sample routers, stores and nodes *)

(** Node 1 with routes to 7 (via 3, learned at 1000) and to 9 (direct,
    learned at 500000). *)
Definition two_route_router : MeshRouter :=
  update_route 500000 9 9 1 (update_route 1000 7 3 2 (MeshRouter_new 1 true)).

(** Node 1 with a full table: destinations 10 to 29, the one to 10 + [i]
    learned at [5000 - 100 * i], except that the entry for 14 is oldest. *)
Definition full_router : MeshRouter :=
  set_routes (MeshRouter_new 1 true)
    (map (fun i => new_route (if i =? 4 then 50 else 5000 - 100 * i) (10 + i) (10 + i) 1)
         (map Z.of_nat (seq 0 MESH_MAX_ROUTES))).

(** A store whose configuration was changed by commands. *)
Definition tuned_store : NodeConfigStore :=
  (handle_command (set_location_command 5 [66; 97; 114; 110; 0; 78; 0])
                  (set_cfg default_store
                           (with_time (with_interval (_cfg default_store) 60000)
                                      1700000000 (-300)))
                  (MeshRouter_new 1 true) (replicate 255 0)).1.2.

(** A node with the default configuration saved, its router allocated
    and the announce frame still in [tx_buf]; its sensor slots hold a
    DHT22, a null pointer, a sensor that is not ready and a BME680. *)
Definition sample_node : Globals :=
  {| cfg_store := (load false (cfg_store (power_on true ∅))).2;
     mesh_router := Some (MeshRouter_new 1 true);
     sensors := [Some (DHTSensor true 0x419C0000 0x42780000); None;
                 Some (BH1750Sensor false 0);
                 Some (BME680Sensor true 0x41A00000 0x42480000 0x447D5000
                                    0x47435000)];
     last_tx_ms := 0;
     tx_buf := (lss_serialize_command (announce_command (_cfg default_store))
                                      (replicate 255 0)).2;
     rx_buf := replicate 255 0;
     rx_done_flag := false; tx_done_flag := false |}.

(** The globals at power-on with the given sensors installed, and a
    configuration whose network id and transmit power are beyond what the
    radio's [uint8_t] sync word and [int8_t] power hold (243 + 0x12 = 261,
    200 dBm). *)
Definition installed (ss : list (option SensorBase)) : Globals :=
  {| cfg_store :=
       {| _cfg := _cfg (cfg_store (power_on true ∅)); nvs_ok := true;
          nvs := nvs_put_all
                   {| nodeId := 9; networkId := 243; telemetryIntervalMs := 30000;
                      location := location (_cfg default_store);
                      zone := zone (_cfg default_store);
                      tempThreshHigh := 0x42480000; tempThreshLow := 0xC1A00000;
                      batteryThreshLow := 0x41A00000;
                      batteryThreshCritical := 0x41200000;
                      loraFrequency := 0x4464C000; loraSpreadingFactor := 10;
                      loraTxPower := 200; meshEnabled := true;
                      tzOffsetMinutes := 0; lastTimeSync := 0 |} ∅ |};
     mesh_router := None; sensors := ss; last_tx_ms := 0;
     tx_buf := replicate 255 0; rx_buf := replicate 255 0;
     rx_done_flag := false; tx_done_flag := false |}.

(** The node with a packet waiting. *)
Definition with_rx_done (g : Globals) : Globals :=
  {| cfg_store := cfg_store g; mesh_router := mesh_router g;
     sensors := sensors g; last_tx_ms := last_tx_ms g; tx_buf := tx_buf g;
     rx_buf := rx_buf g; rx_done_flag := true; tx_done_flag := tx_done_flag g |}.

(** A RadioHead header: to all, from the base station. *)
Definition radiohead_header : list Z := [255; 0; 0; 0].

(** A [read()] that caches the reading [x] in every channel. *)
Definition refresh (x : Z) (s : SensorBase) : SensorBase :=
  match s with
  | DHTSensor r _ _ => DHTSensor r x x
  | DS18B20Sensor r _ => DS18B20Sensor r x
  | BME680Sensor r _ _ _ _ => BME680Sensor r x x x x
  | BH1750Sensor r _ => BH1750Sensor r x
  | INA219Sensor r _ _ _ => INA219Sensor r x x x
  | SHT31Sensor r _ _ => SHT31Sensor r x x
  | BMP280Sensor r _ _ => BMP280Sensor r x x
  | ThermistorSensor r _ => ThermistorSensor r x
  | SoilMoistureSensor r _ => SoilMoistureSensor r x
  end.

(** The hardware where every sensor reads 21.5. *)
Definition steady_hardware (now : Z) (pkt : list Z) : Hardware :=
  {| hw_read_ok := true; hw_packet := pkt; hw_now := now; hw_tick_now := now;
     hw_battery := 87; hw_read := fun _ => refresh 0x41AC0000 |}.

(** The radio calls and the globals of a pass of [loop]. *)
Definition loop_calls (r : LoopResult) : list RadioCall :=
  match r with LoopDone calls _ | LoopRestart calls _ => calls end.

Definition loop_globals (r : LoopResult) (g : Globals) : Globals :=
  match r with LoopDone _ g' => g' | LoopRestart _ _ => g end.

(* ===================================================================== *)
(** * Properties                                                          *)
(* ===================================================================== *)

(** ** The unit tests of the firmware, replayed on the embedding *)

(** *** [test/test_packets] *)

Example test_multi_sensor_round_trip :
  let r := lss_serialize_multi_sensor (sample_packet 2) (replicate 255 0) in
  let d := lss_deserialize_multi_sensor (take r.1 r.2) (sample_packet 0) in
  r.1 = 72%nat /\ d.1 = true
  /\ hdr_sensorId (header d.2) = 5 /\ hdr_valueCount (header d.2) = 2
  /\ hdr_batteryPercent (header d.2) = 85
  /\ cstr (hdr_location (header d.2)) = [83; 104; 101; 100]
  /\ take 2 (values d.2) = take 2 sample_values.
Proof. vm_compute. repeat split; reflexivity. Qed.

Example test_multi_sensor_bad_crc :
  let r := lss_serialize_multi_sensor (sample_packet 0) (replicate 255 0) in
  let frame := take r.1 r.2 in
  let corrupted := <[(r.1 - 1)%nat := Z.lxor (rd8 frame (r.1 - 1)) 0xFF]> frame in
  (lss_deserialize_multi_sensor corrupted (sample_packet 0)).1 = false.
Proof. vm_compute. reflexivity. Qed.

Example test_multi_sensor_wrong_sync :
  let r := lss_serialize_multi_sensor (sample_packet 0) (replicate 255 0) in
  let frame := <[1%nat := 0x12]> (<[0%nat := 0x34]> (take r.1 r.2)) in
  (lss_deserialize_multi_sensor frame (sample_packet 0)).1 = false.
Proof. vm_compute. reflexivity. Qed.

Example test_multi_sensor_max_values :
  let r := lss_serialize_multi_sensor (sample_packet 16) (replicate 255 0) in
  let d := lss_deserialize_multi_sensor (take r.1 r.2) (sample_packet 0) in
  r.1 = 142%nat /\ d.1 = true /\ hdr_valueCount (header d.2) = 16
  /\ values d.2 = sample_values.
Proof. vm_compute. repeat split; reflexivity. Qed.

Example test_command_round_trip :
  let r := lss_serialize_command (set_interval_command 42 7 4 15000)
                                 (replicate 201 0) in
  let d := lss_deserialize_command r.2 (set_interval_command 0 0 0 0) in
  r.1 = 201%nat /\ d.1 = true
  /\ cmd_commandType d.2 = CMD_SET_INTERVAL /\ cmd_targetSensorId d.2 = 7
  /\ cmd_sequenceNumber d.2 = 42 /\ rd32 (cmd_data d.2) 0 = 15000.
Proof. vm_compute. repeat split; reflexivity. Qed.

Example test_command_bad_crc :
  let r := lss_serialize_command (set_interval_command 0 0 0 0)
                                 (replicate 201 0) in
  let corrupted := <[200%nat := Z.lxor (rd8 r.2 200) 0xFF]> r.2 in
  (lss_deserialize_command corrupted (set_interval_command 0 0 0 0)).1 = false.
Proof. vm_compute. reflexivity. Qed.

Example test_build_ack :
  let r := lss_build_ack CMD_ACK 3 7 0 (replicate 202 0) in
  r.1 = 202%nat /\ rd16 r.2 0 = SYNC_COMMAND /\ rd8 r.2 2 = CMD_ACK
  /\ rd8 r.2 3 = 3 /\ rd8 r.2 4 = 7.
Proof. vm_compute. repeat split; reflexivity. Qed.

Example test_build_nack :
  rd8 (lss_build_ack CMD_NACK 2 9 1 (replicate 202 0)).2 2 = CMD_NACK.
Proof. vm_compute. reflexivity. Qed.

Example test_detect_packet :
  lss_detect_packet (fixed 64 [0xCD; 0xAB]) = Some PACKET_MULTI_SENSOR
  /\ lss_detect_packet (fixed 64 [0xEF; 0xCD; CMD_PING]) = Some PACKET_CONFIG
  /\ lss_detect_packet (fixed 64 [0xEF; 0xCD; CMD_ACK]) = Some PACKET_ACK
  /\ lss_detect_packet [0xDE; 0xAD; 0xBE; 0xEF] = None
  /\ lss_detect_packet [] = None.
Proof. vm_compute. repeat split; reflexivity. Qed.

Example test_size :
  lss_multi_sensor_size (sample_packet 0) = 62%nat
  /\ lss_multi_sensor_size (sample_packet 3) = 77%nat.
Proof. vm_compute. split; reflexivity. Qed.

(** *** [test/test_mesh] *)

Example test_update_and_lookup_route :
  next_hop_for (update_route 0 0 5 2 (MeshRouter_new 1 true)) 0 = 5.
Proof. vm_compute. reflexivity. Qed.

Example test_no_route_returns_broadcast :
  next_hop_for (MeshRouter_new 1 true) 0 = 255.
Proof. vm_compute. reflexivity. Qed.

Example test_route_overwritten_by_newer :
  next_hop_for
    (update_route 0 0 7 1 (update_route 0 0 3 2 (MeshRouter_new 1 true))) 0 = 7.
Proof. vm_compute. reflexivity. Qed.

Example test_stale_route_evicted :
  next_hop_for
    (evict_stale_routes (MESH_ROUTE_TIMEOUT + 1)
       (update_route 0 0 5 1 (MeshRouter_new 2 true))) 0 = 255.
Proof. vm_compute. reflexivity. Qed.

Example test_fresh_route_not_evicted :
  next_hop_for
    (evict_stale_routes (MESH_ROUTE_TIMEOUT - 1000)
       (update_route 0 0 5 1 (MeshRouter_new 2 true))) 0 = 5.
Proof. vm_compute. reflexivity. Qed.

Example test_wrap_produces_mesh_header :
  let r := wrap 0 [1; 2; 3] (replicate 128 0) (MeshRouter_new 3 true) in
  r.1.1 = 12%nat
  /\ meshheader_of_bytes r.1.2
     = {| mh_packetType := MESH_DATA; mh_sourceId := 3; mh_destId := 0;
          mh_nextHop := 255; mh_prevHop := 3; mh_hopCount := 0;
          mh_ttl := MESH_MAX_HOPS; mh_sequenceNum := 0 |}
  /\ take 3 (drop 9 r.1.2) = [1; 2; 3].
Proof. vm_compute. repeat split; reflexivity. Qed.

Example test_wrap_broadcast :
  let r := wrap 255 [0xFF] (replicate 64 0) (MeshRouter_new 1 true) in
  mh_destId (meshheader_of_bytes r.1.2) = 255
  /\ mh_nextHop (meshheader_of_bytes r.1.2) = 255.
Proof. vm_compute. split; reflexivity. Qed.

Example test_wrap_buffer_too_small :
  (wrap 0 (replicate 200 0) (replicate 4 0) (MeshRouter_new 1 true)).1.1 = 0%nat.
Proof. vm_compute. reflexivity. Qed.

Example test_receive_not_for_this_node :
  (receive 0 (mesh_frame MESH_DATA 1 3 0 MESH_MAX_HOPS [])
           (MeshRouter_new 5 true)).1 = None.
Proof. vm_compute. reflexivity. Qed.

Example test_receive_exceeds_hop_limit :
  (receive 0 (mesh_frame MESH_DATA 1 5 MESH_MAX_HOPS 1 [])
           (MeshRouter_new 5 true)).1 = None.
Proof. vm_compute. reflexivity. Qed.

Example test_receive_broadcast :
  (receive 0 (mesh_frame MESH_DATA 1 255 0 MESH_MAX_HOPS [1])
           (MeshRouter_new 5 true)).1 = Some [1].
Proof. vm_compute. reflexivity. Qed.

Example test_receive_too_short :
  (receive 0 [0; 0] (MeshRouter_new 1 true)).1 = None.
Proof. vm_compute. reflexivity. Qed.

Example test_tick_sends_beacon_after_interval :
  let r := tick (MESH_BEACON_INTERVAL + 1) (replicate 64 0) (MeshRouter_new 1 true) in
  r.1.1 = 9%nat
  /\ mh_packetType (meshheader_of_bytes r.1.2) = MESH_NEIGHBOR_BEACON
  /\ mh_sourceId (meshheader_of_bytes r.1.2) = 1
  /\ mh_destId (meshheader_of_bytes r.1.2) = 255
  /\ mh_ttl (meshheader_of_bytes r.1.2) = 1.
Proof. vm_compute. repeat split; reflexivity. Qed.

Example test_tick_no_duplicate_beacon :
  let r := tick (MESH_BEACON_INTERVAL + 1) (replicate 64 0) (MeshRouter_new 1 true) in
  (tick (MESH_BEACON_INTERVAL + 101) (replicate 64 0) r.2).1.1 = 0%nat.
Proof. vm_compute. reflexivity. Qed.

Example test_disabled_mesh_wrap_still_works :
  (wrap 0 [1; 2; 3] (replicate 64 0) (MeshRouter_new 1 false)).1.1 = 12%nat.
Proof. vm_compute. reflexivity. Qed.

(** ** Proof steps used throughout *)

(** Case analysis on every test of a conditional in the goal. *)
Ltac case_ifs :=
  repeat match goal with
         | |- context [if ?b then _ else _] => destruct b
         end.

(** ** Bytes and buffers *)

Lemma length_fixed n l : length (fixed n l) = n.
Proof.
  unfold fixed. rewrite length_take, length_app, length_replicate. lia.
Qed.

Lemma fixed_exact n l : length l = n -> fixed n l = l.
Proof.
  intros <-. unfold fixed. apply take_app_length.
Qed.

Lemma fixed_app_ge n l k : (n <= length l)%nat -> fixed n (l ++ k) = take n l.
Proof.
  intros H. unfold fixed. rewrite <- app_assoc.
  rewrite take_app_le by exact H. reflexivity.
Qed.

Lemma memcpy_at_end pre rest off src :
  length pre = off ->
  memcpy (pre ++ rest) off src = pre ++ src ++ drop (length src) rest.
Proof.
  intros <-. unfold memcpy.
  rewrite take_app_length. rewrite drop_app_add'; reflexivity.
Qed.

Lemma memcpy_at_start buf src :
  memcpy buf 0 src = src ++ drop (length src) buf.
Proof. apply (memcpy_at_end [] buf 0%nat src). reflexivity. Qed.

Lemma length_memcpy dst off src :
  (off + length src <= length dst)%nat ->
  length (memcpy dst off src) = length dst.
Proof.
  intros H. unfold memcpy.
  rewrite !length_app, length_take, length_drop. lia.
Qed.

Lemma rd8_app_r l r k : rd8 (l ++ r) (length l + k) = rd8 r k.
Proof. unfold rd8. apply app_nth2_plus. Qed.

Lemma rd16_app_r l r : rd16 (l ++ r) (length l) = rd16 r 0.
Proof.
  unfold rd16. rewrite <- (rd8_app_r l r 0), <- (rd8_app_r l r (0 + 1)).
  rewrite Nat.add_0_r. reflexivity.
Qed.

Lemma is_u8_spec x : is_u8 x = true <-> 0 <= x < 256.
Proof. unfold is_u8. rewrite andb_true_iff, Z.leb_le, Z.ltb_lt. tauto. Qed.

Lemma is_u16_spec x : is_u16 x = true <-> 0 <= x < 65536.
Proof. unfold is_u16. rewrite andb_true_iff, Z.leb_le, Z.ltb_lt. tauto. Qed.

Lemma is_u32_spec x : is_u32 x = true <-> 0 <= x < 4294967296.
Proof. unfold is_u32. rewrite andb_true_iff, Z.leb_le, Z.ltb_lt. tauto. Qed.

Lemma is_array_length n a : is_array n a = true -> length a = n.
Proof.
  unfold is_array. rewrite andb_true_iff, Nat.eqb_eq. tauto.
Qed.

Lemma le16_value x :
  0 <= x < 65536 -> x mod 256 + 256 * ((x / 256) mod 256) = x.
Proof.
  intros H.
  assert (0 <= x / 256 < 256) by (split; [apply Z.div_pos | apply Z.div_lt_upper_bound]; lia).
  rewrite (Z.mod_small (x / 256)) by lia.
  pose proof (Z.div_mod x 256 ltac:(lia)). lia.
Qed.

Lemma le32_value x :
  0 <= x < 4294967296 ->
  x mod 256 + 256 * ((x / 256) mod 256)
  + 65536 * ((x / 65536) mod 256) + 16777216 * ((x / 16777216) mod 256) = x.
Proof.
  intros H.
  pose proof (Z.div_mod x 256 ltac:(lia)).
  pose proof (Z.div_mod (x / 256) 256 ltac:(lia)).
  pose proof (Z.div_mod (x / 256 / 256) 256 ltac:(lia)).
  rewrite Z.div_div in * by lia.
  change (256 * 256) with 65536 in *.
  replace (x / 16777216) with (x / 65536 / 256) by (rewrite Z.div_div by lia; reflexivity).
  assert (0 <= x / 65536 / 256 < 256).
  { rewrite Z.div_div by lia. change (65536 * 256) with 16777216.
    split; [apply Z.div_pos | apply Z.div_lt_upper_bound]; lia. }
  rewrite (Z.mod_small (x / 65536 / 256)) by lia.
  lia.
Qed.

Lemma rd16_le16 x r : 0 <= x < 65536 -> rd16 (le16 x ++ r) 0 = x.
Proof. intros H. unfold rd16, rd8, le16. cbn [nth app Nat.add]. apply le16_value, H. Qed.

(** ** CRC *)

Lemma crc16_bit_range c : 0 <= crc16_bit c < 65536.
Proof. unfold crc16_bit. destruct (negb _); apply Z.mod_pos_bound; lia. Qed.

Lemma crc16_byte_range c d : 0 <= crc16_byte c d < 65536.
Proof. unfold crc16_byte. cbn [Nat.iter]. apply crc16_bit_range. Qed.

Lemma lss_crc16_range data : 0 <= lss_crc16 data < 65536.
Proof.
  unfold lss_crc16.
  destruct data as [|d data] using rev_ind.
  - cbn. lia.
  - rewrite fold_left_app. cbn [fold_left]. apply crc16_byte_range.
Qed.

(** ** Codec: the shape of serialised frames and the round trips *)

Lemma length_header_bytes h : length (header_bytes h) = 60%nat.
Proof.
  unfold header_bytes. rewrite !length_app, !length_fixed. reflexivity.
Qed.

Lemma length_command_bytes c : length (command_bytes c) = 201%nat.
Proof.
  unfold command_bytes. rewrite !length_app, !length_fixed. reflexivity.
Qed.

Lemma length_ack_bytes a : length (ack_bytes a) = 202%nat.
Proof.
  unfold ack_bytes. rewrite !length_app, !length_fixed. reflexivity.
Qed.

Lemma length_mem_read src n : length (mem_read src n) = n.
Proof. apply length_fixed. Qed.

Lemma length_frame_body p :
  (length (frame_body p) + 2 = lss_multi_sensor_size p)%nat.
Proof.
  unfold frame_body, lss_multi_sensor_size.
  rewrite length_app, length_header_bytes, length_mem_read. reflexivity.
Qed.

Lemma serialize_multi_sensor_fits p buf :
  (lss_multi_sensor_size p <= length buf)%nat ->
  lss_serialize_multi_sensor p buf =
    (lss_multi_sensor_size p,
     frame_body p ++ le16 (lss_crc16 (frame_body p))
     ++ drop (lss_multi_sensor_size p) buf).
Proof.
  intros Hfit. unfold lss_serialize_multi_sensor.
  destruct (Nat.ltb_spec (length buf) (lss_multi_sensor_size p)) as [|_]; [lia|].
  cbv zeta.
  set (hb := header_bytes (header p)).
  set (vb := mem_read _ _).
  assert (Hhb : length hb = 60%nat) by apply length_header_bytes.
  assert (Hvb : length vb = (Z.to_nat (hdr_valueCount (header p)) * sizeof_SensorValuePacket)%nat)
    by apply length_mem_read.
  rewrite memcpy_at_start.
  rewrite (memcpy_at_end hb) by exact Hhb.
  rewrite Hhb, Hvb.
  change (0 + sizeof_MultiSensorHeader)%nat with 60%nat.
  rewrite (app_assoc hb vb).
  rewrite (take_app_length' (hb ++ vb)) by (rewrite length_app; lia).
  rewrite (memcpy_at_end (hb ++ vb)) by (rewrite length_app; lia).
  rewrite !drop_drop.
  unfold frame_body. fold hb. fold vb.
  reflexivity.
Qed.

Lemma values_bytes_take n vs :
  take (n * 5) (values_bytes vs) = values_bytes (take n vs).
Proof.
  revert vs. induction n as [|n IH]; intros [|v vs]; try reflexivity.
  change (values_bytes (v :: vs)) with (value_bytes v ++ values_bytes vs).
  change (take (S n) (v :: vs)) with (v :: take n vs).
  change (values_bytes (v :: take n vs))
    with (value_bytes v ++ values_bytes (take n vs)).
  rewrite <- IH. reflexivity.
Qed.

Lemma length_values_bytes vs : length (values_bytes vs) = (length vs * 5)%nat.
Proof.
  induction vs as [|v vs IH]; [reflexivity|].
  change (values_bytes (v :: vs)) with (value_bytes v ++ values_bytes vs).
  rewrite length_app, IH. reflexivity.
Qed.

(** Within the array, the copy reads exactly the announced entries. *)
Lemma mem_read_values p :
  (Z.to_nat (hdr_valueCount (header p)) <= length (values p))%nat ->
  mem_read (values_image p)
    (Z.to_nat (hdr_valueCount (header p)) * sizeof_SensorValuePacket)
  = values_bytes (take (Z.to_nat (hdr_valueCount (header p))) (values p)).
Proof.
  intros H. unfold mem_read, values_image, sizeof_SensorValuePacket.
  rewrite fixed_app_ge by (rewrite length_values_bytes; lia).
  apply values_bytes_take.
Qed.

Lemma values_of_bytes_values vs rest :
  forallb value_wf vs = true ->
  values_of_bytes (length vs) (values_bytes vs ++ rest) = vs.
Proof.
  induction vs as [|[t v] vs IH]; [reflexivity|].
  cbn [forallb]. rewrite andb_true_iff. intros [Hv Hvs].
  unfold value_wf in Hv. cbn [sv_type sv_value] in Hv.
  apply andb_true_iff in Hv as [_ Hv]. apply is_u32_spec in Hv.
  cbn [length values_of_bytes].
  change (values_bytes ({| sv_type := t; sv_value := v |} :: vs) ++ rest)
    with (t :: le32 v ++ values_bytes vs ++ rest).
  f_equal.
  - unfold rd8, rd32, le32. cbn [nth app Nat.add]. f_equal. apply le32_value, Hv.
  - unfold le32. cbn [app drop]. apply IH, Hvs.
Qed.

Lemma header_of_bytes_layout a b c d p0 p1 p2 p3 p4 p5 p6 p7 loc zn rest :
  length loc = 32%nat -> length zn = 16%nat ->
  header_of_bytes
    ([a; b] ++ [c; d] ++ [p0; p1; p2; p3; p4; p5; p6; p7] ++ loc ++ zn ++ rest)
  = {| hdr_syncWord := a + 256 * b; hdr_networkId := c + 256 * d;
       hdr_packetType := p0; hdr_sensorId := p1; hdr_valueCount := p2;
       hdr_batteryPercent := p3; hdr_powerState := p4;
       hdr_lastCommandSeq := p5; hdr_ackStatus := p6; hdr_pad := p7;
       hdr_location := loc; hdr_zone := zn |}.
Proof.
  intros Hl Hz. unfold header_of_bytes, rd16, rd8.
  cbn [nth app Nat.add drop].
  f_equal.
  - apply take_app_length'. symmetry. exact Hl.
  - rewrite (drop_app_length' loc) by (symmetry; exact Hl).
    apply take_app_length'. symmetry. exact Hz.
Qed.

Lemma header_roundtrip h rest :
  header_wf h = true -> header_of_bytes (header_bytes h ++ rest) = h.
Proof.
  unfold header_wf. rewrite !andb_true_iff.
  intros [[[[[[[[[[[Hs Hn] _] _] _] _] _] _] _] _] Hl] Hz].
  apply is_u16_spec in Hs. apply is_u16_spec in Hn.
  apply is_array_length in Hl. apply is_array_length in Hz.
  destruct h as [s n p0 p1 p2 p3 p4 p5 p6 p7 loc zn].
  cbn [hdr_syncWord hdr_networkId hdr_location hdr_zone] in *.
  unfold header_bytes, le16.
  cbn [hdr_syncWord hdr_networkId hdr_packetType hdr_sensorId hdr_valueCount
       hdr_batteryPercent hdr_powerState hdr_lastCommandSeq hdr_ackStatus
       hdr_pad hdr_location hdr_zone].
  rewrite !fixed_exact by assumption.
  rewrite <- !app_assoc.
  rewrite header_of_bytes_layout by assumption.
  rewrite !le16_value by assumption. reflexivity.
Qed.

(** Deserialising exactly the bytes the serialiser wrote. *)
Lemma multi_sensor_round_trip p buf out :
  multi_sensor_wf p = true ->
  (lss_multi_sensor_size p <= length buf)%nat ->
  let n := Z.to_nat (hdr_valueCount (header p)) in
  let frame := take (lss_serialize_multi_sensor p buf).1
                    (lss_serialize_multi_sensor p buf).2 in
  (lss_serialize_multi_sensor p buf).1 = lss_multi_sensor_size p
  /\ lss_deserialize_multi_sensor frame out =
       (true,
        {| header := header p;
           values := take n (values p) ++ drop n (values out);
           checksum := lss_crc16 (take (length frame - 2) frame) |})
  /\ crc_verifies frame.
Proof.
  intros Hwf Hfit n frame.
  unfold multi_sensor_wf, packet_wf in Hwf. rewrite !andb_true_iff in Hwf.
  destruct Hwf as [[[[[Hh Hlen] Hvs] _] Hsync] Hvc].
  apply Nat.eqb_eq in Hlen. apply Z.eqb_eq in Hsync. apply Z.leb_le in Hvc.
  assert (Hn : (n <= length (values p))%nat).
  { rewrite Hlen. unfold n, MAX_SENSOR_VALUES in *. lia. }
  assert (Hframe : frame = frame_body p ++ le16 (lss_crc16 (frame_body p))).
  { unfold frame. rewrite serialize_multi_sensor_fits by exact Hfit. cbn [fst snd].
    rewrite app_assoc. apply take_app_length'.
    rewrite length_app. pose proof (length_frame_body p). cbn [length le16]. lia. }
  assert (Hbody : frame_body p
                  = header_bytes (header p) ++ values_bytes (take n (values p))).
  { unfold frame_body. rewrite mem_read_values by exact Hn. reflexivity. }
  pose proof (length_frame_body p) as Hlb.
  assert (Hlf : length frame = lss_multi_sensor_size p).
  { rewrite Hframe, length_app. cbn [length le16]. lia. }
  assert (Htake : take (length frame - 2) frame = frame_body p).
  { rewrite Hframe at 2. apply take_app_length'. lia. }
  assert (Hcrc : rd16 frame (length frame - 2) = lss_crc16 (frame_body p)).
  { replace (length frame - 2)%nat with (length (frame_body p)) by lia.
    rewrite Hframe, rd16_app_r.
    rewrite <- (app_nil_r (le16 _)). apply rd16_le16, lss_crc16_range. }
  split; [rewrite serialize_multi_sensor_fits by exact Hfit; reflexivity|].
  split; [|unfold crc_verifies; rewrite Hcrc, Htake; reflexivity].
  rewrite Htake.
  unfold lss_deserialize_multi_sensor.
  destruct (Nat.ltb_spec (length frame) (sizeof_MultiSensorHeader + sizeof_uint16_t))
    as [Hshort|_].
  { exfalso. rewrite Hlf in Hshort. unfold lss_multi_sensor_size in Hshort.
    unfold sizeof_MultiSensorHeader, sizeof_uint16_t in *. lia. }
  cbv zeta. cbn [header values checksum].
  assert (Hhdr : header_of_bytes frame = header p).
  { rewrite Hframe, Hbody, <- !app_assoc. apply header_roundtrip, Hh. }
  rewrite Hhdr, Hsync. cbn [negb Z.eqb SYNC_MULTI_SENSOR Pos.eqb].
  destruct (Z.gtb_spec (hdr_valueCount (header p)) MAX_SENSOR_VALUES) as [|_]; [lia|].
  fold n.
  assert (Hpe : (sizeof_MultiSensorHeader + n * sizeof_SensorValuePacket)%nat
                = (length frame - 2)%nat).
  { rewrite Hlf. unfold lss_multi_sensor_size. fold n.
    unfold sizeof_MultiSensorHeader, sizeof_SensorValuePacket, sizeof_uint16_t. lia. }
  rewrite Hpe.
  destruct (Nat.ltb_spec (length frame) (length frame - 2 + sizeof_uint16_t)) as [Hs|_].
  { exfalso. unfold sizeof_uint16_t in Hs. rewrite Hlf in Hs.
    unfold lss_multi_sensor_size, sizeof_uint16_t in Hs. lia. }
  rewrite Htake, Hcrc, Z.eqb_refl. cbn [negb].
  do 3 f_equal.
  rewrite Hframe, Hbody, <- !app_assoc.
  rewrite (drop_app_length' (header_bytes (header p)))
    by (rewrite length_header_bytes; reflexivity).
  replace n with (length (take n (values p))) at 1 by (rewrite length_take; lia).
  apply values_of_bytes_values.
  apply forallb_forall. intros v Hv.
  rewrite forallb_forall in Hvs. apply Hvs.
  apply list_elem_of_In. apply list_elem_of_In in Hv.
  exact (subseteq_take n (values p) v Hv).
Qed.


(** *** Command frames *)

Lemma command_bytes_body c :
  command_bytes c = command_body c ++ le16 (cmd_checksum c).
Proof. unfold command_bytes, command_body. rewrite <- !app_assoc. reflexivity. Qed.

Lemma length_command_body c : length (command_body c) = 199%nat.
Proof.
  unfold command_body. rewrite !length_app, !length_fixed. reflexivity.
Qed.

Lemma serialize_command_fits c buf :
  (sizeof_CommandPacket <= length buf)%nat ->
  lss_serialize_command c buf =
    (sizeof_CommandPacket,
     command_body c ++ le16 (lss_crc16 (command_body c))
     ++ drop sizeof_CommandPacket buf).
Proof.
  intros Hfit. unfold lss_serialize_command.
  destruct (Nat.ltb_spec (length buf) sizeof_CommandPacket) as [|_]; [lia|].
  cbv zeta. f_equal.
  rewrite memcpy_at_start, length_command_bytes, command_bytes_body.
  change (sizeof_CommandPacket - sizeof_uint16_t)%nat with 199%nat.
  rewrite <- app_assoc.
  rewrite (take_app_length' (command_body c))
    by (rewrite length_command_body; reflexivity).
  rewrite (memcpy_at_end (command_body c))
    by apply length_command_body.
  reflexivity.
Qed.

Lemma command_of_bytes_layout a b p0 p1 p2 p3 p4 dat crc :
  length dat = 192%nat ->
  command_of_bytes ([a; b] ++ [p0; p1; p2; p3; p4] ++ dat ++ le16 crc)
  = {| cmd_syncWord := a + 256 * b; cmd_commandType := p0;
       cmd_targetSensorId := p1; cmd_sequenceNumber := p2;
       cmd_dataLength := p3; cmd_pad := p4; cmd_data := dat;
       cmd_checksum := rd16 (le16 crc) 0 |}.
Proof.
  intros Hd. unfold command_of_bytes.
  f_equal; try reflexivity.
  - cbn [app drop]. apply take_app_length'. symmetry. exact Hd.
  - change 199%nat with (7 + 192)%nat. rewrite <- Hd.
    change ([a; b] ++ [p0; p1; p2; p3; p4] ++ dat ++ le16 crc)
      with ([a; b; p0; p1; p2; p3; p4] ++ dat ++ le16 crc).
    rewrite app_assoc.
    replace (7 + length dat)%nat with (length ([a; b; p0; p1; p2; p3; p4] ++ dat))
      by (rewrite length_app; reflexivity).
    apply rd16_app_r.
Qed.

Lemma command_round_trip c buf out :
  command_wf c = true ->
  (sizeof_CommandPacket <= length buf)%nat ->
  let frame := take (lss_serialize_command c buf).1
                    (lss_serialize_command c buf).2 in
  (lss_serialize_command c buf).1 = sizeof_CommandPacket
  /\ lss_deserialize_command frame out =
       (true,
        command_with_checksum c (lss_crc16 (take (length frame - 2) frame)))
  /\ crc_verifies frame.
Proof.
  intros Hwf Hfit frame.
  unfold command_wf in Hwf. rewrite !andb_true_iff in Hwf.
  destruct Hwf as [[[[[[[Hsync _] _] _] _] _] Hdata] _].
  apply Z.eqb_eq in Hsync. apply is_array_length in Hdata.
  assert (Hframe : frame = command_body c ++ le16 (lss_crc16 (command_body c))).
  { unfold frame. rewrite serialize_command_fits by exact Hfit. cbn [fst snd].
    rewrite app_assoc. apply take_app_length'.
    rewrite length_app, length_command_body. reflexivity. }
  assert (Hlf : length frame = 201%nat).
  { rewrite Hframe, length_app, length_command_body. reflexivity. }
  assert (Htake : take (length frame - 2) frame = command_body c).
  { rewrite Hlf, Hframe. apply take_app_length'.
    rewrite length_command_body. reflexivity. }
  assert (Hcrc : rd16 frame (length frame - 2) = lss_crc16 (command_body c)).
  { rewrite Hlf, Hframe. change (201 - 2)%nat with 199%nat.
    rewrite <- (length_command_body c), rd16_app_r.
    rewrite <- (app_nil_r (le16 _)). apply rd16_le16, lss_crc16_range. }
  split; [rewrite serialize_command_fits by exact Hfit; reflexivity|].
  split; [|unfold crc_verifies; rewrite Hcrc, Htake; reflexivity].
  rewrite Htake.
  assert (Hparse : command_of_bytes frame
                   = command_with_checksum c (lss_crc16 (command_body c))).
  { rewrite Hframe. unfold command_body, le16 at 1. rewrite <- !app_assoc.
    rewrite fixed_exact by exact Hdata.
    rewrite command_of_bytes_layout by exact Hdata.
    rewrite <- (app_nil_r (le16 (lss_crc16 _))) at 1.
    rewrite rd16_le16 by apply lss_crc16_range.
    rewrite le16_value by (rewrite Hsync; unfold SYNC_COMMAND; lia).
    destruct c; reflexivity. }
  unfold lss_deserialize_command.
  destruct (Nat.ltb_spec (length frame) sizeof_CommandPacket) as [Hs|_].
  { exfalso. rewrite Hlf in Hs. unfold sizeof_CommandPacket in Hs. lia. }
  cbv zeta. rewrite Hparse.
  cbn [cmd_syncWord cmd_checksum command_with_checksum].
  rewrite Hsync. cbn [negb Z.eqb SYNC_COMMAND Pos.eqb].
  change (sizeof_CommandPacket - sizeof_uint16_t)%nat with (201 - 2)%nat.
  rewrite <- Hlf, Htake, Z.eqb_refl. reflexivity.
Qed.

(** *** Acknowledgement frames *)

Lemma ack_bytes_body a : ack_bytes a = ack_body a ++ le16 (ack_checksum a).
Proof. unfold ack_bytes, ack_body. rewrite <- !app_assoc. reflexivity. Qed.

Lemma length_ack_body a : length (ack_body a) = 200%nat.
Proof.
  unfold ack_body. rewrite !length_app, !length_fixed. reflexivity.
Qed.

Lemma serialize_ack_fits a buf :
  (sizeof_AckPacket <= length buf)%nat ->
  lss_serialize_ack a buf =
    (sizeof_AckPacket,
     ack_body a ++ le16 (lss_crc16 (ack_body a)) ++ drop sizeof_AckPacket buf).
Proof.
  intros Hfit. unfold lss_serialize_ack.
  destruct (Nat.ltb_spec (length buf) sizeof_AckPacket) as [|_]; [lia|].
  cbv zeta. f_equal.
  rewrite memcpy_at_start, length_ack_bytes, ack_bytes_body.
  change (sizeof_AckPacket - sizeof_uint16_t)%nat with 200%nat.
  rewrite <- app_assoc.
  rewrite (take_app_length' (ack_body a))
    by (rewrite length_ack_body; reflexivity).
  rewrite (memcpy_at_end (ack_body a)) by apply length_ack_body.
  reflexivity.
Qed.

Lemma ack_round_trip a buf :
  ack_wf a = true ->
  (sizeof_AckPacket <= length buf)%nat ->
  let frame := take (lss_serialize_ack a buf).1 (lss_serialize_ack a buf).2 in
  (lss_serialize_ack a buf).1 = sizeof_AckPacket
  /\ deserialize_ack frame =
       Some (ack_with_checksum a (lss_crc16 (take (length frame - 2) frame)))
  /\ crc_verifies frame.
Proof.
  intros Hwf Hfit frame.
  unfold ack_wf in Hwf. rewrite !andb_true_iff in Hwf.
  destruct Hwf as [[[[[[[[Hsync _] _] _] _] _] _] Hdata] _].
  apply Z.eqb_eq in Hsync. apply is_array_length in Hdata.
  assert (Hframe : frame = ack_body a ++ le16 (lss_crc16 (ack_body a))).
  { unfold frame. rewrite serialize_ack_fits by exact Hfit. cbn [fst snd].
    rewrite app_assoc. apply take_app_length'.
    rewrite length_app, length_ack_body. reflexivity. }
  assert (Hlf : length frame = 202%nat).
  { rewrite Hframe, length_app, length_ack_body. reflexivity. }
  assert (Htake : take 200 frame = ack_body a).
  { rewrite Hframe. apply take_app_length'. rewrite length_ack_body. reflexivity. }
  assert (Hcrc : rd16 frame 200 = lss_crc16 (ack_body a)).
  { rewrite Hframe. rewrite <- (length_ack_body a), rd16_app_r.
    rewrite <- (app_nil_r (le16 _)). apply rd16_le16, lss_crc16_range. }
  split; [rewrite serialize_ack_fits by exact Hfit; reflexivity|].
  split; [|unfold crc_verifies; rewrite Hlf; change (202 - 2)%nat with 200%nat;
           rewrite Hcrc, Htake; reflexivity].
  rewrite Hlf. change (202 - 2)%nat with 200%nat. rewrite Htake.
  unfold deserialize_ack.
  destruct (Nat.ltb_spec (length frame) sizeof_AckPacket) as [Hs|_].
  { exfalso. rewrite Hlf in Hs. unfold sizeof_AckPacket in Hs. lia. }
  rewrite Hcrc, Htake, Z.eqb_refl.
  assert (Hs : rd16 frame 0 = SYNC_COMMAND).
  { rewrite Hframe. unfold ack_body. rewrite <- !app_assoc.
    rewrite rd16_le16; [exact Hsync | rewrite Hsync; unfold SYNC_COMMAND; lia]. }
  rewrite Hs. cbn [negb Z.eqb SYNC_COMMAND Pos.eqb].
  f_equal. unfold ack_with_checksum. rewrite <- Hsync at 1.
  f_equal; try (rewrite Hframe; reflexivity).
  rewrite Hframe. unfold ack_body, le16 at 1.
  cbn [app drop]. rewrite fixed_exact by exact Hdata.
  apply take_app_length'. symmetry. exact Hdata.
Qed.

(** ** The claims about the codec *)

(** [test_crc16_single_zero]. *)
Example crc16_single_zero : lss_crc16 [0] = 0xE1F0.
Proof. vm_compute. reflexivity. Qed.

(** C7. [crc16] of the empty byte sequence is [0xFFFF], and [crc16] of the
    nine ASCII bytes of "123456789" is [0x29B1], the check value of
    CRC-16/CCITT-FALSE. *)
Theorem crc16_check_values :
  lss_crc16 [] = 0xFFFF /\ lss_crc16 check_string = 0x29B1.
Proof. split; vm_compute; reflexivity. Qed.

(** The only guard of the serialiser is the size of the buffer: whenever
    the buffer has room the call succeeds, whatever the value count. *)
Lemma serialize_multi_sensor_only_checks_room p buf :
  (lss_multi_sensor_size p <= length buf)%nat ->
  (lss_serialize_multi_sensor p buf).1 = lss_multi_sensor_size p
  /\ (0 < lss_multi_sensor_size p)%nat.
Proof.
  intros H. rewrite serialize_multi_sensor_fits by exact H.
  split; [reflexivity|]. unfold lss_multi_sensor_size, sizeof_MultiSensorHeader. lia.
Qed.

(** C1 (as the code behaves).  With seventeen values announced and a
    255-byte buffer, [lss_serialize_multi_sensor] does not fail: it returns
    147 and writes a frame into the buffer. *)
Theorem serialize_multi_sensor_17_values_not_rejected :
  (lss_serialize_multi_sensor (sample_packet 17) (replicate 255 0)).1 = 147%nat
  /\ (lss_serialize_multi_sensor (sample_packet 17) (replicate 255 0)).2
     <> replicate 255 0.
Proof.
  split; [vm_compute; reflexivity|].
  intros H. apply (f_equal (fun l => rd8 l 0)) in H. vm_compute in H. discriminate H.
Qed.

(** C3. [lss_deserialize_multi_sensor] rejects a buffer exactly when it is
    shorter than header + 5 * valueCount + 2 bytes, or its sync word is not
    [0xABCD], or its value count exceeds 16, or its trailing CRC differs from
    the CRC of header and values; a rejection leaves the values and the
    checksum of the caller's packet as they were. *)
Theorem deserialize_multi_sensor_rejects_iff (buf : list Z) (out : MultiSensorPacket) :
  let value_count := rd8 buf 6 in
  let payload_end :=
    (sizeof_MultiSensorHeader
     + Z.to_nat value_count * sizeof_SensorValuePacket)%nat in
  ((lss_deserialize_multi_sensor buf out).1 = false <->
     (length buf < payload_end + sizeof_uint16_t)%nat
     \/ rd16 buf 0 <> SYNC_MULTI_SENSOR
     \/ value_count > MAX_SENSOR_VALUES
     \/ rd16 buf payload_end <> lss_crc16 (take payload_end buf))
  /\ ((lss_deserialize_multi_sensor buf out).1 = false ->
      values (lss_deserialize_multi_sensor buf out).2 = values out
      /\ checksum (lss_deserialize_multi_sensor buf out).2 = checksum out).
Proof.
  intros vc pe. unfold lss_deserialize_multi_sensor.
  destruct (Nat.ltb_spec (length buf) (sizeof_MultiSensorHeader + sizeof_uint16_t))
    as [Hshort|Hlong].
  { cbn [fst snd]. split; [|tauto]. split; [|reflexivity]. intros _. left.
    unfold pe, sizeof_MultiSensorHeader, sizeof_uint16_t in *. lia. }
  cbv zeta. cbn [header values checksum].
  change (hdr_syncWord (header_of_bytes buf)) with (rd16 buf 0).
  change (hdr_valueCount (header_of_bytes buf)) with vc.
  fold pe.
  destruct (Z.eqb_spec (rd16 buf 0) SYNC_MULTI_SENSOR) as [Hsync|Hsync];
    cbn [negb fst snd values checksum]; [|intuition (lia || congruence)].
  destruct (Z.gtb_spec vc MAX_SENSOR_VALUES) as [Hvc|Hvc];
    cbn [fst snd values checksum]; [intuition (lia || congruence)|].
  destruct (Nat.ltb_spec (length buf) (pe + sizeof_uint16_t)) as [Hlen|Hlen];
    cbn [fst snd values checksum]; [intuition (lia || congruence)|].
  destruct (Z.eqb_spec (lss_crc16 (take pe buf)) (rd16 buf pe)) as [Hcrc|Hcrc];
    cbn [negb fst snd values checksum].
  - split; [|discriminate]. split; [discriminate|].
    intros [H|[H|[H|H]]]; [lia | contradiction | lia | congruence].
  - intuition (lia || congruence).
Qed.

(** C2. Round trip: for a well-formed multi-sensor packet (sync word
    [0xABCD], at most 16 values), command packet or acknowledgement packet
    (sync word [0xCDEF]), serialising into a buffer with room and
    deserialising the bytes written succeeds; the packet obtained has the
    header and the first [valueCount] values of the source (for command and
    acknowledgement: every field but the checksum), its checksum is the CRC
    of the frame, and the trailing CRC of the frame verifies. *)
Theorem codec_round_trip :
  (forall (p : MultiSensorPacket) (buf : list Z) (out : MultiSensorPacket),
     multi_sensor_wf p = true ->
     (lss_multi_sensor_size p <= length buf)%nat ->
     let n := Z.to_nat (hdr_valueCount (header p)) in
     let frame := take (lss_serialize_multi_sensor p buf).1
                       (lss_serialize_multi_sensor p buf).2 in
     let r := lss_deserialize_multi_sensor frame out in
     r.1 = true
     /\ header r.2 = header p
     /\ take n (values r.2) = take n (values p)
     /\ crc_verifies frame)
  /\ (forall (c : CommandPacket) (buf : list Z) (out : CommandPacket),
     command_wf c = true ->
     (sizeof_CommandPacket <= length buf)%nat ->
     let frame := take (lss_serialize_command c buf).1
                       (lss_serialize_command c buf).2 in
     let r := lss_deserialize_command frame out in
     r.1 = true
     /\ r.2 = command_with_checksum c (cmd_checksum r.2)
     /\ crc_verifies frame)
  /\ (forall (a : AckPacket) (buf : list Z),
     ack_wf a = true ->
     (sizeof_AckPacket <= length buf)%nat ->
     let frame := take (lss_serialize_ack a buf).1
                       (lss_serialize_ack a buf).2 in
     (exists b, deserialize_ack frame = Some b
                /\ b = ack_with_checksum a (ack_checksum b))
     /\ crc_verifies frame).
Proof.
  split; [|split].
  - intros p buf out Hwf Hfit n frame r.
    destruct (multi_sensor_round_trip p buf out Hwf Hfit) as (_ & Hd & Hc).
    fold frame in Hd, Hc. unfold r. rewrite Hd. cbn [fst snd header values].
    repeat split; [|exact Hc].
    apply take_app_length'. rewrite length_take.
    unfold multi_sensor_wf, packet_wf in Hwf. rewrite !andb_true_iff in Hwf.
    destruct Hwf as [[[[[_ Hlen] _] _] _] Hvc].
    apply Nat.eqb_eq in Hlen. apply Z.leb_le in Hvc.
    rewrite Hlen. unfold n, MAX_SENSOR_VALUES in *. lia.
  - intros c buf out Hwf Hfit frame r.
    destruct (command_round_trip c buf out Hwf Hfit) as (_ & Hd & Hc).
    fold frame in Hd, Hc. unfold r. rewrite Hd. cbn [fst snd].
    repeat split; exact Hc.
  - intros a buf Hwf Hfit frame.
    destruct (ack_round_trip a buf Hwf Hfit) as (_ & Hd & Hc).
    fold frame in Hd, Hc. split; [|exact Hc].
    eexists. split; [exact Hd|reflexivity].
Qed.

(** ** Mesh router: the route table *)

Lemma find_route_from_cases rs : forall i d,
  0 <= i ->
  (find_route_from i rs d = -1
   /\ forall j, route_matches d (nth j rs zero_route) = false)
  \/ (exists k, (k < length rs)%nat
      /\ find_route_from i rs d = i + Z.of_nat k
      /\ route_matches d (nth k rs zero_route) = true
      /\ forall j, (j < k)%nat -> route_matches d (nth j rs zero_route) = false).
Proof.
  induction rs as [|r rs IH]; intros i d Hi.
  - left. split; [reflexivity|]. intros [|j]; reflexivity.
  - cbn [find_route_from]. fold (route_matches d r).
    destruct (route_matches d r) eqn:Hm.
    + right. exists 0%nat. cbn [length nth]. repeat split; [lia|lia|exact Hm|].
      intros j Hj. lia.
    + destruct (IH (i + 1) d ltac:(lia)) as [[Hn Hall]|(k & Hk & Hf & Hmk & Hlt)].
      * left. split; [exact Hn|]. intros [|j]; [exact Hm|apply Hall].
      * right. exists (S k). cbn [length nth]. repeat split; [lia|lia|exact Hmk|].
        intros [|j] Hj; [exact Hm|apply Hlt; lia].
Qed.

Lemma find_route_from_insert rs : forall i d k e,
  (k < length rs)%nat ->
  (forall j, (j < k)%nat -> route_matches d (nth j rs zero_route) = false) ->
  route_matches d e = true ->
  find_route_from i (<[k:=e]> rs) d = i + Z.of_nat k.
Proof.
  induction rs as [|r rs IH]; intros i d k e Hk Hpre He; [cbn in Hk; lia|].
  destruct k as [|k].
  - cbn [insert list_insert find_route_from]. fold (route_matches d e).
    rewrite He. lia.
  - change (<[S k:=e]> (r :: rs)) with (r :: <[k:=e]> rs).
    cbn [find_route_from]. fold (route_matches d r).
    pose proof (Hpre 0%nat ltac:(lia)) as H0. cbn [nth] in H0. rewrite H0.
    rewrite IH; [lia | cbn in Hk; lia | | exact He].
    intros j Hj. apply (Hpre (S j)). lia.
Qed.

Lemma first_invalid_from_range rs : forall i,
  first_invalid_from i rs = -1
  \/ i <= first_invalid_from i rs < i + Z.of_nat (length rs).
Proof.
  induction rs as [|r rs IH]; intros i; [left; reflexivity|].
  cbn [first_invalid_from length]. destruct (negb (re_valid r)); [right; lia|].
  destruct (IH (i + 1)) as [H|H]; [left; exact H|right; lia].
Qed.

Lemma oldest_from_range rs : forall i o ts,
  oldest_from i rs o ts = o
  \/ i <= oldest_from i rs o ts < i + Z.of_nat (length rs).
Proof.
  induction rs as [|r rs IH]; intros i o ts; [left; reflexivity|].
  cbn [oldest_from length]. destruct (re_lastUpdated r <? ts).
  - destruct (IH (i + 1) i (re_lastUpdated r)) as [H|H]; right; lia.
  - destruct (IH (i + 1) o ts) as [H|H]; [left; exact H|right; lia].
Qed.

Lemma alloc_slot_range m :
  (0 < length (_routes m))%nat ->
  0 <= _alloc_slot m < Z.of_nat (length (_routes m)).
Proof.
  intros Hlen. unfold _alloc_slot.
  destruct (first_invalid_from_range (_routes m) 0) as [H|H].
  - rewrite H. cbn [Z.leb Z.compare].
    destruct (oldest_from_range (drop 1 (_routes m)) 1 0
                (re_lastUpdated (route_at m 0))) as [Ho|Ho].
    + rewrite Ho. lia.
    + rewrite length_drop in Ho. lia.
  - destruct (Z.leb_spec 0 (first_invalid_from 0 (_routes m))); lia.
Qed.

(** After [update_route], the lookup of the same destination finds the
    entry just written. *)
Lemma next_hop_after_update now d nh hc m :
  (0 < length (_routes m))%nat ->
  next_hop_for (update_route now d nh hc m) d = nh.
Proof.
  intros Hlen.
  set (e := {| re_destId := d; re_nextHop := nh; re_hopCount := hc;
               re_lastUpdated := now; re_valid := true |}).
  assert (He : route_matches d e = true).
  { unfold route_matches, e. cbn. apply Z.eqb_refl. }
  assert (Hk : exists k, (k < length (_routes m))%nat
             /\ update_route now d nh hc m = set_routes m (<[k:=e]> (_routes m))
             /\ forall j, (j < k)%nat ->
                  route_matches d (nth j (_routes m) zero_route) = false).
  { unfold update_route, _find_route. fold e.
    destruct (find_route_from_cases (_routes m) 0 d ltac:(lia))
      as [[Hn Hall]|(k & Hk & Hf & _ & Hlt)].
    - rewrite Hn. cbn [Z.ltb Z.compare].
      pose proof (alloc_slot_range m Hlen) as Hr.
      exists (Z.to_nat (_alloc_slot m)). split; [lia|]. split; [reflexivity|].
      intros j _. apply Hall.
    - rewrite Hf. destruct (Z.ltb_spec (0 + Z.of_nat k) 0) as [|_]; [lia|].
      exists k. split; [exact Hk|]. split; [|exact Hlt].
      replace (Z.to_nat (0 + Z.of_nat k)) with k by lia. reflexivity. }
  destruct Hk as (k & Hk & -> & Hpre).
  unfold next_hop_for, _find_route, route_at. cbn [_routes set_routes].
  rewrite (find_route_from_insert _ 0 d k e Hk Hpre He).
  replace (Z.to_nat (0 + Z.of_nat k)) with k by lia.
  destruct (Z.leb_spec 0 (0 + Z.of_nat k)) as [_|]; [|lia].
  rewrite (nth_lookup_Some _ k zero_route e)
    by (apply list_lookup_insert_eq; exact Hk).
  reflexivity.
Qed.

Lemma length_routes_update now d nh hc m :
  length (_routes (update_route now d nh hc m)) = length (_routes m).
Proof. unfold update_route. cbn [_routes set_routes]. apply length_insert. Qed.

(** ** The claims about [receive] *)

(** C5. A DATA frame received by the router of node [n]: shorter than the
    mesh header, or with [hopCount >= 5], it is dropped; otherwise its
    payload is delivered exactly when its destination is [n] or 255, and a
    frame addressed to another node is not delivered. *)
Theorem receive_data_frame (now : Z) (raw : list Z) (m : MeshRouter) :
  let hdr := meshheader_of_bytes raw in
  let n := _node_id m in
  mh_packetType hdr = MESH_DATA ->
  ((length raw < sizeof_MeshHeader)%nat \/ mh_hopCount hdr >= MESH_MAX_HOPS ->
     (receive now raw m).1 = None)
  /\ ((sizeof_MeshHeader <= length raw)%nat -> mh_hopCount hdr < MESH_MAX_HOPS ->
      ((receive now raw m).1 = Some (drop sizeof_MeshHeader raw)
         <-> mh_destId hdr = n \/ mh_destId hdr = 255)
      /\ (mh_destId hdr <> n -> mh_destId hdr <> 255 ->
          (receive now raw m).1 = None)).
Proof.
  intros hdr n Hdata. unfold receive. fold hdr.
  destruct (Nat.ltb_spec (length raw) sizeof_MeshHeader) as [Hs|Hl].
  { split; [reflexivity|]. intros; lia. }
  destruct (Z.geb_spec (mh_hopCount hdr) MESH_MAX_HOPS) as [Hh|Hh].
  { split; [reflexivity|]. intros; lia. }
  split; [intros [?|?]; lia|]. intros _ _.
  rewrite Hdata. cbn [Z.eqb MESH_DATA MESH_NEIGHBOR_BEACON MESH_ROUTE_REQUEST].
  set (m' := if _ && _ then _ else m).
  assert (Hn : _node_id m' = n).
  { unfold m'. destruct (_ && _); reflexivity. }
  rewrite Hn.
  destruct (Z.eqb_spec (mh_destId hdr) n) as [He|He];
    destruct (Z.eqb_spec (mh_destId hdr) 255) as [Hb|Hb];
    cbn [orb fst]; intuition congruence.
Qed.

(** C6. A neighbour beacon from node [s] below the hop limit is not
    delivered to the upper layer, and afterwards [next_hop_for s = s]. *)
Theorem receive_beacon_learns_neighbour (now : Z) (raw : list Z) (m : MeshRouter) :
  let hdr := meshheader_of_bytes raw in
  router_wf m = true ->
  (sizeof_MeshHeader <= length raw)%nat ->
  mh_packetType hdr = MESH_NEIGHBOR_BEACON ->
  mh_hopCount hdr < MESH_MAX_HOPS ->
  (receive now raw m).1 = None
  /\ next_hop_for (receive now raw m).2 (mh_sourceId hdr) = mh_sourceId hdr.
Proof.
  intros hdr Hwf Hlen Hb Hh. unfold receive. fold hdr.
  apply Nat.eqb_eq in Hwf.
  destruct (Nat.ltb_spec (length raw) sizeof_MeshHeader) as [|_]; [lia|].
  destruct (Z.geb_spec (mh_hopCount hdr) MESH_MAX_HOPS) as [|_]; [lia|].
  rewrite Hb. cbn [Z.eqb MESH_NEIGHBOR_BEACON Pos.eqb fst snd].
  split; [reflexivity|].
  apply next_hop_after_update.
  destruct (_ && _); [rewrite length_routes_update|];
    rewrite Hwf; unfold MESH_MAX_ROUTES; lia.
Qed.

(** ** Mesh router: the beacon timer *)

Lemma last_beacon_update_route now d nh hc m :
  _last_beacon (update_route now d nh hc m) = _last_beacon m.
Proof. reflexivity. Qed.

Lemma last_beacon_evict now m :
  _last_beacon (evict_stale_routes now m) = _last_beacon m.
Proof. reflexivity. Qed.

Lemma last_beacon_receive now raw m :
  _last_beacon (receive now raw m).2 = _last_beacon m.
Proof.
  unfold receive. case_ifs; reflexivity.
Qed.

Lemma last_beacon_wrap d payload buf m :
  _last_beacon (wrap d payload buf m).2 = _last_beacon m.
Proof. unfold wrap. destruct (_ <? _)%nat; reflexivity. Qed.

(** Within the interval [tick] writes nothing and keeps the timer. *)
Lemma tick_not_due now buf m :
  u32_sub now (_last_beacon m) < MESH_BEACON_INTERVAL ->
  (tick now buf m).1 = (0%nat, buf)
  /\ _last_beacon (tick now buf m).2 = _last_beacon m.
Proof.
  intros H. unfold tick. rewrite last_beacon_evict.
  destruct (Z.ltb_spec (u32_sub now (_last_beacon m)) MESH_BEACON_INTERVAL);
    [split; reflexivity | lia].
Qed.

(** Once the interval has elapsed [tick] restarts the timer, whether or not
    the beacon fits the buffer. *)
Lemma tick_due now buf m :
  MESH_BEACON_INTERVAL <= u32_sub now (_last_beacon m) ->
  _last_beacon (tick now buf m).2 = now
  /\ (tick now buf m).1.1
     = (if (length buf <? sizeof_MeshHeader)%nat then 0%nat else sizeof_MeshHeader).
Proof.
  intros H. unfold tick. rewrite last_beacon_evict.
  destruct (Z.ltb_spec (u32_sub now (_last_beacon m)) MESH_BEACON_INTERVAL); [lia|].
  destruct (_ <? _)%nat; split; reflexivity.
Qed.

Lemma tick_beacon_restarts_timer now buf m :
  (tick now buf m).1.1 <> 0%nat -> _last_beacon (tick now buf m).2 = now.
Proof.
  intros H.
  destruct (Z.lt_ge_cases (u32_sub now (_last_beacon m)) MESH_BEACON_INTERVAL) as [Hlt|Hge].
  - destruct (tick_not_due now buf m Hlt) as [H0 _]. rewrite H0 in H. contradiction.
  - apply tick_due, Hge.
Qed.

Lemma last_beacon_call t0 t c m :
  _last_beacon m = t0 ->
  u32_sub t t0 < MESH_BEACON_INTERVAL ->
  _last_beacon (call t c m) = t0.
Proof.
  intros <- Ht. destruct c; cbn [call].
  - apply last_beacon_receive.
  - apply last_beacon_wrap.
  - apply tick_not_due, Ht.
  - apply last_beacon_update_route.
  - apply last_beacon_evict.
  - reflexivity.
Qed.

Lemma last_beacon_calls t0 cs : forall m,
  _last_beacon m = t0 ->
  Forall (fun tc => u32_sub tc.1 t0 < MESH_BEACON_INTERVAL) cs ->
  _last_beacon (calls cs m) = t0.
Proof.
  induction cs as [|[t c] cs IH]; intros m Hm Hcs; [exact Hm|].
  apply Forall_cons in Hcs as [Ht Hrest]. cbn [fst] in Ht.
  unfold calls. cbn [fold_left fst snd]. apply IH; [|exact Hrest].
  apply last_beacon_call; [exact Hm|exact Ht].
Qed.

(** C8. After a call of [tick] that produced a beacon at time [t1], a call
    of [tick] less than the beacon interval later returns zero bytes,
    whatever calls of the router's methods (all within the interval) lie in
    between. *)
Theorem tick_beacon_once_per_interval
    (m : MeshRouter) (t1 : Z) (buf1 : list Z)
    (between : list (Z * RouterCall)) (t2 : Z) (buf2 : list Z) :
  (tick t1 buf1 m).1.1 <> 0%nat ->
  Forall (fun tc => u32_sub tc.1 t1 < MESH_BEACON_INTERVAL) between ->
  u32_sub t2 t1 < MESH_BEACON_INTERVAL ->
  (tick t2 buf2 (calls between (tick t1 buf1 m).2)).1.1 = 0%nat.
Proof.
  intros Hbeacon Hbetween Ht2.
  pose proof (tick_beacon_restarts_timer t1 buf1 m Hbeacon) as Hlast.
  pose proof (last_beacon_calls t1 between _ Hlast Hbetween) as Hkept.
  destruct (tick_not_due t2 buf2 (calls between (tick t1 buf1 m).2)) as [H0 _].
  - rewrite Hkept. exact Ht2.
  - rewrite H0. reflexivity.
Qed.

(** C9. When a beacon is due and the buffer is smaller than the mesh header,
    [tick] returns 0, leaves buffer and sequence counter alone, and still
    restarts the timer: a call that follows within the interval returns 0
    whatever its buffer, so the beacon of that interval is lost. *)
Theorem tick_small_buffer_loses_beacon
    (m : MeshRouter) (now : Z) (buf : list Z) (now2 : Z) (buf2 : list Z) :
  MESH_BEACON_INTERVAL <= u32_sub now (_last_beacon m) ->
  (length buf < sizeof_MeshHeader)%nat ->
  u32_sub now2 now < MESH_BEACON_INTERVAL ->
  (tick now buf m).1 = (0%nat, buf)
  /\ _last_beacon (tick now buf m).2 = now
  /\ _seq (tick now buf m).2 = _seq m
  /\ (tick now2 buf2 (tick now buf m).2).1.1 = 0%nat.
Proof.
  intros Hdue Hsmall Hsoon.
  assert (Hlast : _last_beacon (tick now buf m).2 = now) by apply tick_due, Hdue.
  split; [|split; [exact Hlast|split]].
  - unfold tick. rewrite last_beacon_evict.
    destruct (Z.ltb_spec (u32_sub now (_last_beacon m)) MESH_BEACON_INTERVAL); [lia|].
    destruct (Nat.ltb_spec (length buf) sizeof_MeshHeader); [reflexivity|lia].
  - unfold tick. rewrite last_beacon_evict.
    destruct (Z.ltb_spec (u32_sub now (_last_beacon m)) MESH_BEACON_INTERVAL); [lia|].
    destruct (Nat.ltb_spec (length buf) sizeof_MeshHeader); [reflexivity|lia].
  - destruct (tick_not_due now2 buf2 (tick now buf m).2) as [H0 _].
    + rewrite Hlast. exact Hsoon.
    + rewrite H0. reflexivity.
Qed.

(** ** Command applier *)

Lemma ack_fits nid seq ok buf :
  (sizeof_AckPacket <= length buf)%nat ->
  _ack nid seq ok buf =
    (sizeof_AckPacket,
     ack_frame (if ok then CMD_ACK else CMD_NACK) nid seq (if ok then 0 else 1)
     ++ drop sizeof_AckPacket buf).
Proof.
  intros Hfit. unfold _ack, lss_build_ack.
  rewrite serialize_ack_fits by exact Hfit.
  unfold ack_frame, ack_body.
  cbn [ack_syncWord ack_commandType ack_sensorId ack_sequenceNumber
       ack_statusCode ack_dataLength ack_pad ack_data].
  rewrite fixed_exact by apply length_replicate.
  rewrite <- !app_assoc.
  destruct ok; reflexivity.
Qed.

(** An ACK or NACK frame reads back as what it acknowledges. *)
Lemma ack_frame_parses kind sensor_id seq status_code :
  is_u8 kind = true -> is_u8 sensor_id = true -> is_u8 seq = true ->
  is_u8 status_code = true ->
  deserialize_ack (ack_frame kind sensor_id seq status_code)
  = Some {| ack_syncWord := SYNC_COMMAND; ack_commandType := kind;
            ack_sensorId := sensor_id; ack_sequenceNumber := seq;
            ack_statusCode := status_code; ack_dataLength := 0;
            ack_pad := 0; ack_data := replicate 192 0;
            ack_checksum :=
              lss_crc16 (take 200 (ack_frame kind sensor_id seq status_code)) |}.
Proof.
  intros Hk Hn Hs Hc.
  set (a := {| ack_syncWord := SYNC_COMMAND; ack_commandType := kind;
               ack_sensorId := sensor_id; ack_sequenceNumber := seq;
               ack_statusCode := status_code; ack_dataLength := 0;
               ack_pad := 0; ack_data := replicate 192 0;
               ack_checksum := 0 |}).
  assert (Hwf : ack_wf a = true).
  { unfold ack_wf, a.
    cbn [ack_syncWord ack_commandType ack_sensorId ack_sequenceNumber
         ack_statusCode ack_dataLength ack_pad ack_data ack_checksum].
    rewrite Hk, Hn, Hs, Hc. vm_compute. reflexivity. }
  destruct (ack_round_trip a (replicate 202 0) Hwf) as (_ & Hd & _).
  { rewrite length_replicate. unfold sizeof_AckPacket. lia. }
  assert (Hframe : take (lss_serialize_ack a (replicate 202 0)).1
                        (lss_serialize_ack a (replicate 202 0)).2
                   = ack_frame kind sensor_id seq status_code).
  { rewrite serialize_ack_fits
      by (rewrite length_replicate; unfold sizeof_AckPacket; lia).
    cbn [fst snd]. rewrite app_assoc.
    rewrite take_app_length'
      by (rewrite length_app, length_ack_body; reflexivity).
    unfold ack_frame, ack_body, a.
    cbn [ack_syncWord ack_commandType ack_sensorId ack_sequenceNumber
         ack_statusCode ack_dataLength ack_pad ack_data].
    rewrite fixed_exact by apply length_replicate.
    rewrite <- !app_assoc. reflexivity. }
  rewrite Hframe in Hd. rewrite Hd. reflexivity.
Qed.

(** An ACK buffer that cannot hold an [AckPacket] is left untouched, and
    the byte count is 0. *)
Lemma ack_too_small nid seq ok buf :
  (length buf < sizeof_AckPacket)%nat -> _ack nid seq ok buf = (0%nat, buf).
Proof.
  intros H. unfold _ack, lss_build_ack, lss_serialize_ack.
  destruct (Nat.ltb_spec (length buf) sizeof_AckPacket); [reflexivity|lia].
Qed.

(** [save] only touches the flash image. *)
Lemma save_cfg s : _cfg (save s).2 = _cfg s.
Proof. unfold save. destruct (nvs_ok s); reflexivity. Qed.

(** When the namespace does not open, nothing is persisted. *)
Lemma save_fails s : nvs_ok s = false -> save s = (false, s).
Proof. intros H. unfold save. rewrite H. reflexivity. Qed.

(** With an ACK buffer that cannot hold an [AckPacket] the commands are
    applied all the same, but no acknowledgement is written: the call
    returns 0 (or reboots) and the buffer is as before. *)
Lemma handle_command_small_ack_buffer pkt store mesh ack_buf :
  (length ack_buf < sizeof_AckPacket)%nat ->
  let r := handle_command pkt store mesh ack_buf in
  (r.1.1.1 = Returned 0 \/ r.1.1.1 = Restarted) /\ r.1.1.2 = ack_buf.
Proof.
  intros Hsmall. unfold handle_command. cbv zeta.
  unfold lss_build_ack, lss_serialize_ack.
  rewrite !ack_too_small by exact Hsmall.
  destruct (Nat.ltb_spec (length ack_buf) sizeof_AckPacket) as [_|]; [|lia].
  case_ifs; cbn [fst snd]; auto.
Qed.

Lemma strnlen_le s : forall n,
  (strnlen s n <= n)%nat /\ (strnlen s n <= length s)%nat.
Proof.
  induction s as [|c s IH]; intros [|n]; cbn [strnlen length]; try lia.
  destruct (c =? 0); [lia|]. specialize (IH n). lia.
Qed.

Lemma length_strncpy_bytes src n : length (strncpy_bytes src n) = n.
Proof.
  unfold strncpy_bytes. rewrite length_app, length_take, length_replicate.
  pose proof (strnlen_le src n). lia.
Qed.

Lemma copy_string_bytes n dst src :
  (0 < n)%nat -> copy_string n dst src = strncpy_bytes src (n - 1) ++ [0].
Proof.
  intros Hn. unfold copy_string.
  pose proof (length_strncpy_bytes src (n - 1)) as Hl.
  rewrite memcpy_at_start, Hl.
  rewrite (memcpy_at_end (strncpy_bytes src (n - 1))) by exact Hl.
  f_equal. rewrite drop_drop. cbn [length].
  rewrite drop_ge; [reflexivity|]. rewrite length_fixed. lia.
Qed.

Lemma nvs_put_all_tx_interval c m :
  nvs_put_all c m !! "tx_interval" = Some (NvsULong (telemetryIntervalMs c)).
Proof.
  unfold nvs_put_all. rewrite !lookup_insert_ne by discriminate.
  apply lookup_insert_eq.
Qed.

(** The [SET_INTERVAL] case in general.  The command carries the
    little-endian [v], the ACK buffer holds an [AckPacket]: with
    [dataLength >= 4] and [v] within
    [1000, 3600000] the interval is set to [v], [save()] is run on the
    updated config (so the key ["tx_interval"] holds [v] whenever the
    namespace opens) and the serialised ACK with status 0 is returned;
    otherwise the serialised NACK with status 1 is returned and the store is
    unchanged.  Both echo the sequence number of the command. *)
Theorem handle_set_interval
    (pkt : CommandPacket) (store : NodeConfigStore) (mesh : MeshRouter)
    (ack_buf : list Z) :
  cmd_commandType pkt = CMD_SET_INTERVAL ->
  (sizeof_AckPacket <= length ack_buf)%nat ->
  let v := rd32 (fixed 192 (cmd_data pkt)) 0 in
  let nid := nodeId (_cfg store) in
  let seq := cmd_sequenceNumber pkt in
  (cmd_dataLength pkt >= 4 -> 1000 <= v <= 3600000 ->
   exists store',
     handle_command pkt store mesh ack_buf =
       (Returned sizeof_AckPacket,
        ack_frame CMD_ACK nid seq 0 ++ drop sizeof_AckPacket ack_buf,
        store', mesh)
     /\ store' = (save (set_cfg store (with_interval (_cfg store) v))).2
     /\ telemetryIntervalMs (_cfg store') = v
     /\ (nvs_ok store = true ->
         nvs store' !! "tx_interval" = Some (NvsULong v)))
  /\ (cmd_dataLength pkt < 4 \/ v < 1000 \/ 3600000 < v ->
      handle_command pkt store mesh ack_buf =
        (Returned sizeof_AckPacket,
         ack_frame CMD_NACK nid seq 1 ++ drop sizeof_AckPacket ack_buf,
         store, mesh)).
Proof.
  intros Htype Hfit v nid seq.
  assert (Hrun : handle_command pkt store mesh ack_buf =
    if (cmd_dataLength pkt >=? 4) && ((v >=? 1000) && (v <=? 3600000))
    then (Returned sizeof_AckPacket,
          ack_frame CMD_ACK nid seq 0 ++ drop sizeof_AckPacket ack_buf,
          (save (set_cfg store (with_interval (_cfg store) v))).2, mesh)
    else (Returned sizeof_AckPacket,
          ack_frame CMD_NACK nid seq 1 ++ drop sizeof_AckPacket ack_buf,
          store, mesh)).
  { unfold handle_command. cbv zeta. rewrite Htype.
    cbn [Z.eqb Pos.eqb orb CMD_SET_INTERVAL CMD_PING CMD_GET_CONFIG].
    fold v nid seq. rewrite !ack_fits by exact Hfit.
    destruct (cmd_dataLength pkt >=? 4); [|reflexivity].
    destruct ((v >=? 1000) && (v <=? 3600000)); reflexivity. }
  rewrite Hrun. split.
  - intros Hlen Hv.
    destruct (Z.geb_spec (cmd_dataLength pkt) 4) as [_|]; [|lia].
    destruct (Z.geb_spec v 1000) as [_|]; [|lia].
    destruct (Z.leb_spec v 3600000) as [_|]; [|lia].
    cbn [andb]. eexists. split; [reflexivity|]. split; [reflexivity|].
    unfold save, set_cfg. cbn [nvs_ok _cfg nvs].
    destruct (nvs_ok store); cbn [negb snd _cfg nvs]; (split; [reflexivity|]).
    + intros _. apply nvs_put_all_tx_interval.
    + discriminate.
  - intros Hbad.
    destruct (Z.geb_spec (cmd_dataLength pkt) 4); [|reflexivity].
    destruct (Z.geb_spec v 1000); [|reflexivity].
    destruct (Z.leb_spec v 3600000); [|reflexivity]. lia.
Qed.

(** When the namespace does not open, [save()] fails and writes nothing;
    [handle_command] drops its result, so an in-range [SET_INTERVAL] is
    acknowledged with status 0 all the same: the interval changes in memory
    only. *)
Lemma handle_set_interval_unopened pkt store mesh ack_buf :
  cmd_commandType pkt = CMD_SET_INTERVAL ->
  (sizeof_AckPacket <= length ack_buf)%nat ->
  nvs_ok store = false ->
  cmd_dataLength pkt >= 4 ->
  1000 <= rd32 (fixed 192 (cmd_data pkt)) 0 <= 3600000 ->
  (save (set_cfg store (with_interval (_cfg store)
                          (rd32 (fixed 192 (cmd_data pkt)) 0)))).1 = false
  /\ handle_command pkt store mesh ack_buf =
       (Returned sizeof_AckPacket,
        ack_frame CMD_ACK (nodeId (_cfg store)) (cmd_sequenceNumber pkt) 0
        ++ drop sizeof_AckPacket ack_buf,
        set_cfg store (with_interval (_cfg store)
                         (rd32 (fixed 192 (cmd_data pkt)) 0)),
        mesh).
Proof.
  intros Htype Hfit Hno Hlen Hv.
  destruct (handle_set_interval pkt store mesh ack_buf Htype Hfit) as [Hok _].
  destruct (Hok Hlen Hv) as (store' & Hrun & -> & _).
  rewrite Hrun. unfold save. cbn [set_cfg nvs_ok]. rewrite Hno.
  split; reflexivity.
Qed.

(** C4 (as the code behaves).  [SET_INTERVAL(15000)] with sequence number
    42, applied on a node whose NVS namespace does not open: [save()]
    returns [false] and nothing is persisted (the flash has no key
    ["tx_interval"]), yet the call returns the serialised ACK with status 0
    and the interval in memory is 15000. *)
Theorem handle_set_interval_ack_without_persisting :
  let pkt := set_interval_command 42 1 4 15000 in
  let r := handle_command pkt unopened_store (MeshRouter_new 1 true)
                          (replicate 255 0) in
  (save (set_cfg unopened_store
           (with_interval (_cfg unopened_store) 15000))).1 = false
  /\ r.1.1.1 = Returned sizeof_AckPacket
  /\ take sizeof_AckPacket r.1.1.2 = ack_frame CMD_ACK 1 42 0
  /\ telemetryIntervalMs (_cfg r.1.2) = 15000
  /\ nvs r.1.2 !! "tx_interval" = None.
Proof.
  cbv zeta.
  destruct (handle_set_interval_unopened (set_interval_command 42 1 4 15000)
              unopened_store (MeshRouter_new 1 true) (replicate 255 0))
    as [Hsave Hrun]; try reflexivity.
  - vm_compute. lia.
  - vm_compute. discriminate.
  - vm_compute. split; discriminate.
  - rewrite Hrun. cbn [fst snd]. split; [exact Hsave|]. split; [reflexivity|].
    split; [apply take_app_length'; reflexivity|]. split; reflexivity.
Qed.

(** C10. [SET_LOCATION] with an ACK buffer that holds an [AckPacket]: the
    call always returns the ACK, whatever [dataLength], and the stored
    location is read from the start of the data area up to its first NUL (at
    most 31 characters) without regard to [dataLength]; so two commands that
    agree on [dataLength] and on the first [dataLength] bytes can leave
    different locations, or different zones. *)
Theorem handle_set_location_ignores_data_length :
  (forall (pkt : CommandPacket) (store : NodeConfigStore) (mesh : MeshRouter)
          (ack_buf : list Z),
     cmd_commandType pkt = CMD_SET_LOCATION ->
     (sizeof_AckPacket <= length ack_buf)%nat ->
     exists store',
       handle_command pkt store mesh ack_buf =
         (Returned sizeof_AckPacket,
          ack_frame CMD_ACK (nodeId (_cfg store)) (cmd_sequenceNumber pkt) 0
          ++ drop sizeof_AckPacket ack_buf,
          store', mesh)
       /\ location (_cfg store')
          = strncpy_bytes (fixed 192 (cmd_data pkt)) 31 ++ [0])
  /\ (exists (dl : nat) (d1 d2 : list Z),
        take dl d1 = take dl d2
        /\ location (applied_config (set_location_command (Z.of_nat dl) d1))
           <> location (applied_config (set_location_command (Z.of_nat dl) d2)))
  /\ (exists (dl : nat) (d1 d2 : list Z),
        take dl d1 = take dl d2
        /\ zone (applied_config (set_location_command (Z.of_nat dl) d1))
           <> zone (applied_config (set_location_command (Z.of_nat dl) d2))).
Proof.
  split; [|split].
  - intros pkt store mesh ack_buf Htype Hfit.
    unfold handle_command. cbv zeta. rewrite Htype.
    cbn [Z.eqb Pos.eqb orb CMD_SET_LOCATION CMD_SET_INTERVAL CMD_PING CMD_GET_CONFIG].
    rewrite ack_fits by exact Hfit.
    eexists. split; [reflexivity|].
    unfold save, set_cfg. cbn [nvs_ok _cfg nvs].
    assert (Hloc : location (set_location pkt (_cfg store))
                   = strncpy_bytes (fixed 192 (cmd_data pkt)) 31 ++ [0]).
    { unfold set_location. cbv zeta.
      destruct (_ && _); cbn [location with_zone with_location];
        apply (copy_string_bytes LOCATION_MAXLEN); unfold LOCATION_MAXLEN; lia. }
    destruct (nvs_ok store); cbn [negb snd _cfg]; exact Hloc.
  - exists 0%nat, [65; 0], [66; 0]. split; [reflexivity|].
    intros H. vm_compute in H. discriminate H.
  - exists 3%nat, [65; 0; 88; 89; 0], [65; 0; 88; 90; 0]. split; [reflexivity|].
    intros H. vm_compute in H. discriminate H.
Qed.

(** ** The theorems at concrete inputs *)

(** The telemetry, command and acknowledgement round trips of the test
    suite, through [codec_round_trip]. *)
Lemma codec_round_trip_witness :
  (lss_deserialize_multi_sensor
     (take (lss_serialize_multi_sensor (sample_packet 2) (replicate 255 0)).1
           (lss_serialize_multi_sensor (sample_packet 2) (replicate 255 0)).2)
     (sample_packet 0)).1 = true
  /\ (lss_deserialize_command
        (take (lss_serialize_command (set_interval_command 42 7 4 15000)
                                     (replicate 255 0)).1
              (lss_serialize_command (set_interval_command 42 7 4 15000)
                                     (replicate 255 0)).2)
        (set_interval_command 0 0 0 0)).1 = true
  /\ crc_verifies
       (take (lss_serialize_ack sample_ack (replicate 255 0)).1
             (lss_serialize_ack sample_ack (replicate 255 0)).2).
Proof.
  destruct codec_round_trip as (Hmulti & Hcmd & Hack).
  split; [|split].
  - apply (Hmulti (sample_packet 2) (replicate 255 0) (sample_packet 0)).
    + vm_compute. reflexivity.
    + vm_compute. lia.
  - apply (Hcmd (set_interval_command 42 7 4 15000) (replicate 255 0)
                (set_interval_command 0 0 0 0)).
    + vm_compute. reflexivity.
    + vm_compute. lia.
  - apply (Hack sample_ack (replicate 255 0)).
    + vm_compute. reflexivity.
    + vm_compute. lia.
Defined.

(** The four-byte buffer of [test_multi_sensor_too_short] is rejected. *)
Lemma deserialize_multi_sensor_rejects_iff_witness :
  (lss_deserialize_multi_sensor [0xCD; 0xAB; 0x01; 0x00] (sample_packet 0)).1
  = false.
Proof.
  apply (deserialize_multi_sensor_rejects_iff
           [0xCD; 0xAB; 0x01; 0x00] (sample_packet 0)).
  left. vm_compute. lia.
Defined.

(** [SET_INTERVAL 15000] on the default store. *)
Lemma handle_set_interval_witness :
  exists store',
    handle_command (set_interval_command 42 7 4 15000) default_store
                   (MeshRouter_new 1 true) (replicate 255 0)
    = (Returned sizeof_AckPacket,
       ack_frame CMD_ACK 1 42 0 ++ replicate 53 0,
       store', MeshRouter_new 1 true)
    /\ telemetryIntervalMs (_cfg store') = 15000
    /\ nvs store' !! "tx_interval" = Some (NvsULong 15000).
Proof.
  destruct (handle_set_interval (set_interval_command 42 7 4 15000)
              default_store (MeshRouter_new 1 true) (replicate 255 0))
    as [Hok _].
  - reflexivity.
  - vm_compute. lia.
  - destruct Hok as (store' & Hrun & _ & Hset & Hnvs).
    + vm_compute. discriminate.
    + vm_compute. split; discriminate.
    + exists store'. split; [exact Hrun|]. split; [exact Hset|].
      apply Hnvs. reflexivity.
Defined.

(** [test_receive_for_this_node]: node 5 receives a DATA frame for node 5. *)
Lemma receive_data_frame_witness :
  (receive 0 (mesh_frame MESH_DATA 1 5 0 5 [0xAA; 0xBB]) (MeshRouter_new 5 true)).1
  = Some [0xAA; 0xBB].
Proof.
  destruct (receive_data_frame 0 (mesh_frame MESH_DATA 1 5 0 5 [0xAA; 0xBB])
              (MeshRouter_new 5 true)) as [_ Hlong].
  - reflexivity.
  - destruct Hlong as [[_ Hdeliver] _].
    + vm_compute. lia.
    + vm_compute. reflexivity.
    + apply Hdeliver. left. reflexivity.
Defined.

(** [test_receive_beacon_not_for_node]: node 5 hears the beacon of node 2. *)
Lemma receive_beacon_learns_neighbour_witness :
  (receive 0 (mesh_frame MESH_NEIGHBOR_BEACON 2 255 0 1 [])
           (MeshRouter_new 5 true)).1 = None
  /\ next_hop_for
       (receive 0 (mesh_frame MESH_NEIGHBOR_BEACON 2 255 0 1 [])
                (MeshRouter_new 5 true)).2 2 = 2.
Proof.
  apply (receive_beacon_learns_neighbour 0
           (mesh_frame MESH_NEIGHBOR_BEACON 2 255 0 1 []) (MeshRouter_new 5 true)).
  - reflexivity.
  - vm_compute. lia.
  - reflexivity.
  - vm_compute. reflexivity.
Defined.

(** [test_tick_no_duplicate_beacon], with a received beacon and another
    [tick] in between. *)
Lemma tick_beacon_once_per_interval_witness :
  (tick 30101 (replicate 64 0)
        (calls [(30050, CallReceive (mesh_frame MESH_NEIGHBOR_BEACON 2 255 0 1 []));
                (30060, CallTick (replicate 64 0))]
               (tick 30001 (replicate 64 0) (MeshRouter_new 1 true)).2)).1.1
  = 0%nat.
Proof.
  apply (tick_beacon_once_per_interval (MeshRouter_new 1 true) 30001
           (replicate 64 0)).
  - vm_compute. discriminate.
  - repeat constructor; vm_compute; reflexivity.
  - vm_compute. reflexivity.
Defined.

(** A four-byte buffer when the first beacon is due. *)
Lemma tick_small_buffer_loses_beacon_witness :
  (tick 30001 (replicate 4 0) (MeshRouter_new 1 true)).1 = (0%nat, replicate 4 0)
  /\ _last_beacon (tick 30001 (replicate 4 0) (MeshRouter_new 1 true)).2 = 30001
  /\ _seq (tick 30001 (replicate 4 0) (MeshRouter_new 1 true)).2 = 0
  /\ (tick 30002 (replicate 64 0)
           (tick 30001 (replicate 4 0) (MeshRouter_new 1 true)).2).1.1 = 0%nat.
Proof.
  apply (tick_small_buffer_loses_beacon (MeshRouter_new 1 true) 30001
           (replicate 4 0) 30002 (replicate 64 0)).
  - vm_compute. discriminate.
  - vm_compute. lia.
  - vm_compute. reflexivity.
Defined.

(** [SET_LOCATION "A"] with [dataLength = 0] on the default store. *)
Lemma handle_set_location_ignores_data_length_witness :
  exists store',
    handle_command (set_location_command 0 [65; 0]) default_store
                   (MeshRouter_new 1 true) (replicate 255 0)
    = (Returned sizeof_AckPacket,
       ack_frame CMD_ACK 1 3 0 ++ replicate 53 0,
       store', MeshRouter_new 1 true)
    /\ location (_cfg store') = 65 :: replicate 31 0.
Proof.
  destruct handle_set_location_ignores_data_length as (Hall & _ & _).
  destruct (Hall (set_location_command 0 [65; 0]) default_store
                 (MeshRouter_new 1 true) (replicate 255 0))
    as (store' & Hrun & Hloc).
  - reflexivity.
  - vm_compute. lia.
  - exists store'. split; [exact Hrun|]. rewrite Hloc. vm_compute. reflexivity.
Defined.

(* ===================================================================== *)
(** * Further properties of the code                                     *)
(* ===================================================================== *)

(** ** CRC: error detection *)

Lemma crc16_bit_inv_upto_spec n : forall c x,
  crc16_bit_inv_upto n c = true -> c <= x < c + Z.of_nat n ->
  crc16_bit_inv (crc16_bit x) = x.
Proof.
  induction n as [|n IH]; intros c x Hall Hx; [lia|].
  cbn [crc16_bit_inv_upto] in Hall. apply andb_true_iff in Hall as [Hc Hrest].
  destruct (Z.eq_dec x c) as [->|Hne]; [apply Z.eqb_eq, Hc|].
  apply (IH (c + 1)); [exact Hrest|lia].
Qed.

Lemma crc16_bit_inv_correct x :
  0 <= x < 65536 -> crc16_bit_inv (crc16_bit x) = x.
Proof.
  intros Hx. apply (crc16_bit_inv_upto_spec (Z.to_nat 65536) 0); [|lia].
  vm_compute. reflexivity.
Qed.

Lemma crc16_bit_inj a b :
  0 <= a < 65536 -> 0 <= b < 65536 -> crc16_bit a = crc16_bit b -> a = b.
Proof.
  intros Ha Hb H. rewrite <- (crc16_bit_inv_correct a Ha), <- (crc16_bit_inv_correct b Hb).
  rewrite H. reflexivity.
Qed.

Lemma crc16_bits_inj n : forall a b,
  0 <= a < 65536 -> 0 <= b < 65536 ->
  Nat.iter n crc16_bit a = Nat.iter n crc16_bit b -> a = b.
Proof.
  induction n as [|n IH]; intros a b Ha Hb H; [exact H|].
  cbn [Nat.iter] in H. apply IH; [exact Ha|exact Hb|].
  destruct n as [|n].
  - cbn [Nat.iter] in *. apply crc16_bit_inj; assumption.
  - apply crc16_bit_inj; [cbn [Nat.iter]; apply crc16_bit_range ..|exact H].
Qed.

Lemma land_lxor_distr a b m :
  Z.land (Z.lxor a b) m = Z.lxor (Z.land a m) (Z.land b m).
Proof.
  apply Z.bits_inj'. intros n Hn.
  rewrite Z.lxor_spec, !Z.land_spec, Z.lxor_spec.
  destruct (Z.testbit a n), (Z.testbit b n), (Z.testbit m n); reflexivity.
Qed.

(** The state a byte is folded into: [crc ^ (d << 8)] on 16 bits. *)
Lemma crc_xor_byte s d :
  Z.lxor s (Z.shiftl d 8) mod 65536 = Z.lxor (s mod 65536) ((d * 256) mod 65536).
Proof.
  change 65536 with (2 ^ 16). rewrite <- !Z.land_ones by lia.
  rewrite land_lxor_distr. rewrite Z.shiftl_mul_pow2 by lia. reflexivity.
Qed.

Lemma lxor_cancel_l s a b : Z.lxor s a = Z.lxor s b -> a = b.
Proof.
  intros H. apply Z.lxor_eq.
  replace (Z.lxor a b) with (Z.lxor (Z.lxor s a) (Z.lxor s b)).
  - rewrite H. apply Z.lxor_nilpotent.
  - rewrite Z.lxor_assoc, <- (Z.lxor_assoc a s b), (Z.lxor_comm a s).
    rewrite Z.lxor_assoc, <- Z.lxor_assoc, Z.lxor_nilpotent. apply Z.lxor_0_l.
Qed.

Lemma lxor_cancel_r s t a : Z.lxor s a = Z.lxor t a -> s = t.
Proof. rewrite !(Z.lxor_comm _ a). apply lxor_cancel_l. Qed.

Lemma crc16_byte_inj_byte s d d' :
  0 <= d < 256 -> 0 <= d' < 256 -> crc16_byte s d = crc16_byte s d' -> d = d'.
Proof.
  intros Hd Hd' H. unfold crc16_byte in H.
  apply crc16_bits_inj in H; try (apply Z.mod_pos_bound; lia).
  rewrite !crc_xor_byte in H. apply lxor_cancel_l in H.
  rewrite !Z.mod_small in H by lia. lia.
Qed.

Lemma crc16_byte_inj_state s t d :
  0 <= s < 65536 -> 0 <= t < 65536 -> crc16_byte s d = crc16_byte t d -> s = t.
Proof.
  intros Hs Ht H. unfold crc16_byte in H.
  apply crc16_bits_inj in H; try (apply Z.mod_pos_bound; lia).
  rewrite !crc_xor_byte in H. apply lxor_cancel_r in H.
  rewrite !Z.mod_small in H by lia. exact H.
Qed.

Lemma crc16_fold_range l : forall s,
  0 <= s < 65536 -> 0 <= fold_left crc16_byte l s < 65536.
Proof.
  induction l as [|d l IH]; intros s Hs; [exact Hs|].
  cbn [fold_left]. apply IH, crc16_byte_range.
Qed.

Lemma crc16_fold_inj l : forall s t,
  0 <= s < 65536 -> 0 <= t < 65536 ->
  fold_left crc16_byte l s = fold_left crc16_byte l t -> s = t.
Proof.
  induction l as [|d l IH]; intros s t Hs Ht H; [exact H|].
  cbn [fold_left] in H. apply IH in H; try apply crc16_byte_range.
  apply (crc16_byte_inj_state s t d); assumption.
Qed.

(** Changing one byte of the input changes the CRC. *)
Lemma crc16_one_byte pre post d d' :
  0 <= d < 256 -> 0 <= d' < 256 -> d <> d' ->
  lss_crc16 (pre ++ d :: post) <> lss_crc16 (pre ++ d' :: post).
Proof.
  intros Hd Hd' Hne H. unfold lss_crc16 in H.
  rewrite !fold_left_app in H. cbn [fold_left] in H.
  apply crc16_fold_inj in H; try apply crc16_byte_range.
  apply crc16_byte_inj_byte in H; [contradiction|assumption..].
Qed.

(** The same for an in-place change of byte [i]. *)
Lemma crc16_insert data i b :
  (i < length data)%nat ->
  0 <= nth i data 0 < 256 -> 0 <= b < 256 -> b <> nth i data 0 ->
  lss_crc16 (<[i := b]> data) <> lss_crc16 data.
Proof.
  intros Hi Hd Hb Hne.
  destruct (lookup_lt_is_Some_2 data i Hi) as [d Hlook].
  rewrite (nth_lookup_Some data i 0 d Hlook) in Hd, Hne.
  rewrite insert_take_drop by exact Hi.
  rewrite <- (take_drop_middle data i d Hlook) at 3.
  apply crc16_one_byte; assumption.
Qed.

(** X1. [lss_crc16] detects every corruption of a single byte: two byte
    sequences that differ in exactly one position have different CRCs. *)
Theorem crc16_detects_single_byte_error
    (data : list Z) (i : nat) (b : Z) :
  (i < length data)%nat ->
  is_u8 (nth i data 0) = true -> is_u8 b = true -> b <> nth i data 0 ->
  lss_crc16 (<[i := b]> data) <> lss_crc16 data.
Proof.
  intros Hi Hd Hb Hne.
  apply is_u8_spec in Hd. apply is_u8_spec in Hb.
  apply crc16_insert; assumption.
Qed.

(** A four-byte input with its second byte changed. *)
Lemma crc16_detects_single_byte_error_witness :
  (lss_crc16 (<[1%nat := 7]> [1; 2; 3; 4]) =? lss_crc16 [1; 2; 3; 4]) = false.
Proof.
  apply Z.eqb_neq.
  apply (crc16_detects_single_byte_error [1; 2; 3; 4] 1 7).
  - vm_compute. lia.
  - reflexivity.
  - reflexivity.
  - vm_compute. discriminate.
Defined.

(** ** Codec: corrupted frames *)

Lemma forallb_u8_nth l i :
  forallb is_u8 l = true -> (i < length l)%nat -> 0 <= nth i l 0 < 256.
Proof.
  intros Hall Hi. apply is_u8_spec.
  rewrite forallb_forall in Hall. apply Hall, nth_In, Hi.
Qed.

Lemma forallb_u8_le16 x : forallb is_u8 (le16 x) = true.
Proof.
  unfold le16. cbn [forallb]. rewrite !andb_true_iff.
  repeat split; apply is_u8_spec, Z.mod_pos_bound; lia.
Qed.

Lemma forallb_u8_le32 x : forallb is_u8 (le32 x) = true.
Proof.
  unfold le32. cbn [forallb]. rewrite !andb_true_iff.
  repeat split; apply is_u8_spec, Z.mod_pos_bound; lia.
Qed.

Lemma is_array_bytes n a : is_array n a = true -> forallb is_u8 a = true.
Proof. unfold is_array. rewrite andb_true_iff. tauto. Qed.

Lemma forallb_u8_command_body c :
  command_wf c = true -> forallb is_u8 (command_body c) = true.
Proof.
  unfold command_wf. rewrite !andb_true_iff.
  intros [[[[[[[_ H1] H2] H3] H4] H5] Hd] _].
  unfold command_body. rewrite !forallb_app, forallb_u8_le16.
  rewrite (fixed_exact 192) by (apply is_array_length, Hd).
  rewrite (is_array_bytes _ _ Hd). cbn [forallb].
  rewrite H1, H2, H3, H4, H5. reflexivity.
Qed.

Lemma forallb_u8_values_bytes vs :
  forallb value_wf vs = true -> forallb is_u8 (values_bytes vs) = true.
Proof.
  induction vs as [|v vs IH]; [reflexivity|].
  cbn [forallb]. rewrite andb_true_iff. intros [Hv Hvs].
  change (values_bytes (v :: vs)) with (value_bytes v ++ values_bytes vs).
  rewrite forallb_app, (IH Hvs). unfold value_bytes. cbn [forallb].
  rewrite forallb_u8_le32. unfold value_wf in Hv. apply andb_true_iff in Hv as [-> _].
  reflexivity.
Qed.

Lemma forallb_u8_header_bytes h :
  header_wf h = true -> forallb is_u8 (header_bytes h) = true.
Proof.
  unfold header_wf. rewrite !andb_true_iff.
  intros [[[[[[[[[[[_ _] H0] H1] H2] H3] H4] H5] H6] H7] Hl] Hz].
  unfold header_bytes. rewrite !forallb_app, !forallb_u8_le16.
  rewrite (fixed_exact 32) by (apply is_array_length, Hl).
  rewrite (fixed_exact 16) by (apply is_array_length, Hz).
  rewrite (is_array_bytes _ _ Hl), (is_array_bytes _ _ Hz). cbn [forallb].
  rewrite H0, H1, H2, H3, H4, H5, H6, H7. reflexivity.
Qed.

(** A two-byte trailer with one byte changed no longer reads as [x]. *)
Lemma rd16_le16_insert x j b :
  0 <= x < 65536 -> (j < 2)%nat -> 0 <= b < 256 -> b <> nth j (le16 x) 0 ->
  rd16 (<[j := b]> (le16 x)) 0 <> x.
Proof.
  intros Hx Hj Hb Hne.
  pose proof (le16_value x Hx) as Hv.
  pose proof (Z.mod_pos_bound x 256 ltac:(lia)).
  pose proof (Z.mod_pos_bound (x / 256) 256 ltac:(lia)).
  destruct j as [|[|j]]; [| |lia]; unfold le16 in *;
    cbn [insert list_insert nth] in *; unfold rd16, rd8; cbn [nth Nat.add]; lia.
Qed.

Lemma deserialize_command_bad_crc f out :
  rd16 f 199 <> lss_crc16 (take 199 f) ->
  (lss_deserialize_command f out).1 = false.
Proof.
  intros H. unfold lss_deserialize_command.
  destruct (_ <? _)%nat; [reflexivity|]. cbv zeta.
  destruct (negb _); [reflexivity|].
  change (cmd_checksum (command_of_bytes f)) with (rd16 f 199).
  change (sizeof_CommandPacket - sizeof_uint16_t)%nat with 199%nat.
  destruct (Z.eqb_spec (rd16 f 199) (lss_crc16 (take 199 f))); [contradiction|reflexivity].
Qed.

Lemma command_frame_shape c buf :
  (sizeof_CommandPacket <= length buf)%nat ->
  take sizeof_CommandPacket (lss_serialize_command c buf).2
  = command_body c ++ le16 (lss_crc16 (command_body c)).
Proof.
  intros Hfit. rewrite serialize_command_fits by exact Hfit. cbn [snd].
  rewrite app_assoc. apply take_app_length'.
  rewrite length_app, length_command_body. reflexivity.
Qed.

(** X2. Any corruption of a single byte of a serialised command frame,
    checksum bytes included, makes [lss_deserialize_command] reject it. *)
Theorem corrupted_command_rejected
    (c : CommandPacket) (buf : list Z) (out : CommandPacket) (i : nat) (b : Z) :
  command_wf c = true ->
  (sizeof_CommandPacket <= length buf)%nat ->
  let frame := take sizeof_CommandPacket (lss_serialize_command c buf).2 in
  (i < sizeof_CommandPacket)%nat ->
  is_u8 b = true -> b <> nth i frame 0 ->
  (lss_deserialize_command (<[i := b]> frame) out).1 = false.
Proof.
  intros Hwf Hfit frame Hi Hb Hne. apply is_u8_spec in Hb.
  unfold frame in *. rewrite command_frame_shape in * by exact Hfit.
  set (body := command_body c) in *.
  assert (Hlb : length body = 199%nat) by apply length_command_body.
  apply deserialize_command_bad_crc.
  destruct (Nat.lt_ge_cases i 199) as [Hlt|Hge].
  - rewrite insert_app_l by lia.
    rewrite (take_app_length' (<[i:=b]> body)) by (rewrite length_insert; lia).
    replace 199%nat with (length (<[i:=b]> body)) by (rewrite length_insert; lia).
    rewrite rd16_app_r, <- (app_nil_r (le16 _)), rd16_le16 by apply lss_crc16_range.
    rewrite app_nth1 in Hne by lia.
    intros H. symmetry in H. revert H. apply crc16_insert; [lia| |exact Hb|exact Hne].
    apply forallb_u8_nth; [apply forallb_u8_command_body, Hwf|lia].
  - rewrite insert_app_r_alt by lia. rewrite Hlb.
    rewrite (take_app_length' body) by lia.
    pose proof (rd16_app_r body (<[(i - 199)%nat:=b]> (le16 (lss_crc16 body)))) as Hrd.
    rewrite Hlb in Hrd. rewrite Hrd.
    rewrite app_nth2 in Hne by lia. rewrite Hlb in Hne.
    apply rd16_le16_insert; [apply lss_crc16_range| |exact Hb|exact Hne].
    unfold sizeof_CommandPacket in Hi. lia.
Qed.

Lemma rd8_insert_ne l i j b : i <> j -> rd8 (<[i := b]> l) j = rd8 l j.
Proof.
  intros Hne. unfold rd8. rewrite !nth_lookup, list_lookup_insert_ne by exact Hne.
  reflexivity.
Qed.

Lemma rd8_insert_eq l i b : (i < length l)%nat -> rd8 (<[i := b]> l) i = b.
Proof.
  intros Hi. unfold rd8. rewrite nth_lookup, list_lookup_insert_eq by exact Hi.
  reflexivity.
Qed.

Lemma forallb_take {A} (f : A -> bool) n l :
  forallb f l = true -> forallb f (take n l) = true.
Proof.
  intros H. apply forallb_forall. intros x Hx.
  rewrite forallb_forall in H. apply H.
  apply list_elem_of_In. apply list_elem_of_In in Hx.
  exact (subseteq_take n l x Hx).
Qed.

Lemma multi_sensor_wf_parts p :
  multi_sensor_wf p = true ->
  header_wf (header p) = true
  /\ forallb value_wf (values p) = true
  /\ (Z.to_nat (hdr_valueCount (header p)) <= length (values p))%nat
  /\ 0 <= hdr_valueCount (header p) <= 16.
Proof.
  unfold multi_sensor_wf, packet_wf. rewrite !andb_true_iff.
  intros [[[[[Hh Hlen] Hvs] _] _] Hvc].
  apply Nat.eqb_eq in Hlen. apply Z.leb_le in Hvc.
  assert (Hu : is_u8 (hdr_valueCount (header p)) = true).
  { unfold header_wf in Hh. rewrite !andb_true_iff in Hh. tauto. }
  apply is_u8_spec in Hu.
  unfold MAX_SENSOR_VALUES in *.
  repeat split; try assumption; lia.
Qed.

Lemma forallb_u8_frame_body p :
  multi_sensor_wf p = true -> forallb is_u8 (frame_body p) = true.
Proof.
  intros Hwf. destruct (multi_sensor_wf_parts p Hwf) as (Hh & Hvs & Hn & _).
  unfold frame_body. rewrite mem_read_values by exact Hn.
  rewrite forallb_app, forallb_u8_header_bytes by exact Hh.
  apply forallb_u8_values_bytes, forallb_take, Hvs.
Qed.

Lemma multi_sensor_frame_shape p buf :
  (lss_multi_sensor_size p <= length buf)%nat ->
  take (lss_multi_sensor_size p) (lss_serialize_multi_sensor p buf).2
  = frame_body p ++ le16 (lss_crc16 (frame_body p)).
Proof.
  intros Hfit. rewrite serialize_multi_sensor_fits by exact Hfit. cbn [snd].
  rewrite app_assoc. apply take_app_length'.
  rewrite length_app. pose proof (length_frame_body p). cbn [length le16]. lia.
Qed.

Lemma deserialize_multi_sensor_bad_crc f out :
  let payload_end :=
    (sizeof_MultiSensorHeader + Z.to_nat (rd8 f 6) * sizeof_SensorValuePacket)%nat in
  rd16 f payload_end <> lss_crc16 (take payload_end f) ->
  (lss_deserialize_multi_sensor f out).1 = false.
Proof.
  intros pe H. unfold lss_deserialize_multi_sensor.
  destruct (_ <? _)%nat; [reflexivity|]. cbv zeta. cbn [header values checksum].
  destruct (negb _); [reflexivity|].
  destruct (_ >? _); [reflexivity|].
  change (hdr_valueCount (header_of_bytes f)) with (rd8 f 6). fold pe.
  destruct (_ <? _)%nat; [reflexivity|].
  destruct (Z.eqb_spec (lss_crc16 (take pe f)) (rd16 f pe)); [congruence|reflexivity].
Qed.

Lemma deserialize_multi_sensor_short f out :
  (length f < sizeof_MultiSensorHeader
              + Z.to_nat (rd8 f 6) * sizeof_SensorValuePacket
              + sizeof_uint16_t)%nat ->
  (lss_deserialize_multi_sensor f out).1 = false.
Proof.
  intros H. unfold lss_deserialize_multi_sensor.
  destruct (_ <? _)%nat; [reflexivity|]. cbv zeta. cbn [header values checksum].
  destruct (negb _); [reflexivity|].
  destruct (_ >? _); [reflexivity|].
  change (hdr_valueCount (header_of_bytes f)) with (rd8 f 6).
  destruct (Nat.ltb_spec (length f)
              (sizeof_MultiSensorHeader
               + Z.to_nat (rd8 f 6) * sizeof_SensorValuePacket
               + sizeof_uint16_t)); [reflexivity|lia].
Qed.

(** X3. Any corruption of a single byte of a serialised multi-sensor frame
    makes [lss_deserialize_multi_sensor] reject it, unless it lowers the
    value-count byte (offset 6), which moves the place the CRC is read
    from. *)
Theorem corrupted_multi_sensor_rejected
    (p : MultiSensorPacket) (buf : list Z) (out : MultiSensorPacket)
    (i : nat) (b : Z) :
  multi_sensor_wf p = true ->
  (lss_multi_sensor_size p <= length buf)%nat ->
  let frame := take (lss_multi_sensor_size p)
                    (lss_serialize_multi_sensor p buf).2 in
  (i < lss_multi_sensor_size p)%nat ->
  is_u8 b = true -> b <> nth i frame 0 ->
  (i = 6%nat -> hdr_valueCount (header p) < b) ->
  (lss_deserialize_multi_sensor (<[i := b]> frame) out).1 = false.
Proof.
  intros Hwf Hfit frame Hi Hb Hne Hcount. apply is_u8_spec in Hb.
  destruct (multi_sensor_wf_parts p Hwf) as (_ & _ & _ & Hvc).
  unfold frame in *. rewrite multi_sensor_frame_shape in * by exact Hfit.
  set (body := frame_body p) in *.
  pose proof (length_frame_body p) as Hlb. fold body in Hlb.
  assert (Hsize : lss_multi_sensor_size p
                  = (62 + Z.to_nat (hdr_valueCount (header p)) * 5)%nat).
  { unfold lss_multi_sensor_size, sizeof_MultiSensorHeader,
      sizeof_SensorValuePacket, sizeof_uint16_t. lia. }
  assert (Hvc6 : rd8 (body ++ le16 (lss_crc16 body)) 6 = hdr_valueCount (header p)).
  { unfold body, frame_body. rewrite <- app_assoc. reflexivity. }
  assert (Hlen : length (body ++ le16 (lss_crc16 body)) = lss_multi_sensor_size p).
  { rewrite length_app. cbn [length le16]. lia. }
  destruct (Nat.eq_dec i 6) as [->|Hi6].
  - (* the count byte grows: the frame is now too short *)
    specialize (Hcount eq_refl).
    apply deserialize_multi_sensor_short.
    rewrite rd8_insert_eq by lia. rewrite length_insert, Hlen, Hsize.
    unfold sizeof_MultiSensorHeader, sizeof_SensorValuePacket, sizeof_uint16_t. lia.
  - apply deserialize_multi_sensor_bad_crc.
    rewrite rd8_insert_ne by exact Hi6. rewrite Hvc6.
    replace (sizeof_MultiSensorHeader
             + Z.to_nat (hdr_valueCount (header p)) * sizeof_SensorValuePacket)%nat
      with (length body)
      by (unfold sizeof_MultiSensorHeader, sizeof_SensorValuePacket; lia).
    destruct (Nat.lt_ge_cases i (length body)) as [Hlt|Hge].
    + rewrite insert_app_l by lia.
      rewrite (take_app_length' (<[i:=b]> body)) by (rewrite length_insert; lia).
      pose proof (rd16_app_r (<[i:=b]> body) (le16 (lss_crc16 body))) as Hrd.
      rewrite length_insert in Hrd. rewrite Hrd.
      rewrite <- (app_nil_r (le16 _)), rd16_le16 by apply lss_crc16_range.
      rewrite app_nth1 in Hne by lia.
      intros H. symmetry in H. revert H. apply crc16_insert; [lia| |exact Hb|exact Hne].
      apply forallb_u8_nth; [apply forallb_u8_frame_body, Hwf|lia].
    + rewrite insert_app_r_alt by lia.
      rewrite (take_app_length' body) by lia.
      rewrite rd16_app_r.
      rewrite app_nth2 in Hne by lia.
      apply rd16_le16_insert; [apply lss_crc16_range|lia|exact Hb|exact Hne].
Qed.

(** ** Codec: what the serialisers write *)

Lemma serialize_multi_sensor_small p buf :
  (length buf < lss_multi_sensor_size p)%nat ->
  lss_serialize_multi_sensor p buf = (0%nat, buf).
Proof.
  intros H. unfold lss_serialize_multi_sensor.
  destruct (Nat.ltb_spec (length buf) (lss_multi_sensor_size p)); [reflexivity|lia].
Qed.

(** X4. The three serialisers return either 0 (buffer too small) or the
    size of the frame, keep the length of the buffer, and leave every byte
    from the returned size on as it was; in particular a failing call
    writes nothing. *)
Theorem serialisers_write_only_the_frame :
  (forall (p : MultiSensorPacket) (buf : list Z),
     let r := lss_serialize_multi_sensor p buf in
     r.1 = (if (length buf <? lss_multi_sensor_size p)%nat
            then 0%nat else lss_multi_sensor_size p)
     /\ length r.2 = length buf /\ drop r.1 r.2 = drop r.1 buf)
  /\ (forall (c : CommandPacket) (buf : list Z),
     let r := lss_serialize_command c buf in
     r.1 = (if (length buf <? sizeof_CommandPacket)%nat
            then 0%nat else sizeof_CommandPacket)
     /\ length r.2 = length buf /\ drop r.1 r.2 = drop r.1 buf)
  /\ (forall (a : AckPacket) (buf : list Z),
     let r := lss_serialize_ack a buf in
     r.1 = (if (length buf <? sizeof_AckPacket)%nat
            then 0%nat else sizeof_AckPacket)
     /\ length r.2 = length buf /\ drop r.1 r.2 = drop r.1 buf).
Proof.
  split; [|split].
  - intros p buf r. unfold r.
    destruct (Nat.ltb_spec (length buf) (lss_multi_sensor_size p)) as [Hs|Hfit].
    + rewrite serialize_multi_sensor_small by exact Hs. repeat split.
    + rewrite serialize_multi_sensor_fits by exact Hfit. cbn [fst snd].
      pose proof (length_frame_body p) as Hb.
      split; [reflexivity|]. split.
      * rewrite !length_app, length_drop. cbn [length le16]. lia.
      * rewrite app_assoc. apply drop_app_length'.
        rewrite length_app. cbn [length le16]. lia.
  - intros c buf r. unfold r.
    destruct (Nat.ltb_spec (length buf) sizeof_CommandPacket) as [Hs|Hfit].
    + unfold lss_serialize_command.
      destruct (Nat.ltb_spec (length buf) sizeof_CommandPacket); [|lia].
      repeat split.
    + rewrite serialize_command_fits by exact Hfit. cbn [fst snd].
      split; [reflexivity|]. split.
      * rewrite !length_app, length_drop, length_command_body. cbn [length le16].
        unfold sizeof_CommandPacket in *. lia.
      * rewrite app_assoc. apply drop_app_length'.
        rewrite length_app, length_command_body. reflexivity.
  - intros a buf r. unfold r.
    destruct (Nat.ltb_spec (length buf) sizeof_AckPacket) as [Hs|Hfit].
    + unfold lss_serialize_ack.
      destruct (Nat.ltb_spec (length buf) sizeof_AckPacket); [|lia].
      repeat split.
    + rewrite serialize_ack_fits by exact Hfit. cbn [fst snd].
      split; [reflexivity|]. split.
      * rewrite !length_app, length_drop, length_ack_body. cbn [length le16].
        unfold sizeof_AckPacket in *. lia.
      * rewrite app_assoc. apply drop_app_length'.
        rewrite length_app, length_ack_body. reflexivity.
Qed.

(** ** Codec: classification of serialised frames *)

Lemma detect_sync buf :
  (2 <= length buf)%nat ->
  lss_detect_packet buf =
    if (rd16 buf 0 =? SYNC_LEGACY) && (sizeof_SensorDataLegacy <=? length buf)%nat
    then Some PACKET_LEGACY
    else if rd16 buf 0 =? SYNC_MULTI_SENSOR then Some PACKET_MULTI_SENSOR
    else if rd16 buf 0 =? SYNC_COMMAND then
      if (3 <=? length buf)%nat
         && ((rd8 buf 2 =? CMD_ACK) || (rd8 buf 2 =? CMD_NACK))
      then Some PACKET_ACK else Some PACKET_CONFIG
    else None.
Proof.
  intros H. unfold lss_detect_packet.
  destruct (Nat.ltb_spec (length buf) 2); [lia|reflexivity].
Qed.

(** X5. [lss_detect_packet] on the frames the serialisers produce: a
    multi-sensor frame is classified as telemetry, an acknowledgement built
    by [lss_build_ack] as an ACK, and a command frame as a command unless
    its command type is [0xA0] or [0xA1], in which case it is taken for an
    ACK. *)
Theorem detect_serialised_frames :
  (forall (p : MultiSensorPacket) (buf : list Z),
     multi_sensor_wf p = true ->
     (lss_multi_sensor_size p <= length buf)%nat ->
     lss_detect_packet
       (take (lss_multi_sensor_size p) (lss_serialize_multi_sensor p buf).2)
     = Some PACKET_MULTI_SENSOR)
  /\ (forall (c : CommandPacket) (buf : list Z),
     command_wf c = true ->
     (sizeof_CommandPacket <= length buf)%nat ->
     lss_detect_packet
       (take sizeof_CommandPacket (lss_serialize_command c buf).2)
     = Some (if (cmd_commandType c =? CMD_ACK) || (cmd_commandType c =? CMD_NACK)
             then PACKET_ACK else PACKET_CONFIG))
  /\ (forall (success : bool) (nid seq : Z) (buf : list Z),
     (sizeof_AckPacket <= length buf)%nat ->
     lss_detect_packet (take sizeof_AckPacket (_ack nid seq success buf).2)
     = Some PACKET_ACK).
Proof.
  split; [|split].
  - intros p buf Hwf Hfit.
    rewrite multi_sensor_frame_shape by exact Hfit.
    assert (Hsync : hdr_syncWord (header p) = SYNC_MULTI_SENSOR).
    { unfold multi_sensor_wf in Hwf. rewrite !andb_true_iff in Hwf.
      apply Z.eqb_eq. tauto. }
    rewrite detect_sync.
    2:{ rewrite length_app. pose proof (length_frame_body p).
        unfold lss_multi_sensor_size, sizeof_MultiSensorHeader in *. lia. }
    assert (Hrd : rd16 (frame_body p ++ le16 (lss_crc16 (frame_body p))) 0
                  = SYNC_MULTI_SENSOR).
    { unfold frame_body, header_bytes. rewrite <- !app_assoc.
      rewrite rd16_le16; [exact Hsync|]. rewrite Hsync. unfold SYNC_MULTI_SENSOR. lia. }
    rewrite Hrd. reflexivity.
  - intros c buf Hwf Hfit.
    rewrite command_frame_shape by exact Hfit.
    assert (Hsync : cmd_syncWord c = SYNC_COMMAND).
    { unfold command_wf in Hwf. rewrite !andb_true_iff in Hwf.
      apply Z.eqb_eq. tauto. }
    rewrite detect_sync by (rewrite length_app, length_command_body; cbn; lia).
    assert (Hrd : rd16 (command_body c ++ le16 (lss_crc16 (command_body c))) 0
                  = SYNC_COMMAND).
    { unfold command_body. rewrite <- !app_assoc.
      rewrite rd16_le16; [exact Hsync|]. rewrite Hsync. unfold SYNC_COMMAND. lia. }
    rewrite Hrd.
    change (rd8 (command_body c ++ le16 (lss_crc16 (command_body c))) 2)
      with (cmd_commandType c).
    rewrite length_app, length_command_body. cbn [length le16].
    change (SYNC_COMMAND =? SYNC_LEGACY) with false.
    change (SYNC_COMMAND =? SYNC_MULTI_SENSOR) with false.
    change (SYNC_COMMAND =? SYNC_COMMAND) with true.
    cbn [andb]. change (3 <=? 199 + 2)%nat with true. cbn [andb].
    destruct (_ || _); reflexivity.
  - intros success nid seq buf Hfit.
    rewrite ack_fits by exact Hfit. cbn [snd].
    rewrite take_app_length' by (destruct success; reflexivity).
    destruct success; reflexivity.
Qed.

(** ** Codec: serialising what was deserialised *)

Lemma le16_rd16 a b l :
  0 <= a < 256 -> 0 <= b < 256 -> le16 (rd16 (a :: b :: l) 0) = [a; b].
Proof.
  intros Ha Hb. unfold rd16, rd8, le16. cbn [nth Nat.add].
  replace (a + 256 * b) with (a + b * 256) by lia.
  rewrite Z.mod_add, Z.div_add by lia.
  rewrite (Z.div_small a), (Z.mod_small a), (Z.mod_small (0 + b)) by lia.
  reflexivity.
Qed.

Lemma le32_rd32 a b c d l :
  0 <= a < 256 -> 0 <= b < 256 -> 0 <= c < 256 -> 0 <= d < 256 ->
  le32 (rd32 (a :: b :: c :: d :: l) 0) = [a; b; c; d].
Proof.
  intros Ha Hb Hc Hd. unfold rd32, rd8, le32. cbn [nth Nat.add].
  set (x := a + 256 * b + 65536 * c + 16777216 * d).
  assert (H0 : x mod 256 = a).
  { replace x with (a + (b + 256 * c + 65536 * d) * 256) by (unfold x; lia).
    rewrite Z.mod_add by lia. apply Z.mod_small, Ha. }
  assert (H1 : x / 256 = b + 256 * c + 65536 * d).
  { replace x with (a + (b + 256 * c + 65536 * d) * 256) by (unfold x; lia).
    rewrite Z.div_add by lia. rewrite Z.div_small by lia. lia. }
  assert (H2 : x / 65536 = c + 256 * d).
  { replace x with (a + 256 * b + (c + 256 * d) * 65536) by (unfold x; lia).
    rewrite Z.div_add by lia. rewrite Z.div_small by lia. lia. }
  assert (H3 : x / 16777216 = d).
  { replace x with (a + 256 * b + 65536 * c + d * 16777216) by (unfold x; lia).
    rewrite Z.div_add by lia. rewrite Z.div_small by lia. lia. }
  rewrite H0, H1, H2, H3.
  assert (E1 : (b + 256 * c + 65536 * d) mod 256 = b).
  { replace (b + 256 * c + 65536 * d) with (b + (c + 256 * d) * 256) by lia.
    rewrite Z.mod_add by lia. apply Z.mod_small, Hb. }
  assert (E2 : (c + 256 * d) mod 256 = c).
  { replace (c + 256 * d) with (c + d * 256) by lia.
    rewrite Z.mod_add by lia. apply Z.mod_small, Hc. }
  rewrite E1, E2, (Z.mod_small d) by lia. reflexivity.
Qed.

Lemma forallb_u8_cons x l :
  forallb is_u8 (x :: l) = true -> 0 <= x < 256 /\ forallb is_u8 l = true.
Proof.
  cbn [forallb]. rewrite andb_true_iff, is_u8_spec. tauto.
Qed.

Lemma le16_rd16_at buf off :
  forallb is_u8 buf = true -> (off + 2 <= length buf)%nat ->
  le16 (rd16 buf off) = take 2 (drop off buf).
Proof.
  intros Hb Hlen.
  rewrite <- (take_drop off buf) in Hb. rewrite forallb_app in Hb.
  apply andb_true_iff in Hb as [_ Hb].
  replace (rd16 buf off) with (rd16 (drop off buf) 0).
  2:{ pose proof (rd16_app_r (take off buf) (drop off buf)) as H.
      rewrite take_drop, length_take in H.
      replace (off `min` length buf)%nat with off in H by lia. symmetry. exact H. }
  assert (Hl : (2 <= length (drop off buf))%nat) by (rewrite length_drop; lia).
  destruct (drop off buf) as [|a [|b l]]; cbn [length] in Hl; try lia.
  apply forallb_u8_cons in Hb as [Ha Hb]. apply forallb_u8_cons in Hb as [Hb _].
  rewrite le16_rd16 by assumption. reflexivity.
Qed.

Lemma values_bytes_of_bytes n : forall l,
  forallb is_u8 l = true -> (n * 5 <= length l)%nat ->
  values_bytes (values_of_bytes n l) = take (n * 5) l.
Proof.
  induction n as [|n IH]; intros l Hb Hlen; [reflexivity|].
  destruct l as [|t [|a [|b [|c [|d l]]]]]; cbn [length] in Hlen; try lia.
  apply forallb_u8_cons in Hb as [Ht Hb]. apply forallb_u8_cons in Hb as [Ha Hb].
  apply forallb_u8_cons in Hb as [Hb0 Hb]. apply forallb_u8_cons in Hb as [Hc Hb].
  apply forallb_u8_cons in Hb as [Hd Hb].
  cbn [values_of_bytes].
  change (values_bytes (?v :: ?vs)) with (value_bytes v ++ values_bytes vs).
  unfold value_bytes at 1. cbn [sv_type sv_value].
  change (rd8 (t :: a :: b :: c :: d :: l) 0) with t.
  change (rd32 (t :: a :: b :: c :: d :: l) 1) with (rd32 (a :: b :: c :: d :: l) 0).
  rewrite le32_rd32 by assumption.
  change (drop 5 (t :: a :: b :: c :: d :: l)) with l.
  rewrite IH by (assumption || lia). reflexivity.
Qed.

Lemma length_values_of_bytes n : forall l, length (values_of_bytes n l) = n.
Proof. induction n as [|n IH]; intros l; [reflexivity|]. cbn. f_equal. apply IH. Qed.

Lemma header_bytes_of_bytes buf :
  forallb is_u8 buf = true -> (60 <= length buf)%nat ->
  header_bytes (header_of_bytes buf) = take 60 buf.
Proof.
  intros Hb Hlen.
  do 12 (destruct buf as [|? buf]; [cbn [length] in Hlen; lia|]).
  repeat match goal with
         | H : forallb is_u8 (_ :: _) = true |- _ =>
             apply forallb_u8_cons in H as [? H]
         end.
  cbn [length] in Hlen.
  unfold header_bytes, header_of_bytes.
  cbn [hdr_syncWord hdr_networkId hdr_packetType hdr_sensorId hdr_valueCount
       hdr_batteryPercent hdr_powerState hdr_lastCommandSeq hdr_ackStatus
       hdr_pad hdr_location hdr_zone].
  rewrite le16_rd16 by assumption.
  change (rd16 (?a :: ?b :: ?l) 2) with (rd16 l 0).
  rewrite le16_rd16 by assumption.
  unfold rd8. cbn [nth drop app].
  rewrite !fixed_exact by (rewrite length_take, ?length_drop; lia).
  cbn [take]. do 12 f_equal.
  rewrite <- (take_drop 32 (take 48 buf)).
  rewrite take_take, skipn_firstn_comm. reflexivity.
Qed.

(** X6. Serialising a packet obtained by [lss_deserialize_multi_sensor]
    gives back the bytes it was read from, CRC included. *)
Theorem reserialize_multi_sensor
    (buf : list Z) (out : MultiSensorPacket) (big : list Z) :
  forallb is_u8 buf = true ->
  (lss_deserialize_multi_sensor buf out).1 = true ->
  let q := (lss_deserialize_multi_sensor buf out).2 in
  (lss_multi_sensor_size q <= length big)%nat ->
  (lss_multi_sensor_size q <= length buf)%nat
  /\ take (lss_multi_sensor_size q) (lss_serialize_multi_sensor q big).2
     = take (lss_multi_sensor_size q) buf.
Proof.
  intros Hb Hok q Hbig. unfold q in *. clear q.
  unfold lss_deserialize_multi_sensor in *.
  destruct (Nat.ltb_spec (length buf) (sizeof_MultiSensorHeader + sizeof_uint16_t))
    as [|Hl0]; [discriminate|].
  cbv zeta in *. cbn [header values checksum] in *.
  destruct (negb _); [discriminate|].
  destruct (_ >? _); [discriminate|].
  set (n := Z.to_nat (hdr_valueCount (header_of_bytes buf))) in *.
  destruct (Nat.ltb_spec (length buf)
              (sizeof_MultiSensorHeader + n * sizeof_SensorValuePacket
               + sizeof_uint16_t)) as [|Hl]; [discriminate|].
  destruct (Z.eqb_spec (lss_crc16 (take (sizeof_MultiSensorHeader
                                          + n * sizeof_SensorValuePacket) buf))
                       (rd16 buf (sizeof_MultiSensorHeader
                                  + n * sizeof_SensorValuePacket)))
    as [Hcrc|]; [|discriminate].
  cbn [negb fst snd] in *.
  unfold sizeof_MultiSensorHeader, sizeof_SensorValuePacket, sizeof_uint16_t in *.
  set (q := {| header := header_of_bytes buf;
               values := values_of_bytes n (drop 60 buf) ++ drop n (values out);
               checksum := rd16 buf (60 + n * 5) |}) in *.
  assert (Hsize : lss_multi_sensor_size q = (60 + n * 5 + 2)%nat) by reflexivity.
  rewrite Hsize in *. split; [lia|].
  rewrite <- Hsize, multi_sensor_frame_shape by (rewrite Hsize; lia).
  assert (Hbody : frame_body q = take (60 + n * 5) buf).
  { unfold frame_body. rewrite mem_read_values.
    2:{ cbn [header values q]. fold n. rewrite length_app, length_values_of_bytes. lia. }
    cbn [header values q]. fold n.
    rewrite take_app_length' by (rewrite length_values_of_bytes; reflexivity).
    rewrite header_bytes_of_bytes by (assumption || lia).
    rewrite values_bytes_of_bytes.
    - rewrite <- (take_drop 60 (take (60 + n * 5) buf)).
      rewrite take_take, skipn_firstn_comm.
      replace (60 `min` (60 + n * 5))%nat with 60%nat by lia.
      replace (60 + n * 5 - 60)%nat with (n * 5)%nat by lia. reflexivity.
    - rewrite <- (take_drop 60 buf) in Hb. rewrite forallb_app in Hb.
      apply andb_true_iff in Hb. tauto.
    - rewrite length_drop. lia. }
  rewrite Hbody, Hcrc, le16_rd16_at by (assumption || lia).
  rewrite Hsize.
  rewrite <- (take_drop (60 + n * 5) (take (60 + n * 5 + 2) buf)).
  rewrite take_take, skipn_firstn_comm.
  replace ((60 + n * 5) `min` (60 + n * 5 + 2))%nat with (60 + n * 5)%nat by lia.
  replace (60 + n * 5 + 2 - (60 + n * 5))%nat with 2%nat by lia. reflexivity.
Qed.

Lemma command_body_of_bytes buf :
  forallb is_u8 buf = true -> (199 <= length buf)%nat ->
  command_body (command_of_bytes buf) = take 199 buf.
Proof.
  intros Hb Hlen.
  do 7 (destruct buf as [|? buf]; [cbn [length] in Hlen; lia|]).
  repeat match goal with
         | H : forallb is_u8 (_ :: _) = true |- _ =>
             apply forallb_u8_cons in H as [? H]
         end.
  cbn [length] in Hlen.
  unfold command_body, command_of_bytes.
  cbn [cmd_syncWord cmd_commandType cmd_targetSensorId cmd_sequenceNumber
       cmd_dataLength cmd_pad cmd_data].
  rewrite le16_rd16 by assumption.
  unfold rd8. cbn [nth drop app]. rewrite drop_0.
  rewrite fixed_exact by (rewrite length_take; lia).
  reflexivity.
Qed.

(** X7. Serialising a packet obtained by [lss_deserialize_command] gives
    back the 201 bytes it was read from, CRC included. *)
Theorem reserialize_command
    (buf : list Z) (out : CommandPacket) (big : list Z) :
  forallb is_u8 buf = true ->
  (lss_deserialize_command buf out).1 = true ->
  (sizeof_CommandPacket <= length big)%nat ->
  take sizeof_CommandPacket
       (lss_serialize_command (lss_deserialize_command buf out).2 big).2
  = take sizeof_CommandPacket buf.
Proof.
  intros Hb Hok Hbig.
  unfold lss_deserialize_command in *.
  destruct (Nat.ltb_spec (length buf) sizeof_CommandPacket) as [|Hl]; [discriminate|].
  cbv zeta in *.
  destruct (negb (cmd_syncWord _ =? _)); [discriminate|].
  change (cmd_checksum (command_of_bytes buf)) with (rd16 buf 199) in *.
  change (sizeof_CommandPacket - sizeof_uint16_t)%nat with 199%nat in *.
  destruct (Z.eqb_spec (rd16 buf 199) (lss_crc16 (take 199 buf))) as [Hcrc|];
    [|discriminate].
  cbn [negb fst snd] in *. unfold sizeof_CommandPacket in *.
  pose proof (command_frame_shape (command_of_bytes buf) big) as Hshape.
  unfold sizeof_CommandPacket in Hshape. rewrite Hshape by exact Hbig.
  rewrite command_body_of_bytes by (assumption || lia).
  rewrite <- Hcrc, le16_rd16_at by (assumption || lia).
  rewrite <- (take_drop 199 (take 201 buf)).
  rewrite take_take, skipn_firstn_comm. reflexivity.
Qed.

(** *** At concrete inputs *)

Lemma corrupted_command_rejected_witness :
  (lss_deserialize_command
     (<[10%nat := 0xFF]>
        (take sizeof_CommandPacket
              (lss_serialize_command (set_interval_command 42 7 4 15000)
                                     (replicate 255 0)).2))
     (set_interval_command 0 0 0 0)).1 = false.
Proof.
  apply (corrupted_command_rejected (set_interval_command 42 7 4 15000)
           (replicate 255 0) (set_interval_command 0 0 0 0) 10 0xFF).
  - vm_compute. reflexivity.
  - vm_compute. lia.
  - vm_compute. lia.
  - reflexivity.
  - vm_compute. discriminate.
Defined.

Lemma corrupted_multi_sensor_rejected_witness :
  (lss_deserialize_multi_sensor
     (<[65%nat := 0x55]>
        (take (lss_multi_sensor_size (sample_packet 2))
              (lss_serialize_multi_sensor (sample_packet 2) (replicate 255 0)).2))
     (sample_packet 0)).1 = false.
Proof.
  apply (corrupted_multi_sensor_rejected (sample_packet 2) (replicate 255 0)
           (sample_packet 0) 65 0x55).
  - vm_compute. reflexivity.
  - vm_compute. lia.
  - vm_compute. lia.
  - reflexivity.
  - vm_compute. discriminate.
  - intros H. discriminate H.
Defined.

Lemma detect_serialised_frames_witness :
  lss_detect_packet
    (take (lss_multi_sensor_size (sample_packet 2))
          (lss_serialize_multi_sensor (sample_packet 2) (replicate 255 0)).2)
  = Some PACKET_MULTI_SENSOR
  /\ lss_detect_packet
       (take sizeof_CommandPacket
             (lss_serialize_command (set_interval_command 42 7 4 15000)
                                    (replicate 255 0)).2)
     = Some PACKET_CONFIG
  /\ lss_detect_packet (take sizeof_AckPacket (_ack 1 42 false (replicate 255 0)).2)
     = Some PACKET_ACK.
Proof.
  destruct detect_serialised_frames as (Hm & Hc & Ha).
  split; [|split].
  - apply (Hm (sample_packet 2) (replicate 255 0)).
    + vm_compute. reflexivity.
    + vm_compute. lia.
  - apply (Hc (set_interval_command 42 7 4 15000) (replicate 255 0)).
    + vm_compute. reflexivity.
    + vm_compute. lia.
  - apply (Ha false 1 42 (replicate 255 0)). vm_compute. lia.
Defined.

Lemma reserialize_multi_sensor_witness :
  take 72 (lss_serialize_multi_sensor
             (lss_deserialize_multi_sensor
                (lss_serialize_multi_sensor (sample_packet 2) (replicate 72 0)).2
                (sample_packet 0)).2
             (replicate 255 1)).2
  = take 72 (lss_serialize_multi_sensor (sample_packet 2) (replicate 72 0)).2.
Proof.
  apply (reserialize_multi_sensor
           (lss_serialize_multi_sensor (sample_packet 2) (replicate 72 0)).2
           (sample_packet 0) (replicate 255 1)).
  - vm_compute. reflexivity.
  - vm_compute. reflexivity.
  - vm_compute. lia.
Defined.

Lemma reserialize_command_witness :
  take sizeof_CommandPacket
    (lss_serialize_command
       (lss_deserialize_command
          (lss_serialize_command (set_interval_command 42 7 4 15000)
                                 (replicate 201 0)).2
          (set_interval_command 0 0 0 0)).2
       (replicate 255 1)).2
  = take sizeof_CommandPacket
      (lss_serialize_command (set_interval_command 42 7 4 15000)
                             (replicate 201 0)).2.
Proof.
  apply (reserialize_command
           (lss_serialize_command (set_interval_command 42 7 4 15000)
                                  (replicate 201 0)).2
           (set_interval_command 0 0 0 0) (replicate 255 1)).
  - vm_compute. reflexivity.
  - vm_compute. reflexivity.
  - vm_compute. lia.
Defined.

(** ** Mesh router: the table as a whole *)

(** [unique_routes] in terms of positions. *)
Lemma unique_routes_spec rs :
  unique_routes rs = true <->
  (forall i j ri rj, rs !! i = Some ri -> rs !! j = Some rj ->
     re_valid ri = true -> re_valid rj = true ->
     re_destId ri = re_destId rj -> i = j).
Proof.
  induction rs as [|r rs IH].
  - split; [|reflexivity]. intros _ i j ri rj Hi. discriminate Hi.
  - cbn [unique_routes]. rewrite andb_true_iff, IH. split.
    + intros [Hr Hrs] i j ri rj Hi Hj Hvi Hvj Hd.
      assert (Hhead : forall k rk r0, rs !! k = Some rk ->
                re_valid r0 = true -> r0 = r -> re_valid rk = true ->
                re_destId r0 = re_destId rk -> False).
      { intros k rk r0 Hk Hv0 -> Hvk Hdk. rewrite Hv0 in Hr. cbn [negb orb] in Hr.
        rewrite forallb_forall in Hr.
        specialize (Hr rk (proj1 (list_elem_of_In _ _) (list_elem_of_lookup_2 _ _ _ Hk))).
        unfold route_matches in Hr. rewrite Hvk, Hdk, Z.eqb_refl in Hr. discriminate Hr. }
      destruct i as [|i], j as [|j]; cbn in Hi, Hj.
      * reflexivity.
      * exfalso. injection Hi as <-. eapply (Hhead j rj r); eauto.
      * exfalso. injection Hj as <-. eapply (Hhead i ri r); eauto.
      * f_equal. eapply Hrs; eauto.
    + intros H. split.
      * destruct (re_valid r) eqn:Hv; [|reflexivity]. cbn [negb orb].
        apply forallb_forall. intros r' Hin.
        apply list_elem_of_In, list_elem_of_lookup in Hin as [k Hk].
        unfold route_matches.
        destruct (re_valid r') eqn:Hv'; [|reflexivity].
        destruct (Z.eqb_spec (re_destId r') (re_destId r)) as [He|]; [|reflexivity].
        specialize (H 0%nat (S k) r r' eq_refl Hk Hv Hv' (eq_sym He)). discriminate H.
      * intros i j ri rj Hi Hj Hvi Hvj Hd.
        specialize (H (S i) (S j) ri rj Hi Hj Hvi Hvj Hd). lia.
Qed.

Lemma nth_route_lookup (rs : list RouteEntry) k r :
  rs !! k = Some r -> nth k rs zero_route = r.
Proof. intros H. apply nth_lookup_Some with (d := zero_route) in H. exact H. Qed.

(** What [update_route] does to the table: one slot is overwritten, and no
    other valid entry for the destination is left before it. *)
Lemma update_route_slot now d nh hc m :
  (0 < length (_routes m))%nat ->
  exists k, (k < length (_routes m))%nat
    /\ update_route now d nh hc m
       = set_routes m (<[k := new_route now d nh hc]> (_routes m))
    /\ (forall j, (j < k)%nat ->
          route_matches d (nth j (_routes m) zero_route) = false)
    /\ ((route_matches d (nth k (_routes m) zero_route) = true)
        \/ ((forall j, route_matches d (nth j (_routes m) zero_route) = false)
            /\ Z.of_nat k = _alloc_slot m)).
Proof.
  intros Hlen. unfold update_route, _find_route. fold (new_route now d nh hc).
  destruct (find_route_from_cases (_routes m) 0 d ltac:(lia))
    as [[Hn Hall]|(k & Hk & Hf & Hmk & Hlt)].
  - rewrite Hn. cbn [Z.ltb Z.compare].
    pose proof (alloc_slot_range m Hlen) as Hr.
    exists (Z.to_nat (_alloc_slot m)). split; [lia|]. split; [reflexivity|].
    split; [intros j _; apply Hall|]. right. split; [exact Hall|lia].
  - rewrite Hf. destruct (Z.ltb_spec (0 + Z.of_nat k) 0) as [|_]; [lia|].
    exists k. split; [exact Hk|].
    replace (Z.to_nat (0 + Z.of_nat k)) with k by lia.
    split; [reflexivity|]. split; [exact Hlt|]. left. exact Hmk.
Qed.

Lemma update_route_unique now d nh hc m :
  (0 < length (_routes m))%nat ->
  unique_routes (_routes m) = true ->
  unique_routes (_routes (update_route now d nh hc m)) = true.
Proof.
  intros Hlen Hu.
  destruct (update_route_slot now d nh hc m Hlen) as (k & Hk & -> & Hpre & Hcase).
  cbn [_routes set_routes]. rewrite unique_routes_spec in *.
  assert (Hother : forall j rj, j <> k -> _routes m !! j = Some rj ->
            re_valid rj = true -> re_destId rj = d -> False).
  { intros j rj Hjk Hj Hvj Hdj.
    assert (Hmj : route_matches d (nth j (_routes m) zero_route) = true).
    { rewrite (nth_route_lookup _ _ _ Hj). unfold route_matches.
      rewrite Hvj, Hdj, Z.eqb_refl. reflexivity. }
    destruct Hcase as [Hmk|[Hnone _]].
    - destruct (lookup_lt_is_Some_2 (_routes m) k Hk) as [rk Hrk].
      rewrite (nth_route_lookup _ _ _ Hrk) in Hmk.
      unfold route_matches in Hmk. apply andb_true_iff in Hmk as [Hvk Hdk].
      apply Z.eqb_eq in Hdk.
      apply Hjk. apply (Hu j k rj rk Hj Hrk Hvj Hvk). congruence.
    - rewrite Hnone in Hmj. discriminate Hmj. }
  intros i j ri rj Hi Hj Hvi Hvj Hd.
  destruct (Nat.eq_dec i k) as [->|Hik], (Nat.eq_dec j k) as [->|Hjk].
  - reflexivity.
  - exfalso. rewrite list_lookup_insert_eq in Hi by exact Hk. injection Hi as <-.
    rewrite list_lookup_insert_ne in Hj by auto.
    apply (Hother j rj Hjk Hj Hvj). symmetry. exact Hd.
  - exfalso. rewrite list_lookup_insert_eq in Hj by exact Hk. injection Hj as <-.
    rewrite list_lookup_insert_ne in Hi by auto.
    apply (Hother i ri Hik Hi Hvi). exact Hd.
  - rewrite list_lookup_insert_ne in Hi, Hj by auto. eapply Hu; eauto.
Qed.

Lemma update_route_table_ok now d nh hc m :
  table_ok m = true -> table_ok (update_route now d nh hc m) = true.
Proof.
  unfold table_ok, router_wf. rewrite !andb_true_iff, !Nat.eqb_eq.
  intros [Hlen Hu]. split.
  - rewrite length_routes_update. exact Hlen.
  - apply update_route_unique; [rewrite Hlen; unfold MESH_MAX_ROUTES; lia|exact Hu].
Qed.

Lemma evict_routes now m :
  _routes (evict_stale_routes now m) = map (evicted now) (_routes m).
Proof. reflexivity. Qed.

Lemma evicted_dest now r : re_destId (evicted now r) = re_destId r.
Proof. unfold evicted. destruct (_ && _); reflexivity. Qed.

Lemma evicted_valid now r :
  re_valid (evicted now r)
  = re_valid r && negb (u32_sub now (re_lastUpdated r) >? MESH_ROUTE_TIMEOUT).
Proof.
  unfold evicted. destruct (re_valid r) eqn:Hv; cbn [andb].
  - destruct (_ >? _); [reflexivity|exact Hv].
  - exact Hv.
Qed.

Lemma evict_unique now m :
  unique_routes (_routes m) = true ->
  unique_routes (_routes (evict_stale_routes now m)) = true.
Proof.
  rewrite evict_routes, !unique_routes_spec. intros Hu i j ri rj Hi Hj Hvi Hvj Hd.
  rewrite list_lookup_fmap in Hi, Hj.
  destruct (_routes m !! i) as [ri0|] eqn:Hi0; [|discriminate].
  destruct (_routes m !! j) as [rj0|] eqn:Hj0; [|discriminate].
  cbn in Hi, Hj. injection Hi as <-. injection Hj as <-.
  rewrite evicted_valid in Hvi, Hvj. rewrite !evicted_dest in Hd.
  apply andb_true_iff in Hvi as [Hvi _]. apply andb_true_iff in Hvj as [Hvj _].
  eapply Hu; eauto.
Qed.

Lemma evict_table_ok now m :
  table_ok m = true -> table_ok (evict_stale_routes now m) = true.
Proof.
  unfold table_ok, router_wf. rewrite !andb_true_iff, !Nat.eqb_eq.
  intros [Hlen Hu]. split.
  - rewrite evict_routes, length_map. exact Hlen.
  - apply evict_unique, Hu.
Qed.

Lemma receive_table_ok now raw m :
  table_ok m = true -> table_ok (receive now raw m).2 = true.
Proof.
  intros H. unfold receive.
  case_ifs; cbn [snd]; repeat apply update_route_table_ok; exact H.
Qed.

Lemma wrap_routes d payload buf m :
  _routes (wrap d payload buf m).2 = _routes m
  /\ _node_id (wrap d payload buf m).2 = _node_id m.
Proof. unfold wrap. destruct (_ <? _)%nat; split; reflexivity. Qed.

Lemma tick_routes now buf m :
  _routes (tick now buf m).2 = _routes (evict_stale_routes now m)
  /\ _node_id (tick now buf m).2 = _node_id m.
Proof. unfold tick. case_ifs; split; reflexivity. Qed.

Lemma node_id_receive now raw m : _node_id (receive now raw m).2 = _node_id m.
Proof. unfold receive. case_ifs; reflexivity. Qed.

Lemma call_table_ok now c m :
  table_ok m = true ->
  table_ok (call now c m) = true /\ _node_id (call now c m) = _node_id m.
Proof.
  intros H. destruct c; cbn [call].
  - split; [apply receive_table_ok, H|apply node_id_receive].
  - destruct (wrap_routes dest_id payload out_buf m) as [Hr Hn].
    split; [|exact Hn]. unfold table_ok, router_wf in *. rewrite Hr. exact H.
  - destruct (tick_routes now out_buf m) as [Hr Hn].
    split; [|exact Hn]. pose proof (evict_table_ok now m H) as He.
    unfold table_ok, router_wf in *. rewrite Hr. exact He.
  - split; [apply update_route_table_ok, H|reflexivity].
  - split; [apply evict_table_ok, H|reflexivity].
  - split; [exact H|reflexivity].
Qed.

(** X8. Whatever sequence of public methods is called on a router, its
    table keeps its twenty slots with at most one valid entry per
    destination, and its node id never changes. *)
Theorem router_invariant (cs : list (Z * RouterCall)) (m : MeshRouter) :
  table_ok m = true ->
  table_ok (calls cs m) = true /\ _node_id (calls cs m) = _node_id m.
Proof.
  revert m. induction cs as [|[t c] cs IH]; intros m H; [split; [exact H|reflexivity]|].
  unfold calls. cbn [fold_left fst snd].
  destruct (call_table_ok t c m H) as [Hok Hid].
  destruct (IH _ Hok) as [Hok' Hid']. unfold calls in *.
  split; [exact Hok'|]. rewrite Hid'. exact Hid.
Qed.

(** ** Mesh router: lookups after an update *)

Lemma existsb_nth_matches d rs :
  existsb (route_matches d) rs = true ->
  exists k, (k < length rs)%nat /\ route_matches d (nth k rs zero_route) = true.
Proof.
  rewrite existsb_exists. intros (r & Hin & Hm).
  apply (In_nth _ _ zero_route) in Hin as (k & Hk & Hnth).
  exists k. rewrite Hnth. auto.
Qed.

Lemma first_invalid_from_spec rs : forall i,
  (first_invalid_from i rs = -1 /\ forallb re_valid rs = true)
  \/ (exists k, (k < length rs)%nat
      /\ first_invalid_from i rs = i + Z.of_nat k
      /\ re_valid (nth k rs zero_route) = false).
Proof.
  induction rs as [|r rs IH]; intros i; [left; split; reflexivity|].
  cbn [first_invalid_from forallb]. destruct (re_valid r) eqn:Hv; cbn [negb andb].
  - destruct (IH (i + 1)) as [[H Hall]|(k & Hk & Hf & Hvk)].
    + left. split; assumption.
    + right. exists (S k). cbn [length nth]. repeat split; [lia|lia|exact Hvk].
  - right. exists 0%nat. cbn [length nth]. repeat split; [lia|lia|exact Hv].
Qed.

(** The lookup only depends on which entries match and on the first of
    them. *)
Lemma find_route_from_ext rs rs' : forall i d,
  length rs = length rs' ->
  (forall j, route_matches d (nth j rs zero_route)
             = route_matches d (nth j rs' zero_route)) ->
  find_route_from i rs d = find_route_from i rs' d.
Proof.
  revert rs'. induction rs as [|r rs IH]; intros [|r' rs'] i d Hlen Hext;
    cbn [length] in Hlen; try lia; try reflexivity.
  cbn [find_route_from]. fold (route_matches d r) (route_matches d r').
  pose proof (Hext 0%nat) as H0. cbn [nth] in H0. rewrite H0.
  destruct (route_matches d r'); [reflexivity|].
  apply IH; [lia|]. intros j. apply (Hext (S j)).
Qed.

Lemma nth_insert_route (rs : list RouteEntry) k j e :
  (k < length rs)%nat ->
  nth j (<[k := e]> rs) zero_route = if Nat.eq_dec j k then e else nth j rs zero_route.
Proof.
  intros Hk. rewrite !nth_lookup.
  destruct (Nat.eq_dec j k) as [->|Hne].
  - rewrite list_lookup_insert_eq by exact Hk. reflexivity.
  - rewrite list_lookup_insert_ne by auto. reflexivity.
Qed.

Lemma next_hop_for_insert_other m k e d' :
  (k < length (_routes m))%nat ->
  route_matches d' (nth k (_routes m) zero_route) = false ->
  route_matches d' e = false ->
  next_hop_for (set_routes m (<[k := e]> (_routes m))) d' = next_hop_for m d'.
Proof.
  intros Hk Hold Hnew. unfold next_hop_for, _find_route, route_at.
  cbn [_routes set_routes].
  assert (Hfind : find_route_from 0 (<[k:=e]> (_routes m)) d'
                  = find_route_from 0 (_routes m) d').
  { apply find_route_from_ext; [apply length_insert|].
    intros j. rewrite nth_insert_route by exact Hk.
    destruct (Nat.eq_dec j k) as [->|]; [congruence|reflexivity]. }
  rewrite Hfind.
  destruct (find_route_from_cases (_routes m) 0 d' ltac:(lia))
    as [[Hn _]|(j & Hj & Hf & Hmj & _)].
  - rewrite Hn. reflexivity.
  - rewrite Hf. replace (Z.to_nat (0 + Z.of_nat j)) with j by lia.
    rewrite nth_insert_route by exact Hk.
    destruct (Nat.eq_dec j k) as [->|]; [congruence|reflexivity].
Qed.

(** X9. As long as the table has room for destination [d] (an entry for
    it, or an invalid slot), [update_route] for [d] does not disturb the
    route to any other destination. *)
Theorem update_route_keeps_other_routes
    (now d nh hc : Z) (m : MeshRouter) (d' : Z) :
  has_room_for m d = true -> d' <> d ->
  next_hop_for (update_route now d nh hc m) d' = next_hop_for m d'.
Proof.
  intros Hroom Hne.
  assert (Hlen : (0 < length (_routes m))%nat).
  { unfold has_room_for in Hroom. destruct (_routes m); [discriminate|cbn; lia]. }
  destruct (update_route_slot now d nh hc m Hlen) as (k & Hk & -> & Hpre & Hcase).
  apply next_hop_for_insert_other; [exact Hk| |].
  - destruct Hcase as [Hmk|[Hnone Halloc]].
    + unfold route_matches in *. apply andb_true_iff in Hmk as [_ Hd].
      apply Z.eqb_eq in Hd. rewrite Hd.
      destruct (Z.eqb_spec d d'); [congruence|]. apply andb_false_r.
    + (* no entry for [d]: the slot is the first invalid one *)
      unfold has_room_for in Hroom. apply orb_true_iff in Hroom as [Hex|Hinv].
      * apply existsb_nth_matches in Hex as (j & _ & Hj). rewrite Hnone in Hj.
        discriminate Hj.
      * unfold _alloc_slot in Halloc.
        destruct (first_invalid_from_spec (_routes m) 0) as [[_ Hall]|(j & Hj & Hf & Hvj)].
        -- exfalso. apply existsb_exists in Hinv as (r & Hin & Hr).
           rewrite forallb_forall in Hall. rewrite (Hall r Hin) in Hr. discriminate Hr.
        -- rewrite Hf in Halloc.
           destruct (Z.leb_spec 0 (0 + Z.of_nat j)); [|lia].
           assert (k = j) by lia. subst k.
           unfold route_matches. rewrite Hvj. reflexivity.
  - unfold route_matches, new_route. cbn [re_valid re_destId andb].
    destruct (Z.eqb_spec d d'); [congruence|reflexivity].
Qed.

(** ** Mesh router: eviction *)

Lemma oldest_from_min rs : forall i o ts,
  (oldest_from i rs o ts = o
   /\ Forall (fun r => ts <= re_lastUpdated r) rs)
  \/ (exists k, (k < length rs)%nat
      /\ oldest_from i rs o ts = i + Z.of_nat k
      /\ re_lastUpdated (nth k rs zero_route) < ts
      /\ Forall (fun r => re_lastUpdated (nth k rs zero_route) <= re_lastUpdated r) rs).
Proof.
  induction rs as [|r rs IH]; intros i o ts; [left; split; [reflexivity|constructor]|].
  cbn [oldest_from]. destruct (Z.ltb_spec (re_lastUpdated r) ts) as [Hlt|Hge].
  - right. destruct (IH (i + 1) i (re_lastUpdated r)) as [[Ho Hall]|(k & Hk & Hf & Hts & Hall)].
    + exists 0%nat. cbn [length nth]. repeat split; [lia|lia|exact Hlt|].
      constructor; [lia|exact Hall].
    + exists (S k). cbn [length nth]. repeat split; [lia|lia|lia|].
      constructor; [lia|exact Hall].
  - destruct (IH (i + 1) o ts) as [[Ho Hall]|(k & Hk & Hf & Hts & Hall)].
    + left. split; [exact Ho|]. constructor; [lia|exact Hall].
    + right. exists (S k). cbn [length nth]. repeat split; [lia|lia|exact Hts|].
      constructor; [lia|exact Hall].
Qed.

Lemma alloc_slot_full m :
  (0 < length (_routes m))%nat -> table_full m = true ->
  Forall (fun r => re_lastUpdated (route_at m (_alloc_slot m)) <= re_lastUpdated r)
         (_routes m).
Proof.
  intros Hlen Hfull. unfold _alloc_slot, table_full in *.
  destruct (first_invalid_from_spec (_routes m) 0) as [[Hn _]|(k & Hk & _ & Hvk)].
  2:{ exfalso. rewrite forallb_forall in Hfull.
      rewrite (Hfull _ (nth_In _ zero_route Hk)) in Hvk. discriminate Hvk. }
  rewrite Hn. cbn [Z.leb Z.compare].
  unfold route_at.
  destruct (_routes m) as [|r0 rs] eqn:Hrs; [cbn in Hlen; lia|].
  change (drop 1 (r0 :: rs)) with rs.
  change (nth (Z.to_nat 0) (r0 :: rs) zero_route) with r0.
  destruct (oldest_from_min rs 1 0 (re_lastUpdated r0)) as [[Ho Hall]|(k & Hk & Hf & Hts & Hall)].
  - rewrite Ho. change (nth (Z.to_nat 0) (r0 :: rs) zero_route) with r0.
    constructor; [lia|exact Hall].
  - rewrite Hf.
    replace (Z.to_nat (1 + Z.of_nat k)) with (S k) by lia. cbn [nth].
    constructor; [lia|exact Hall].
Qed.

Lemma find_route_none rs d i :
  0 <= i ->
  (forall j, route_matches d (nth j rs zero_route) = false) ->
  find_route_from i rs d = -1.
Proof.
  intros Hi Hnone.
  destruct (find_route_from_cases rs i d Hi) as [[H _]|(k & _ & _ & Hm & _)];
    [exact H|]. rewrite Hnone in Hm. discriminate Hm.
Qed.

Lemma existsb_matches_false d rs :
  existsb (route_matches d) rs = false ->
  forall j, route_matches d (nth j rs zero_route) = false.
Proof.
  intros H j. destruct (Nat.lt_ge_cases j (length rs)) as [Hj|Hj].
  - destruct (route_matches d (nth j rs zero_route)) eqn:Hm; [|reflexivity].
    assert (existsb (route_matches d) rs = true); [|congruence].
    apply existsb_exists. exists (nth j rs zero_route). split; [apply nth_In, Hj|exact Hm].
  - rewrite nth_overflow by exact Hj. reflexivity.
Qed.

(** X10. With a full table and a destination that has no route yet,
    [update_route] overwrites exactly one slot, one whose timestamp is
    smallest (plain comparison of the [millis()] values), and the
    destination that was stored there loses its route. *)
Theorem update_route_full_table_evicts_oldest
    (now d nh hc : Z) (m : MeshRouter) :
  table_ok m = true -> table_full m = true ->
  existsb (route_matches d) (_routes m) = false ->
  exists k, (k < length (_routes m))%nat
    /\ _routes (update_route now d nh hc m)
       = <[k := new_route now d nh hc]> (_routes m)
    /\ Forall (fun r => re_lastUpdated (nth k (_routes m) zero_route)
                        <= re_lastUpdated r) (_routes m)
    /\ next_hop_for (update_route now d nh hc m)
                    (re_destId (nth k (_routes m) zero_route)) = 255.
Proof.
  intros Hok Hfull Hnew.
  unfold table_ok, router_wf in Hok. apply andb_true_iff in Hok as [Hlen Hu].
  apply Nat.eqb_eq in Hlen.
  assert (Hpos : (0 < length (_routes m))%nat) by (rewrite Hlen; unfold MESH_MAX_ROUTES; lia).
  pose proof (existsb_matches_false d _ Hnew) as Hnone.
  destruct (update_route_slot now d nh hc m Hpos) as (k & Hk & Heq & _ & Hcase).
  destruct Hcase as [Hmk|[_ Halloc]]; [rewrite Hnone in Hmk; discriminate Hmk|].
  exists k. split; [exact Hk|]. rewrite Heq. cbn [_routes set_routes].
  split; [reflexivity|]. split.
  - pose proof (alloc_slot_full m Hpos Hfull) as Hmin.
    unfold route_at in Hmin. rewrite <- Halloc, Nat2Z.id in Hmin. exact Hmin.
  - set (rk := nth k (_routes m) zero_route).
    assert (Hrk : _routes m !! k = Some rk).
    { unfold rk. destruct (lookup_lt_is_Some_2 _ _ Hk) as [r Hr].
      rewrite (nth_route_lookup _ _ _ Hr). exact Hr. }
    assert (Hvk : re_valid rk = true).
    { unfold table_full in Hfull. rewrite forallb_forall in Hfull.
      apply Hfull. unfold rk. apply nth_In, Hk. }
    assert (Hdk : re_destId rk <> d).
    { intros He. specialize (Hnone k). fold rk in Hnone. unfold route_matches in Hnone.
      rewrite Hvk, He, Z.eqb_refl in Hnone. discriminate Hnone. }
    unfold next_hop_for, _find_route. cbn [_routes set_routes].
    rewrite find_route_none; [reflexivity|lia|].
    intros j. rewrite nth_insert_route by exact Hk.
    destruct (Nat.eq_dec j k) as [->|Hjk].
    + unfold route_matches, new_route. cbn [re_valid re_destId andb].
      destruct (Z.eqb_spec d (re_destId rk)); [congruence|reflexivity].
    + destruct (Nat.lt_ge_cases j (length (_routes m))) as [Hj|Hj].
      2:{ rewrite nth_overflow by exact Hj. reflexivity. }
      destruct (lookup_lt_is_Some_2 _ _ Hj) as [rj Hrj].
      rewrite (nth_route_lookup _ _ _ Hrj). unfold route_matches.
      destruct (re_valid rj) eqn:Hvj; [|reflexivity]. cbn [andb].
      destruct (Z.eqb_spec (re_destId rj) (re_destId rk)) as [He|]; [|reflexivity].
      exfalso. apply Hjk.
      apply (proj1 (unique_routes_spec _) Hu j k rj rk Hrj Hrk Hvj Hvk He).
Qed.

Lemma evicted_no_match now d r :
  route_matches d r = false -> route_matches d (evicted now r) = false.
Proof.
  unfold route_matches. rewrite evicted_valid, evicted_dest.
  destruct (re_valid r); cbn [andb]; [|reflexivity].
  intros ->. apply andb_false_r.
Qed.

(** X11. After [evict_stale_routes] at time [now], the route to a
    destination is what it was if its entry is at most
    [MESH_ROUTE_TIMEOUT] old (unsigned difference of the timestamps), and
    is gone ([next_hop_for] answers 255) otherwise. *)
Theorem evict_stale_routes_lookup (now : Z) (m : MeshRouter) (d : Z) :
  table_ok m = true ->
  next_hop_for (evict_stale_routes now m) d =
    if (0 <=? _find_route m d)
       && (u32_sub now (re_lastUpdated (route_at m (_find_route m d)))
           <=? MESH_ROUTE_TIMEOUT)
    then next_hop_for m d
    else 255.
Proof.
  intros Hok.
  unfold table_ok in Hok. apply andb_true_iff in Hok as [_ Hu].
  unfold next_hop_for, _find_route, route_at. rewrite evict_routes.
  destruct (find_route_from_cases (_routes m) 0 d ltac:(lia))
    as [[Hn Hall]|(k & Hk & Hf & Hmk & Hlt)].
  - rewrite Hn. cbn [Z.leb Z.compare andb].
    rewrite find_route_none; [reflexivity|lia|].
    intros j. destruct (Nat.lt_ge_cases j (length (_routes m))) as [Hj|Hj].
    + rewrite (nth_indep _ _ (evicted now zero_route))
        by (rewrite length_map; exact Hj).
      rewrite map_nth. apply evicted_no_match, Hall.
    + rewrite nth_overflow by (rewrite length_map; exact Hj). reflexivity.
  - rewrite Hf. replace (Z.to_nat (0 + Z.of_nat k)) with k by lia.
    destruct (Z.leb_spec 0 (0 + Z.of_nat k)) as [_|]; [|lia]. cbn [andb].
    set (rk := nth k (_routes m) zero_route) in *.
    assert (Hrk : _routes m !! k = Some rk).
    { unfold rk. destruct (lookup_lt_is_Some_2 _ _ Hk) as [r Hr].
      rewrite (nth_route_lookup _ _ _ Hr). exact Hr. }
    unfold route_matches in Hmk. apply andb_true_iff in Hmk as [Hvk Hdk].
    apply Z.eqb_eq in Hdk.
    assert (Hnth : forall j, (j < length (_routes m))%nat ->
              nth j (map (evicted now) (_routes m)) zero_route
              = evicted now (nth j (_routes m) zero_route)).
    { intros j Hj. rewrite (nth_indep _ _ (evicted now zero_route))
        by (rewrite length_map; exact Hj). apply map_nth. }
    destruct (Z.leb_spec (u32_sub now (re_lastUpdated rk)) MESH_ROUTE_TIMEOUT) as [Hfresh|Hstale].
    + (* fresh: the entry is untouched and still the first match *)
      assert (Hsame : evicted now rk = rk).
      { unfold evicted. destruct (Z.gtb_spec (u32_sub now (re_lastUpdated rk)) MESH_ROUTE_TIMEOUT);
          [lia|]. rewrite andb_false_r. reflexivity. }
      assert (Hfind : find_route_from 0 (map (evicted now) (_routes m)) d = 0 + Z.of_nat k).
      { rewrite <- (list_insert_id _ _ _ (proj2 (list_lookup_fmap_Some _ _ _ _)
                      (ex_intro _ rk (conj eq_refl Hrk)))).
        rewrite Hsame.
        apply find_route_from_insert; [rewrite length_map; exact Hk| |].
        - intros j Hj. rewrite Hnth by lia. apply evicted_no_match, Hlt, Hj.
        - unfold route_matches. rewrite Hvk, Hdk, Z.eqb_refl. reflexivity. }
      rewrite Hfind. replace (Z.to_nat (0 + Z.of_nat k)) with k by lia.
      destruct (Z.leb_spec 0 (0 + Z.of_nat k)) as [_|]; [|lia].
      rewrite Hnth by exact Hk. fold rk. rewrite Hsame. reflexivity.
    + (* stale: no entry for [d] is left *)
      rewrite find_route_none; [reflexivity|lia|].
      intros j. destruct (Nat.lt_ge_cases j (length (_routes m))) as [Hj|Hj].
      2:{ rewrite nth_overflow by (rewrite length_map; exact Hj). reflexivity. }
      rewrite Hnth by exact Hj. unfold route_matches.
      rewrite evicted_valid, evicted_dest.
      destruct (Nat.eq_dec j k) as [->|Hjk].
      * fold rk. rewrite Hvk. cbn [andb].
        destruct (Z.gtb_spec (u32_sub now (re_lastUpdated rk)) MESH_ROUTE_TIMEOUT); [|lia].
        reflexivity.
      * destruct (lookup_lt_is_Some_2 _ _ Hj) as [rj Hrj].
        rewrite (nth_route_lookup _ _ _ Hrj).
        destruct (re_valid rj) eqn:Hvj; [|reflexivity]. cbn [andb].
        destruct (Z.eqb_spec (re_destId rj) d) as [He|]; [|apply andb_false_r].
        exfalso. apply Hjk.
        apply (proj1 (unique_routes_spec _) Hu j k rj rk Hrj Hrk Hvj Hvk). congruence.
Qed.

(** ** Mesh router: frames in and out *)

(** X12. Which frames [receive] hands to the upper layer: the frame must
    hold a header, be below the hop limit and not be a beacon; a route
    request is delivered only to the node it names, every other type also
    when broadcast.  What is delivered is the frame without its nine header
    bytes. *)
Theorem receive_delivery (now : Z) (raw : list Z) (m : MeshRouter) :
  let hdr := meshheader_of_bytes raw in
  (receive now raw m).1 =
    if (sizeof_MeshHeader <=? length raw)%nat
       && (mh_hopCount hdr <? MESH_MAX_HOPS)
       && negb (mh_packetType hdr =? MESH_NEIGHBOR_BEACON)
       && ((mh_destId hdr =? _node_id m)
           || ((mh_destId hdr =? 255)
               && negb (mh_packetType hdr =? MESH_ROUTE_REQUEST)))
    then Some (drop sizeof_MeshHeader raw)
    else None.
Proof.
  intros hdr. unfold receive. fold hdr.
  destruct (Nat.ltb_spec (length raw) sizeof_MeshHeader) as [Hs|Hl];
    destruct (Nat.leb_spec sizeof_MeshHeader (length raw)); try lia; [reflexivity|].
  destruct (Z.geb_spec (mh_hopCount hdr) MESH_MAX_HOPS);
    destruct (Z.ltb_spec (mh_hopCount hdr) MESH_MAX_HOPS); try lia; [reflexivity|].
  cbn [andb].
  set (m' := if _ && _ then _ else m).
  assert (Hn : _node_id m' = _node_id m) by (unfold m'; destruct (_ && _); reflexivity).
  rewrite Hn.
  destruct (mh_packetType hdr =? MESH_NEIGHBOR_BEACON) eqn:Hb; [reflexivity|].
  destruct (mh_packetType hdr =? MESH_ROUTE_REQUEST) eqn:Hr; cbn [negb andb fst].
  - rewrite andb_false_r, orb_false_r.
    destruct (mh_destId hdr =? _node_id m); reflexivity.
  - rewrite andb_true_r.
    destruct ((mh_destId hdr =? _node_id m) || (mh_destId hdr =? 255)); reflexivity.
Qed.

(** X13. What [receive] learns.  A frame that is too short or at or over
    the hop limit leaves the router exactly as it was, whatever its type; so
    does an accepted frame other than a beacon whose previous hop is 0 or
    255.  From any other accepted frame that is not a beacon, the router
    learns the previous hop as next hop towards the frame's source. *)
Theorem receive_learns_previous_hop (now : Z) (raw : list Z) (m : MeshRouter) :
  let hdr := meshheader_of_bytes raw in
  ((length raw <? sizeof_MeshHeader)%nat
   || (mh_hopCount hdr >=? MESH_MAX_HOPS) = true ->
   (receive now raw m).2 = m)
  /\ ((length raw <? sizeof_MeshHeader)%nat
      || (mh_hopCount hdr >=? MESH_MAX_HOPS) = false ->
      mh_packetType hdr <> MESH_NEIGHBOR_BEACON ->
      if (mh_prevHop hdr =? 0) || (mh_prevHop hdr =? 255)
      then (receive now raw m).2 = m
      else router_wf m = true ->
           next_hop_for (receive now raw m).2 (mh_sourceId hdr) = mh_prevHop hdr).
Proof.
  intros hdr. unfold receive. fold hdr. split.
  - intros H. destruct (length raw <? sizeof_MeshHeader)%nat; [reflexivity|].
    cbn [orb] in H. rewrite H. reflexivity.
  - intros H Hnb. apply orb_false_iff in H as [-> ->].
    destruct (Z.eqb_spec (mh_packetType hdr) MESH_NEIGHBOR_BEACON) as [|_];
      [contradiction|].
    destruct (mh_prevHop hdr =? 0); cbn [negb andb orb]; [case_ifs; reflexivity|].
    destruct (mh_prevHop hdr =? 255); cbn [negb andb orb]; [case_ifs; reflexivity|].
    intros Hwf. apply Nat.eqb_eq in Hwf.
    case_ifs; cbn [snd]; apply next_hop_after_update;
      rewrite Hwf; unfold MESH_MAX_ROUTES; lia.
Qed.

Lemma wrap_fits d payload buf m :
  (sizeof_MeshHeader + length payload <= length buf)%nat ->
  wrap d payload buf m =
    ((sizeof_MeshHeader + length payload)%nat,
     meshheader_bytes
       {| mh_packetType := MESH_DATA; mh_sourceId := _node_id m;
          mh_destId := d;
          mh_nextHop := if d =? 255 then 255 else next_hop_for m d;
          mh_prevHop := _node_id m; mh_hopCount := 0;
          mh_ttl := MESH_MAX_HOPS; mh_sequenceNum := _seq m |}
     ++ payload ++ drop (sizeof_MeshHeader + length payload) buf,
     (_next_seq m).2).
Proof.
  intros Hfit. unfold wrap.
  destruct (Nat.ltb_spec (length buf) (sizeof_MeshHeader + length payload)); [lia|].
  cbn [_next_seq]. f_equal. f_equal.
  rewrite memcpy_at_start.
  set (hb := meshheader_bytes _).
  assert (Hhb : length hb = 9%nat) by reflexivity.
  rewrite (memcpy_at_end hb) by exact Hhb.
  rewrite Hhb, drop_drop. reflexivity.
Qed.

(** X14. A payload wrapped by node [a] for destination [d] and received by
    the router of node [d], or by any router when [d] is the broadcast
    address, is delivered unchanged; if [a] is neither 0 nor 255 the
    receiver then routes to [a] directly. *)
Theorem wrap_then_receive
    (d : Z) (payload out_buf : list Z) (sender receiver : MeshRouter) (now : Z) :
  (sizeof_MeshHeader + length payload <= length out_buf)%nat ->
  router_wf receiver = true ->
  d = _node_id receiver \/ d = 255 ->
  let w := wrap d payload out_buf sender in
  let r := receive now (take w.1.1 w.1.2) receiver in
  w.1.1 = (sizeof_MeshHeader + length payload)%nat
  /\ r.1 = Some payload
  /\ (_node_id sender <> 0 -> _node_id sender <> 255 ->
      next_hop_for r.2 (_node_id sender) = _node_id sender).
Proof.
  intros Hfit Hwf Hd w r. unfold r, w. clear r w.
  rewrite wrap_fits by exact Hfit. cbn [fst snd].
  set (hdr := {| mh_packetType := MESH_DATA; mh_sourceId := _node_id sender |}).
  assert (Hframe : take (sizeof_MeshHeader + length payload)
                     (meshheader_bytes hdr ++ payload
                      ++ drop (sizeof_MeshHeader + length payload) out_buf)
                   = meshheader_bytes hdr ++ payload).
  { rewrite app_assoc. apply take_app_length'. rewrite length_app. reflexivity. }
  rewrite Hframe. split; [reflexivity|].
  apply Nat.eqb_eq in Hwf.
  unfold receive.
  destruct (Nat.ltb_spec (length (meshheader_bytes hdr ++ payload)) sizeof_MeshHeader)
    as [Hs|_]; [rewrite length_app in Hs; cbn in Hs; unfold sizeof_MeshHeader in Hs; lia|].
  change (meshheader_of_bytes (meshheader_bytes hdr ++ payload))
    with {| mh_packetType := MESH_DATA; mh_sourceId := _node_id sender;
            mh_destId := d; mh_nextHop := mh_nextHop hdr;
            mh_prevHop := _node_id sender; mh_hopCount := 0;
            mh_ttl := MESH_MAX_HOPS;
            mh_sequenceNum := rd16 (le16 (_seq sender) ++ payload) 0 |}.
  cbn [mh_packetType mh_sourceId mh_destId mh_prevHop mh_hopCount].
  change (0 >=? MESH_MAX_HOPS) with false.
  change (MESH_DATA =? MESH_NEIGHBOR_BEACON) with false.
  change (MESH_DATA =? MESH_ROUTE_REQUEST) with false.
  change (drop sizeof_MeshHeader (meshheader_bytes hdr ++ payload)) with payload.
  set (m' := if _ && _ then _ else receiver).
  assert (Hn : _node_id m' = _node_id receiver) by (unfold m'; destruct (_ && _); reflexivity).
  rewrite Hn.
  assert (Hdeliver : (d =? _node_id receiver) || (d =? 255) = true).
  { destruct Hd as [->| ->]; [rewrite Z.eqb_refl; reflexivity|].
    apply orb_true_r. }
  rewrite Hdeliver. cbn [fst snd]. split; [reflexivity|].
  intros H0 H255. unfold m'.
  destruct (Z.eqb_spec (_node_id sender) 0); [contradiction|].
  destruct (Z.eqb_spec (_node_id sender) 255); [contradiction|].
  cbn [negb andb]. apply next_hop_after_update.
  rewrite Hwf. unfold MESH_MAX_ROUTES. lia.
Qed.

(** X15. The beacon that [tick] produces when it is due, received by
    another router, is kept from the upper layer and teaches that router a
    direct route to the sender. *)
Theorem tick_beacon_then_receive
    (t : Z) (out_buf : list Z) (sender receiver : MeshRouter) (now : Z) :
  MESH_BEACON_INTERVAL <= u32_sub t (_last_beacon sender) ->
  (sizeof_MeshHeader <= length out_buf)%nat ->
  router_wf receiver = true ->
  let b := tick t out_buf sender in
  let r := receive now (take b.1.1 b.1.2) receiver in
  b.1.1 = sizeof_MeshHeader
  /\ r.1 = None
  /\ next_hop_for r.2 (_node_id sender) = _node_id sender.
Proof.
  intros Hdue Hfit Hwf b r. unfold r, b. clear r b.
  apply Nat.eqb_eq in Hwf.
  unfold tick. rewrite last_beacon_evict.
  destruct (Z.ltb_spec (u32_sub t (_last_beacon sender)) MESH_BEACON_INTERVAL); [lia|].
  destruct (Nat.ltb_spec (length out_buf) sizeof_MeshHeader); [lia|].
  cbn [_next_seq fst snd _node_id _seq evict_stale_routes set_routes].
  split; [reflexivity|].
  rewrite memcpy_at_start.
  set (hdr := {| mh_packetType := MESH_NEIGHBOR_BEACON; mh_sourceId := _node_id sender |}).
  rewrite (take_app_length' (meshheader_bytes hdr)) by reflexivity.
  unfold receive.
  change (length (meshheader_bytes hdr) <? sizeof_MeshHeader)%nat with false.
  change (meshheader_of_bytes (meshheader_bytes hdr))
    with {| mh_packetType := MESH_NEIGHBOR_BEACON; mh_sourceId := _node_id sender;
            mh_destId := 255; mh_nextHop := 255;
            mh_prevHop := _node_id sender; mh_hopCount := 0;
            mh_ttl := 1;
            mh_sequenceNum := rd16 (le16 (_seq sender)) 0 |}.
  cbn [mh_packetType mh_sourceId mh_destId mh_prevHop mh_hopCount].
  change (0 >=? MESH_MAX_HOPS) with false.
  change (MESH_NEIGHBOR_BEACON =? MESH_NEIGHBOR_BEACON) with true.
  cbn [fst snd]. split; [reflexivity|].
  apply next_hop_after_update.
  destruct (_ && _); [rewrite length_routes_update|];
    rewrite Hwf; unfold MESH_MAX_ROUTES; lia.
Qed.

(** ** Command applier: every command *)

Lemma set_location_identity pkt c :
  nodeId (set_location pkt c) = nodeId c
  /\ networkId (set_location pkt c) = networkId c.
Proof. unfold set_location. cbv zeta. destruct (_ && _); split; reflexivity. Qed.

(** The outcome of [handle_command] for a command that does not restart
    the node, with room for the acknowledgement. *)
Lemma handle_command_cases pkt store mesh ack_buf :
  (sizeof_AckPacket <= length ack_buf)%nat ->
  command_restarts pkt = false ->
  exists store' mesh',
    handle_command pkt store mesh ack_buf =
      (Returned sizeof_AckPacket,
       ack_frame (if command_acknowledged pkt then CMD_ACK else CMD_NACK)
                 (nodeId (_cfg store)) (cmd_sequenceNumber pkt)
                 (if command_acknowledged pkt then 0 else 1)
       ++ drop sizeof_AckPacket ack_buf,
       store', mesh')
    /\ (command_acknowledged pkt = false -> store' = store /\ mesh' = mesh)
    /\ (store' = store /\ mesh' = mesh
        \/ exists c',
             store' = (save (set_cfg store c')).2
             /\ nodeId c' = nodeId (_cfg store)
             /\ networkId c' = networkId (_cfg store)
             /\ (location c' = location (_cfg store) /\ zone c' = zone (_cfg store)
                 \/ c' = set_location pkt (_cfg store))
             /\ (meshEnabled c' = meshEnabled (_cfg store) /\ mesh' = mesh
                 \/ meshEnabled c' = negb (rd8 (fixed 192 (cmd_data pkt)) 0 =? 0)
                    /\ mesh' = set_enabled
                                 (negb (rd8 (fixed 192 (cmd_data pkt)) 0 =? 0)) mesh)).
Proof.
  intros Hfit Hnr. unfold command_restarts in Hnr.
  apply orb_false_iff in Hnr as [Hr1 Hr2].
  unfold handle_command, command_acknowledged. cbv zeta.
  rewrite Hr1, Hr2. rewrite !ack_fits by exact Hfit.
  set (c := cmd_commandType pkt) in *.
  set (dl := cmd_dataLength pkt) in *.
  assert (Hge : forall k, (dl >=? k) = (k <=? dl)).
  { intros k. rewrite Z.geb_leb. reflexivity. }
  assert (Hge' : forall x k : Z, (x >=? k) = (k <=? x)).
  { intros x k. rewrite Z.geb_leb. reflexivity. }
  rewrite !Hge, !Hge'.
  destruct (c =? CMD_PING) eqn:E0;
    [apply Z.eqb_eq in E0; rewrite E0; cbn;
     do 2 eexists; split; [reflexivity|split; [discriminate|]];
     left; split; reflexivity|].
  destruct (c =? CMD_GET_CONFIG) eqn:E1;
    [apply Z.eqb_eq in E1; rewrite E1; cbn;
     do 2 eexists; split; [reflexivity|split; [discriminate|]];
     left; split; reflexivity|].
  cbn [orb].
  destruct (c =? CMD_SET_INTERVAL) eqn:E2.
  { apply Z.eqb_eq in E2. rewrite E2.
    change (CMD_SET_INTERVAL =? CMD_SET_LOCATION) with false. cbn [orb].
    destruct (4 <=? dl); cbn [andb].
    - destruct ((1000 <=? _) && (_ <=? 3600000)) eqn:Er.
      + do 2 eexists. split; [reflexivity|]. split; [discriminate|].
        right. eexists. split; [reflexivity|]. cbn. repeat split; auto.
      + do 2 eexists. split; [reflexivity|]. split; [auto|].
        left. split; reflexivity.
    - do 2 eexists. split; [reflexivity|]. split; [auto|].
      left. split; reflexivity. }
  destruct (c =? CMD_SET_LOCATION) eqn:E3.
  { apply Z.eqb_eq in E3.
    do 2 eexists. split; [reflexivity|]. split; [discriminate|].
    right. eexists. split; [reflexivity|].
    split; [apply set_location_identity|]. split; [apply set_location_identity|].
    split; [right; reflexivity|]. left. split; [|reflexivity].
    unfold set_location. cbv zeta. destruct (_ && _); reflexivity. }
  destruct (c =? CMD_SET_TEMP_THRESH) eqn:E4.
  { cbn [orb]. destruct (8 <=? dl).
    - do 2 eexists. split; [reflexivity|]. split; [discriminate|].
      right. eexists. split; [reflexivity|]. cbn. repeat split; auto.
    - do 2 eexists. split; [reflexivity|]. split; [auto|].
      left. split; reflexivity. }
  destruct (c =? CMD_SET_BATTERY_THRESH) eqn:E5.
  { cbn [orb]. destruct (8 <=? dl).
    - do 2 eexists. split; [reflexivity|]. split; [discriminate|].
      right. eexists. split; [reflexivity|]. cbn. repeat split; auto.
    - do 2 eexists. split; [reflexivity|]. split; [auto|].
      left. split; reflexivity. }
  cbn [orb].
  destruct (c =? CMD_SET_MESH_CONFIG) eqn:E6.
  { destruct (1 <=? dl).
    - do 2 eexists. split; [reflexivity|]. split; [discriminate|].
      right. eexists. split; [reflexivity|]. cbn. repeat split; auto.
    - do 2 eexists. split; [reflexivity|]. split; [auto|].
      left. split; reflexivity. }
  destruct (c =? CMD_SET_LORA_PARAMS) eqn:E7.
  { destruct (7 <=? dl).
    - do 2 eexists. split; [reflexivity|]. split; [discriminate|].
      right. eexists. split; [reflexivity|]. cbn. repeat split; auto.
    - do 2 eexists. split; [reflexivity|]. split; [auto|].
      left. split; reflexivity. }
  destruct ((c =? CMD_TIME_SYNC) || (c =? CMD_BASE_WELCOME)) eqn:E8.
  { destruct (6 <=? dl).
    - do 2 eexists. split; [reflexivity|]. split; [discriminate|].
      right. eexists. split; [reflexivity|]. cbn. repeat split; auto.
    - do 2 eexists. split; [reflexivity|]. split; [auto|].
      left. split; reflexivity. }
  do 2 eexists. split; [reflexivity|]. split; [auto|].
  left. split; reflexivity.
Qed.

(** X16. For every command that does not restart the node, and an ACK
    buffer that holds an [AckPacket], [handle_command] returns 202 and
    leaves in the buffer the ACK (status 0) or NACK (status 1) frame that
    carries the node id and echoes the sequence number; it is the ACK
    exactly for the commands of [command_acknowledged]; after a NACK, the
    config store and the mesh router are as before. *)
Theorem handle_command_ack_or_nack
    (pkt : CommandPacket) (store : NodeConfigStore) (mesh : MeshRouter)
    (ack_buf : list Z) :
  (sizeof_AckPacket <= length ack_buf)%nat ->
  command_restarts pkt = false ->
  let r := handle_command pkt store mesh ack_buf in
  r.1.1.1 = Returned sizeof_AckPacket
  /\ r.1.1.2
     = ack_frame (if command_acknowledged pkt then CMD_ACK else CMD_NACK)
                 (nodeId (_cfg store)) (cmd_sequenceNumber pkt)
                 (if command_acknowledged pkt then 0 else 1)
       ++ drop sizeof_AckPacket ack_buf
  /\ (command_acknowledged pkt = false -> r.1.2 = store /\ r.2 = mesh).
Proof.
  intros Hfit Hnr r. unfold r.
  destruct (handle_command_cases pkt store mesh ack_buf Hfit Hnr)
    as (store' & mesh' & -> & Hnack & _).
  cbn [fst snd]. auto.
Qed.

Lemma terminated_copy_string n dst src :
  (0 < n)%nat -> terminated n (copy_string n dst src) = true.
Proof.
  intros Hn. rewrite copy_string_bytes by exact Hn. unfold terminated.
  rewrite length_app, length_strncpy_bytes. cbn [length].
  apply andb_true_iff. split; [apply Nat.eqb_eq; lia|].
  rewrite app_nth2 by (rewrite length_strncpy_bytes; lia).
  rewrite length_strncpy_bytes, Nat.sub_diag. reflexivity.
Qed.

Lemma set_location_strings_ok pkt c :
  strings_ok c = true -> strings_ok (set_location pkt c) = true.
Proof.
  unfold strings_ok. rewrite !andb_true_iff. intros [_ Hz].
  unfold set_location. cbv zeta.
  destruct (_ && _); cbn [location zone with_location with_zone]; split;
    try (apply terminated_copy_string; unfold LOCATION_MAXLEN, ZONE_MAXLEN; lia);
    exact Hz.
Qed.

(** X17. No command that returns changes the node id or the network id,
    and the location and zone arrays stay terminated strings of their
    size. *)
Theorem handle_command_keeps_identity
    (pkt : CommandPacket) (store : NodeConfigStore) (mesh : MeshRouter)
    (ack_buf : list Z) :
  (sizeof_AckPacket <= length ack_buf)%nat ->
  command_restarts pkt = false ->
  strings_ok (_cfg store) = true ->
  let c' := _cfg (handle_command pkt store mesh ack_buf).1.2 in
  nodeId c' = nodeId (_cfg store)
  /\ networkId c' = networkId (_cfg store)
  /\ strings_ok c' = true.
Proof.
  intros Hfit Hnr Hs c'. unfold c'. clear c'.
  destruct (handle_command_cases pkt store mesh ack_buf Hfit Hnr)
    as (store' & mesh' & Hrun & _ & [[-> _]|(c & -> & Hn & Hw & Hc & _)]).
  - rewrite Hrun. cbn [fst snd]. auto.
  - rewrite Hrun. cbn [fst snd]. rewrite save_cfg. cbn [_cfg set_cfg].
    repeat split; [exact Hn|exact Hw|].
    destruct Hc as [[Hl Hz]| ->].
    + unfold strings_ok in *. rewrite Hl, Hz. exact Hs.
    + apply set_location_strings_ok, Hs.
Qed.

(** X18. The mesh flag of the config and the flag of the router stay in
    step through every command that returns, and no command touches the
    route table, the node id of the router or its next hops. *)
Theorem handle_command_mesh_flags_in_step
    (pkt : CommandPacket) (store : NodeConfigStore) (mesh : MeshRouter)
    (ack_buf : list Z) :
  (sizeof_AckPacket <= length ack_buf)%nat ->
  command_restarts pkt = false ->
  meshEnabled (_cfg store) = _enabled mesh ->
  let r := handle_command pkt store mesh ack_buf in
  meshEnabled (_cfg r.1.2) = _enabled r.2
  /\ _routes r.2 = _routes mesh
  /\ _node_id r.2 = _node_id mesh
  /\ (forall dest_id, next_hop_for r.2 dest_id = next_hop_for mesh dest_id).
Proof.
  intros Hfit Hnr Hs r. unfold r. clear r.
  destruct (handle_command_cases pkt store mesh ack_buf Hfit Hnr)
    as (store' & mesh' & Hrun & _ & [[-> ->]|(c & -> & _ & _ & _ & Hm)]);
    rewrite Hrun; cbn [fst snd]; [auto|].
  rewrite save_cfg. cbn [_cfg set_cfg].
  destruct Hm as [[-> ->]|[-> ->]]; auto.
Qed.

(** X19. [CMD_BASE_WELCOME] is handled exactly like [CMD_TIME_SYNC]: with at
    least six data bytes the epoch is the little-endian word at offset 0 and
    the zone offset the sign-extended 16-bit value at offset 4, nothing else
    in the config changes, and the ACK is returned; with fewer, the NACK. *)
Theorem base_welcome_is_time_sync
    (pkt : CommandPacket) (store : NodeConfigStore) (mesh : MeshRouter)
    (ack_buf : list Z) :
  cmd_commandType pkt = CMD_TIME_SYNC ->
  (sizeof_AckPacket <= length ack_buf)%nat ->
  is_array 192 (cmd_data pkt) = true ->
  let r := handle_command pkt store mesh ack_buf in
  handle_command (with_commandType pkt CMD_BASE_WELCOME) store mesh ack_buf = r
  /\ (if 6 <=? cmd_dataLength pkt
      then _cfg r.1.2
           = with_time (_cfg store) (rd32 (cmd_data pkt) 0)
                       (int16_of (rd16 (cmd_data pkt) 4))
           /\ -32768 <= tzOffsetMinutes (_cfg r.1.2) <= 32767
           /\ r.1.1.2 = ack_frame CMD_ACK (nodeId (_cfg store))
                                  (cmd_sequenceNumber pkt) 0
                        ++ drop sizeof_AckPacket ack_buf
      else r.1.2 = store
           /\ r.1.1.2 = ack_frame CMD_NACK (nodeId (_cfg store))
                                  (cmd_sequenceNumber pkt) 1
                        ++ drop sizeof_AckPacket ack_buf).
Proof.
  intros Htype Hfit Hdata r. unfold r. clear r.
  assert (Hfix : fixed 192 (cmd_data pkt) = cmd_data pkt)
    by (apply fixed_exact, is_array_length, Hdata).
  split.
  - unfold handle_command. cbv zeta. cbn [cmd_commandType with_commandType
      cmd_sequenceNumber cmd_data cmd_dataLength]. rewrite Htype. reflexivity.
  - unfold handle_command. cbv zeta. rewrite Htype, Hfix.
    cbn [Z.eqb Pos.eqb orb CMD_TIME_SYNC CMD_PING CMD_GET_CONFIG CMD_SET_INTERVAL
         CMD_SET_LOCATION CMD_SET_TEMP_THRESH CMD_SET_BATTERY_THRESH
         CMD_SET_MESH_CONFIG CMD_RESTART CMD_FACTORY_RESET CMD_SET_LORA_PARAMS].
    rewrite !ack_fits by exact Hfit. rewrite Z.geb_leb.
    destruct (6 <=? cmd_dataLength pkt); cbn [fst snd]; [|split; reflexivity].
    rewrite save_cfg. cbn [_cfg set_cfg tzOffsetMinutes with_time].
    split; [reflexivity|]. split; [|reflexivity].
    assert (Hb : forall i, (i < 192)%nat -> 0 <= rd8 (cmd_data pkt) i < 256).
    { intros i Hi. apply forallb_u8_nth.
      - unfold is_array in Hdata. apply andb_true_iff in Hdata. tauto.
      - rewrite (is_array_length _ _ Hdata). exact Hi. }
    pose proof (Hb 4%nat ltac:(lia)). pose proof (Hb 5%nat ltac:(lia)).
    unfold int16_of, rd16. cbn [Nat.add].
    destruct (Z.ltb_spec (rd8 (cmd_data pkt) 4 + 256 * rd8 (cmd_data pkt) 5) 32768); lia.
Qed.

(** X20. [CMD_SET_LOCATION] replaces the zone exactly when the data length
    leaves between 1 and 16 bytes after the location string and its
    terminator; a data length that ends before the terminator (where the
    unsigned subtraction wraps) leaves the zone alone.  The new zone is the
    string that follows the location, cut to 15 characters. *)
Theorem set_location_zone_rule (pkt : CommandPacket) (c : NodeConfig) :
  is_u8 (cmd_dataLength pkt) = true ->
  let data := fixed 192 (cmd_data pkt) in
  let loc_len := Z.of_nat (strnlen data LOCATION_MAXLEN) in
  zone (set_location pkt c) =
    if (loc_len + 2 <=? cmd_dataLength pkt) && (cmd_dataLength pkt <=? loc_len + 17)
    then strncpy_bytes (drop (strnlen data LOCATION_MAXLEN + 1) data) 15 ++ [0]
    else zone c.
Proof.
  intros Hdl data loc_len. apply is_u8_spec in Hdl.
  unfold set_location. cbv zeta. fold data.
  pose proof (strnlen_le data LOCATION_MAXLEN) as [Hle _].
  unfold LOCATION_MAXLEN in *.
  replace (Z.of_nat (strnlen data 32 + 1)) with (loc_len + 1) by (unfold loc_len; lia).
  assert (Hl : 0 <= loc_len <= 32) by (unfold loc_len; lia).
  unfold size_sub, ZONE_MAXLEN.
  destruct (Z.leb_spec (loc_len + 2) (cmd_dataLength pkt)) as [H1|H1].
  - rewrite Z.mod_small by lia.
    destruct (Z.gtb_spec (cmd_dataLength pkt - (loc_len + 1)) 0); [|lia].
    destruct (Z.leb_spec (cmd_dataLength pkt) (loc_len + 17));
      destruct (Z.leb_spec (cmd_dataLength pkt - (loc_len + 1)) (Z.of_nat 16));
      try lia; cbn [andb zone with_zone with_location]; [|reflexivity].
    apply (copy_string_bytes 16). lia.
  - cbn [andb].
    destruct (Z.eq_dec (cmd_dataLength pkt) (loc_len + 1)) as [He|Hne].
    + rewrite He, Z.sub_diag. reflexivity.
    + replace ((cmd_dataLength pkt - (loc_len + 1)) mod 4294967296)
        with (cmd_dataLength pkt - (loc_len + 1) + 4294967296).
      2:{ symmetry. rewrite <- (Z.mod_add _ 1) by lia.
          rewrite Z.mul_1_l. apply Z.mod_small. lia. }
      destruct (Z.leb_spec (cmd_dataLength pkt - (loc_len + 1) + 4294967296) (Z.of_nat 16));
        [lia|]. rewrite andb_false_r. reflexivity.
Qed.

(** ** Configuration store: what [save] writes, [load] reads back *)

Lemma nvs_put_all_lookup c m :
  nvs_put_all c m !! "node_id" = Some (NvsUChar (nodeId c))
  /\ nvs_put_all c m !! "network_id" = Some (NvsUShort (networkId c))
  /\ nvs_put_all c m !! "tx_interval" = Some (NvsULong (telemetryIntervalMs c))
  /\ nvs_put_all c m !! "location" = Some (NvsString (cstr (location c)))
  /\ nvs_put_all c m !! "zone" = Some (NvsString (cstr (zone c)))
  /\ nvs_put_all c m !! "temp_hi" = Some (NvsFloat (tempThreshHigh c))
  /\ nvs_put_all c m !! "temp_lo" = Some (NvsFloat (tempThreshLow c))
  /\ nvs_put_all c m !! "batt_lo" = Some (NvsFloat (batteryThreshLow c))
  /\ nvs_put_all c m !! "batt_crit" = Some (NvsFloat (batteryThreshCritical c))
  /\ nvs_put_all c m !! "lora_freq" = Some (NvsFloat (loraFrequency c))
  /\ nvs_put_all c m !! "lora_sf" = Some (NvsUChar (loraSpreadingFactor c))
  /\ nvs_put_all c m !! "lora_txpwr" = Some (NvsUChar (loraTxPower c))
  /\ nvs_put_all c m !! "mesh_en" = Some (NvsBool (meshEnabled c))
  /\ nvs_put_all c m !! "tz_offset" = Some (NvsLong (tzOffsetMinutes c))
  /\ nvs_put_all c m !! "time_sync" = Some (NvsULong (lastTimeSync c)).
Proof.
  unfold nvs_put_all.
  repeat split; rewrite ?lookup_insert_ne by discriminate; apply lookup_insert_eq.
Qed.

(** A NUL at index [k] bounds the string length. *)
Lemma strnlen_nul s : forall n k,
  nth k s 1 = 0 -> (k < n)%nat -> (strnlen s n <= k)%nat.
Proof.
  induction s as [|c s IH]; intros n k Hk Hn.
  - destruct k; discriminate Hk.
  - destruct n as [|n]; [lia|]. cbn [strnlen].
    destruct (Z.eqb_spec c 0) as [|Hc]; [lia|].
    destruct k as [|k]; [cbn in Hk; contradiction|].
    cbn [nth] in Hk. specialize (IH n k Hk). lia.
Qed.

(** A string followed by its terminator reads back as itself. *)
Lemma strnlen_cstr s : forall n m rest,
  (strnlen s n < m)%nat ->
  strnlen (take (strnlen s n) s ++ 0 :: rest) m = strnlen s n.
Proof.
  induction s as [|c s IH]; intros n m rest Hm.
  - destruct n; cbn [strnlen take app] in *; destruct m; try lia; reflexivity.
  - destruct n as [|n].
    + cbn [strnlen take app] in *. destruct m; [lia|]. reflexivity.
    + cbn [strnlen] in *. destruct (Z.eqb_spec c 0) as [Hc|Hc].
      * cbn [take app]. destruct m; [lia|]. reflexivity.
      * cbn [take app]. destruct m as [|m]; [lia|]. cbn [strnlen].
        destruct (Z.eqb_spec c 0); [contradiction|].
        f_equal. apply IH. lia.
Qed.

Lemma cstr_get_string a buf n :
  terminated n a = true -> length buf = n ->
  cstr (memcpy buf 0 (cstr a ++ [0])) = cstr a
  /\ (length (cstr a) + 1 <= n)%nat.
Proof.
  unfold terminated. rewrite andb_true_iff, Nat.eqb_eq, Z.eqb_eq.
  intros [Hlen Hnul] Hbuf.
  assert (Hpos : (0 < n)%nat).
  { destruct n; [|lia]. destruct a; [discriminate Hnul|discriminate Hlen]. }
  assert (Hk : (strnlen a (length a) <= n - 1)%nat)
    by (apply strnlen_nul; [exact Hnul|lia]).
  assert (Hlc : length (cstr a) = strnlen a (length a)).
  { unfold cstr. rewrite length_take. pose proof (strnlen_le a (length a)). lia. }
  split; [|lia].
  rewrite memcpy_at_start. unfold cstr at 1.
  rewrite <- app_assoc. cbn [app].
  set (rest := drop _ buf).
  assert (Hn : strnlen (cstr a ++ 0 :: rest) (length (cstr a ++ 0 :: rest))
               = strnlen a (length a)).
  { unfold cstr. apply strnlen_cstr. rewrite length_app. cbn [length].
    fold (cstr a). lia. }
  rewrite Hn, <- Hlc. apply take_app_length.
Qed.

(** [load] from a namespace that holds what [nvs_put_all] wrote. *)
Lemma load_after_put (s : NodeConfigStore) (c0 : NodeConfig)
    (m : gmap string NvsValue) :
  nvs s = nvs_put_all c0 m ->
  strings_ok c0 = true ->
  length (location (_cfg s)) = LOCATION_MAXLEN ->
  length (zone (_cfg s)) = ZONE_MAXLEN ->
  same_settings (_cfg (load true s).2) c0.
Proof.
  intros Hnvs Hs Hl Hz. unfold load.
  cbn [negb fst snd set_cfg nvs _cfg nvs_ok]. rewrite Hnvs.
  unfold strings_ok in Hs. apply andb_true_iff in Hs as [Hsl Hsz].
  destruct (cstr_get_string _ _ _ Hsl Hl) as [Hcl Hfl].
  destruct (cstr_get_string _ _ _ Hsz Hz) as [Hcz Hfz].
  pose proof (nvs_put_all_lookup c0 m)
    as (K1 & K2 & K3 & K4 & K5 & K6 & K7 & K8 & K9 & K10 & K11 & K12 & K13
        & K14 & K15).
  unfold same_settings, getUChar, getUShort, getULong, getLong, getFloat,
    getBool, getString.
  cbn [nodeId networkId telemetryIntervalMs location zone tempThreshHigh
       tempThreshLow batteryThreshLow batteryThreshCritical loraFrequency
       loraSpreadingFactor loraTxPower meshEnabled tzOffsetMinutes lastTimeSync].
  rewrite K1, K2, K3, K4, K5, K6, K7, K8, K9, K10, K11, K12, K13, K14, K15.
  destruct (Nat.leb_spec (length (cstr (location c0)) + 1) LOCATION_MAXLEN);
    [|lia].
  destruct (Nat.leb_spec (length (cstr (zone c0)) + 1) ZONE_MAXLEN); [|lia].
  repeat split; assumption.
Qed.

(** X21. What [save] writes, [load] reads back: after a [save] that opens
    the namespace, [load] into any config object restores every member,
    the location and the zone as C strings, and leaves the flash alone. *)
Theorem save_then_load (s : NodeConfigStore) (c : NodeConfig) :
  nvs_ok s = true ->
  strings_ok (_cfg s) = true ->
  length (location c) = LOCATION_MAXLEN ->
  length (zone c) = ZONE_MAXLEN ->
  let r := load true (set_cfg (save s).2 c) in
  r.1 = true
  /\ same_settings (_cfg r.2) (_cfg s)
  /\ nvs r.2 = nvs (save s).2.
Proof.
  intros Hok Hs Hl Hz r. unfold r.
  split; [reflexivity|]. split; [|reflexivity].
  apply (load_after_put _ _ (nvs s)); try assumption.
  unfold save. rewrite Hok. reflexivity.
Qed.

Lemma fill_defaults_const c : _fill_defaults c = _cfg default_store.
Proof.
  unfold default_store, _fill_defaults. cbn [_cfg location zone].
  rewrite !(copy_string_bytes LOCATION_MAXLEN), !(copy_string_bytes ZONE_MAXLEN)
    by (unfold LOCATION_MAXLEN, ZONE_MAXLEN; lia).
  reflexivity.
Qed.

(** X22. [factory_reset] leaves the default configuration in memory,
    whatever the configuration was.  When the namespace opens, the flash
    holds the defaults under the fifteen keys and nothing else, and a later
    [load] gives the default settings; when it does not open, the flash
    keeps what it held. *)
Theorem factory_reset_defaults (s : NodeConfigStore) :
  _cfg (factory_reset s) = _cfg default_store
  /\ (nvs_ok s = true ->
      nvs (factory_reset s) = nvs_put_all (_cfg default_store) ∅
      /\ (forall k, is_Some (nvs (factory_reset s) !! k) <-> k ∈ nvs_keys)
      /\ forall c, length (location c) = LOCATION_MAXLEN ->
                   length (zone c) = ZONE_MAXLEN ->
           same_settings (_cfg (load true (set_cfg (factory_reset s) c)).2)
                         (_cfg default_store))
  /\ (nvs_ok s = false -> nvs (factory_reset s) = nvs s).
Proof.
  split; [|split].
  - unfold factory_reset. cbv zeta. rewrite save_cfg. cbn [_cfg set_cfg].
    apply fill_defaults_const.
  - intros Hok.
    assert (Hfr : factory_reset s
                  = (save {| _cfg := _cfg default_store; nvs_ok := true;
                             nvs := ∅ |}).2).
    { unfold factory_reset, save, set_cfg. cbv zeta.
      cbn [nvs_ok _cfg nvs]. rewrite Hok. cbn [negb snd _cfg nvs nvs_ok].
      rewrite fill_defaults_const. reflexivity. }
    split; [rewrite Hfr; reflexivity|]. split.
    + intros k. rewrite Hfr. unfold save. cbn [nvs_ok negb snd nvs _cfg].
      unfold nvs_put_all, nvs_keys.
      rewrite !lookup_insert_is_Some, lookup_empty, is_Some_alt.
      rewrite !elem_of_cons, elem_of_nil. intuition congruence.
    + intros c Hl Hz. rewrite Hfr.
      apply (load_after_put _ _ ∅); try assumption; reflexivity.
  - intros Hno. unfold factory_reset. cbv zeta. rewrite Hno.
    rewrite save_fails by reflexivity. reflexivity.
Qed.

(** ** Sensor drivers *)

(** One [_write_value] into an array that already holds [k] of the
    readings. *)
Lemma write_value_step max_len t x out (k : nat) :
  0 <= max_len < 256 ->
  (length out = Z.to_nat max_len)%nat ->
  (k <= Z.to_nat max_len)%nat ->
  (_write_value out max_len (Z.of_nat k) t x).2
  = if (k <? Z.to_nat max_len)%nat
    then (take k out ++ {| sv_type := t; sv_value := x |} :: drop (S k) out,
          Z.of_nat (S k))
    else (out, Z.of_nat k).
Proof.
  intros Hm Hlen Hk. unfold _write_value.
  destruct (Nat.ltb_spec k (Z.to_nat max_len)) as [Hlt|Hge].
  - destruct (Z.geb_spec (Z.of_nat k) max_len) as [|_]; [lia|].
    cbn [snd]. rewrite Nat2Z.id. f_equal.
    + apply insert_take_drop. lia.
    + rewrite Z.mod_small by lia. lia.
  - destruct (Z.geb_spec (Z.of_nat k) max_len) as [_|]; [reflexivity|lia].
Qed.

Lemma write_values_fold max_len vs : forall out (k : nat),
  0 <= max_len < 256 ->
  (length out = Z.to_nat max_len)%nat ->
  (k <= Z.to_nat max_len)%nat ->
  fold_left (fun st v => (_write_value st.1 max_len st.2 (sv_type v) (sv_value v)).2)
            vs (out, Z.of_nat k)
  = (take k out ++ take (Z.to_nat max_len - k) vs
       ++ drop (k + Nat.min (length vs) (Z.to_nat max_len - k)) out,
     Z.of_nat (k + Nat.min (length vs) (Z.to_nat max_len - k))).
Proof.
  induction vs as [|v vs IH]; intros out k Hm Hlen Hk.
  - cbn [fold_left length Nat.min]. rewrite take_nil, Nat.add_0_r.
    cbn [app]. rewrite take_drop. reflexivity.
  - cbn [fold_left fst snd]. rewrite write_value_step by assumption.
    destruct (Nat.ltb_spec k (Z.to_nat max_len)) as [Hlt|Hge].
    + rewrite IH; [|assumption| |lia].
      2:{ rewrite length_app, length_take. cbn [length]. rewrite length_drop. lia. }
      assert (Hs : (Z.to_nat max_len - k = S (Z.to_nat max_len - S k))%nat) by lia.
      rewrite Hs. cbn [take length].
      assert (Htk : length (take k out) = k) by (rewrite length_take; lia).
      f_equal; [|f_equal; lia].
      rewrite take_app_ge by lia. rewrite Htk.
      replace (S k - k)%nat with 1%nat by lia. cbn [take].
      rewrite <- app_assoc. cbn [app take].
      destruct v as [vt vv]. cbn [sv_type sv_value].
      change (take 0 (drop (S k) out)) with (@nil SensorValuePacket). cbn [app].
      apply (f_equal (app (take k out))).
      apply (f_equal (cons _)). apply (f_equal (app _)).
      rewrite drop_app_ge by lia. rewrite Htk.
      replace (S k + Nat.min (length vs) (Z.to_nat max_len - S k) - k)%nat
        with (S (Nat.min (length vs) (Z.to_nat max_len - S k))) by lia.
      cbn [drop]. rewrite drop_drop. f_equal. lia.
    + replace (Z.to_nat max_len - k)%nat with 0%nat by lia.
      rewrite Nat.min_0_r, Nat.add_0_r. cbn [take app]. rewrite take_drop.
      clear IH. revert out Hlen.
      induction vs as [|v' vs IH]; intros out Hlen; [reflexivity|].
      cbn [fold_left fst snd]. rewrite write_value_step by assumption.
      destruct (Nat.ltb_spec k (Z.to_nat max_len)); [lia|]. apply IH, Hlen.
Qed.

Lemma sensor_values_fold s out max_len :
  sensor_values s out max_len
  = fold_left (fun st v => (_write_value st.1 max_len st.2 (sv_type v) (sv_value v)).2)
              (readings s) (out, 0).
Proof.
  unfold sensor_values. destruct s; cbn [readings fold_left fst snd sv_type sv_value];
    repeat match goal with
           | |- context [_write_value ?o ?m ?i ?t ?x] =>
               destruct (_write_value o m i t x) as [? [? ?]]; cbn [fst snd]
           end; reflexivity.
Qed.

Lemma length_readings s : (1 <= length (readings s) <= 4)%nat.
Proof. destruct s; cbn; lia. Qed.

Lemma sensor_values_spec s out max_len :
  0 <= max_len < 256 ->
  length out = Z.to_nat max_len ->
  let n := Nat.min (length (readings s)) (Z.to_nat max_len) in
  sensor_values s out max_len = (take n (readings s) ++ drop n out, Z.of_nat n).
Proof.
  intros Hm Hlen n.
  rewrite sensor_values_fold.
  change 0 with (Z.of_nat 0).
  rewrite (write_values_fold max_len (readings s) out 0) by (assumption || lia).
  rewrite Nat.sub_0_r, Nat.add_0_l.
  change (take 0 out) with (@nil SensorValuePacket). cbn [app]. fold n.
  f_equal. f_equal. unfold n.
  destruct (Nat.min_spec (length (readings s)) (Z.to_nat max_len))
    as [[Hlt ->]|[Hge ->]]; [|reflexivity].
  rewrite !take_ge by lia. reflexivity.
Qed.

(** X23. [values(out, max_len)] of every driver writes its readings in
    order into the first entries of [out], as many as fit in [max_len],
    returns their number and leaves the rest of [out] alone.  With room
    for four entries every driver reports all its readings. *)
Theorem sensor_values_bounded (s : SensorBase) (out : list SensorValuePacket)
    (max_len : Z) :
  0 <= max_len < 256 ->
  length out = Z.to_nat max_len ->
  let n := Nat.min (length (readings s)) (Z.to_nat max_len) in
  sensor_values s out max_len = (take n (readings s) ++ drop n out, Z.of_nat n)
  /\ length (sensor_values s out max_len).1 = length out
  /\ (4 <= max_len -> take n (sensor_values s out max_len).1 = readings s).
Proof.
  intros Hm Hlen n.
  pose proof (sensor_values_spec s out max_len Hm Hlen) as Hv. cbv zeta in Hv.
  fold n in Hv.
  pose proof (length_readings s) as Hr.
  split; [exact Hv|]. rewrite Hv. cbn [fst]. split.
  - rewrite length_app, length_take, length_drop. lia.
  - intros H4. assert (Hn : n = length (readings s)) by (unfold n; lia).
    rewrite take_app_le by (rewrite length_take; lia).
    rewrite take_take, Nat.min_id, Hn. apply take_ge. lia.
Qed.

(** ** Telemetry *)

Lemma copy_values_full tmp vals vcount :
  MAX_SENSOR_VALUES <= vcount -> copy_values tmp vals vcount = (vals, vcount).
Proof.
  intros H. destruct tmp as [|v tmp]; [reflexivity|]. cbn [copy_values].
  destruct (Z.ltb_spec vcount MAX_SENSOR_VALUES); [lia|reflexivity].
Qed.

Lemma copy_values_app xs ys : forall vals vcount,
  copy_values (xs ++ ys) vals vcount
  = copy_values ys (copy_values xs vals vcount).1 (copy_values xs vals vcount).2.
Proof.
  induction xs as [|x xs IH]; intros vals vcount; [reflexivity|].
  cbn [app copy_values].
  destruct (Z.ltb_spec vcount MAX_SENSOR_VALUES) as [Hlt|Hge]; [apply IH|].
  cbn [fst snd]. symmetry. apply copy_values_full, Hge.
Qed.

(** The outer loop gathers the readings of the ready sensors. *)
Lemma collect_values_copy read ss : forall i vals vcount,
  let r := collect_values read i ss vals vcount in
  (r.1.2, r.2) = copy_values (readings_from read i ss) vals vcount.
Proof.
  induction ss as [|s ss IH]; intros i vals vcount; [reflexivity|].
  cbn [collect_values readings_from]. cbv zeta.
  destruct (Z.ltb_spec vcount MAX_SENSOR_VALUES) as [Hlt|Hge].
  2:{ cbn [fst snd]. symmetry. apply copy_values_full, Hge. }
  rewrite copy_values_app.
  set (step := match s with Some sb => _ | None => _ end).
  assert (Hstep : (step.1.2, step.2)
                  = copy_values match s with
                                | Some sb => if is_ready sb then readings (read i sb) else []
                                | None => []
                                end vals vcount).
  { unfold step. destruct s as [sb|]; [|reflexivity].
    destruct (is_ready sb); [|reflexivity].
    pose proof (sensor_values_spec (read i sb) (replicate 4 zero_value) 4
                  ltac:(lia) eq_refl) as Hv. cbv zeta in Hv. rewrite Hv.
    pose proof (length_readings (read i sb)) as Hr.
    rewrite Nat2Z.id.
    replace (Nat.min (length (readings (read i sb))) (Z.to_nat 4))
      with (length (readings (read i sb))) by lia.
    rewrite take_app_length'
      by (rewrite length_take; lia).
    rewrite take_ge by lia.
    destruct (copy_values _ vals vcount); reflexivity. }
  destruct step as [[s' vals'] vcount']. cbn [fst snd] in Hstep.
  rewrite <- Hstep. cbn [fst snd].
  specialize (IH (S i) vals' vcount'). cbv zeta in IH.
  destruct (collect_values read (S i) ss vals' vcount') as [[ss' v''] c''].
  exact IH.
Qed.

Lemma copy_values_write xs : forall vals (k : nat),
  (k <= 16)%nat ->
  copy_values xs vals (Z.of_nat k)
  = fold_left (fun st v => (_write_value st.1 16 st.2 (sv_type v) (sv_value v)).2)
              xs (vals, Z.of_nat k).
Proof.
  induction xs as [|[t x] xs IH]; intros vals k Hk; [reflexivity|].
  cbn [copy_values fold_left fst snd]. unfold _write_value at 2. cbn [sv_type sv_value].
  unfold MAX_SENSOR_VALUES.
  destruct (Z.ltb_spec (Z.of_nat k) 16) as [Hlt|Hge];
    destruct (Z.geb_spec (Z.of_nat k) 16) as [Hge'|Hlt']; try lia.
  - cbn [snd]. rewrite Z.mod_small by lia.
    replace (Z.of_nat k + 1) with (Z.of_nat (S k)) by lia. apply IH. lia.
  - cbn [snd]. clear IH. induction xs as [|[t' x'] xs IH]; [reflexivity|].
    cbn [fold_left fst snd]. unfold _write_value at 2.
    destruct (Z.geb_spec (Z.of_nat k) 16); [exact IH|lia].
Qed.

(** The values and the count that [transmit_telemetry] puts in the
    packet. *)
Lemma collect_values_all hw g :
  let r := collect_values (hw_read hw) 0 (sensors g)
             (replicate (Z.to_nat MAX_SENSOR_VALUES) zero_value) 0 in
  let vs := telemetry_values hw g in
  r.1.2 = vs ++ replicate (16 - length vs) zero_value
  /\ r.2 = Z.of_nat (length vs)
  /\ (length vs <= 16)%nat.
Proof.
  intros r vs.
  pose proof (collect_values_copy (hw_read hw) (sensors g) 0
                (replicate (Z.to_nat MAX_SENSOR_VALUES) zero_value) 0) as H.
  cbv zeta in H. fold r in H.
  rewrite (copy_values_write _ _ 0) in H by lia.
  rewrite (write_values_fold 16) in H by (reflexivity || lia).
  change (take 0 _) with (@nil SensorValuePacket) in H.
  rewrite Nat.sub_0_r, Nat.add_0_l in H. cbn [app] in H.
  set (all := readings_from (hw_read hw) 0 (sensors g)) in *.
  assert (Hvs : vs = take 16 all) by reflexivity.
  assert (Hlen : length vs = Nat.min (length all) 16).
  { rewrite Hvs, length_take. lia. }
  injection H as H1 H2.
  change (Z.to_nat 16) with 16%nat in *. rewrite <- Hlen in H1, H2.
  split; [|split; [exact H2|lia]].
  rewrite H1, <- Hvs. f_equal.
  apply (drop_replicate (length vs) 16 zero_value).
Qed.

Lemma is_array_strncpy n a :
  (0 < n)%nat -> forallb is_u8 a = true ->
  is_array n (memcpy (replicate n 0) 0 (strncpy_bytes a (n - 1))) = true.
Proof.
  intros Hn Ha. unfold is_array. apply andb_true_iff. split.
  - apply Nat.eqb_eq. rewrite length_memcpy; rewrite ?length_strncpy_bytes,
      ?length_replicate; lia.
  - rewrite memcpy_at_start. unfold strncpy_bytes.
    rewrite !forallb_app. rewrite !andb_true_iff. repeat split.
    + apply forallb_take, Ha.
    + apply forallb_forall. intros x Hx. apply list_elem_of_In in Hx.
      apply elem_of_replicate in Hx as [-> _]. reflexivity.
    + apply forallb_forall. intros x Hx. apply list_elem_of_In in Hx.
      rewrite drop_replicate in Hx.
      apply elem_of_replicate in Hx as [-> _]. reflexivity.
Qed.

Lemma telemetry_packet_wf hw g seq st :
  config_wf (_cfg (cfg_store g)) = true ->
  hardware_wf hw -> is_u8 seq = true -> is_u8 st = true ->
  let vs := telemetry_values hw g in
  multi_sensor_wf
    (telemetry_packet (_cfg (cfg_store g)) (hw_battery hw) seq st
       (vs ++ replicate (16 - length vs) zero_value) (Z.of_nat (length vs)))
  = true.
Proof.
  intros Hc [Hb Hr] Hseq Hst vs.
  unfold config_wf in Hc. rewrite !andb_true_iff in Hc.
  destruct Hc as [[[Hn Hw] Hl] Hz].
  assert (Hlen : (length vs <= 16)%nat).
  { unfold vs, telemetry_values. rewrite length_take.
    change (Z.to_nat MAX_SENSOR_VALUES) with 16%nat. lia. }
  assert (Hall : forall read ss i,
            (forall i s, sensor_wf (read i s) = true) ->
            forallb value_wf (readings_from read i ss) = true).
  { intros read ss. induction ss as [|s ss IH]; intros i Hrd; [reflexivity|].
    cbn [readings_from]. rewrite forallb_app, IH by exact Hrd.
    rewrite andb_true_r. destruct s as [sb|]; [|reflexivity].
    destruct (is_ready sb); [apply Hrd|reflexivity]. }
  unfold multi_sensor_wf, packet_wf, header_wf, telemetry_packet.
  cbn [header values checksum hdr_syncWord hdr_networkId hdr_packetType
       hdr_sensorId hdr_valueCount hdr_batteryPercent hdr_powerState
       hdr_lastCommandSeq hdr_ackStatus hdr_pad hdr_location hdr_zone].
  rewrite Hn, Hw, Hb, Hseq, Hst.
  unfold is_array in Hl, Hz. apply andb_true_iff in Hl as [_ Hl].
  apply andb_true_iff in Hz as [_ Hz].
  rewrite (is_array_strncpy 32) by (lia || exact Hl).
  rewrite (is_array_strncpy 16) by (lia || exact Hz).
  rewrite !andb_true_iff. repeat split; try reflexivity.
  - apply is_u8_spec. lia.
  - apply Nat.eqb_eq. rewrite length_app, length_replicate.
    change (Z.to_nat MAX_SENSOR_VALUES) with 16%nat. lia.
  - rewrite forallb_app. apply andb_true_iff. split.
    + apply forallb_take, Hall, Hr.
    + apply forallb_forall. intros x Hx. apply list_elem_of_In in Hx.
      apply elem_of_replicate in Hx as [-> _]. reflexivity.
  - apply Z.leb_le. unfold MAX_SENSOR_VALUES. lia.
Qed.

Lemma serialized_frame p buf :
  (lss_multi_sensor_size p <= length buf)%nat ->
  take (lss_serialize_multi_sensor p buf).1 (lss_serialize_multi_sensor p buf).2
  = frame_body p ++ le16 (lss_crc16 (frame_body p)).
Proof.
  intros Hfit. rewrite serialize_multi_sensor_fits by exact Hfit. cbn [fst snd].
  rewrite app_assoc. apply take_app_length'.
  rewrite length_app. pose proof (length_frame_body p). cbn [length le16]. lia.
Qed.

Lemma telemetry_packet_size cfg b seq st vals (n : nat) :
  (n <= 16)%nat ->
  (lss_multi_sensor_size (telemetry_packet cfg b seq st vals (Z.of_nat n))
   = 62 + 5 * n)%nat.
Proof.
  intros Hn. unfold lss_multi_sensor_size, telemetry_packet.
  cbn [header hdr_valueCount]. rewrite Nat2Z.id.
  unfold sizeof_MultiSensorHeader, sizeof_SensorValuePacket, sizeof_uint16_t. lia.
Qed.

(** X24. [transmit_telemetry] always starts exactly one transmission.  The
    frame carries the readings of the ready sensors after their [read()],
    cut to sixteen, under a header filled from the configuration; it is
    sent as it is when the mesh is off, and behind a mesh header addressed
    to node 0 when it is on.  The telemetry frame deserialises to the packet
    that was built. *)
Theorem transmit_telemetry_frame
    (hw : Hardware) (last_cmd_seq ack_status : Z) (g : Globals)
    (out : MultiSensorPacket) :
  config_wf (_cfg (cfg_store g)) = true ->
  hardware_wf hw ->
  is_u8 last_cmd_seq = true -> is_u8 ack_status = true ->
  length (tx_buf g) = 255%nat ->
  let cfg := _cfg (cfg_store g) in
  let vs := telemetry_values hw g in
  let pkt := telemetry_packet cfg (hw_battery hw) last_cmd_seq ack_status
               (vs ++ replicate (16 - length vs) zero_value)
               (Z.of_nat (length vs)) in
  let payload := frame_body pkt ++ le16 (lss_crc16 (frame_body pkt)) in
  (transmit_telemetry hw last_cmd_seq ack_status g).1
  = [RadioStartTransmit
       match (if meshEnabled cfg then mesh_router g else None) with
       | Some m =>
           meshheader_bytes
             {| mh_packetType := MESH_DATA; mh_sourceId := _node_id m;
                mh_destId := 0; mh_nextHop := next_hop_for m 0;
                mh_prevHop := _node_id m; mh_hopCount := 0;
                mh_ttl := MESH_MAX_HOPS; mh_sequenceNum := _seq m |}
           ++ payload
       | None => payload
       end]
  /\ lss_deserialize_multi_sensor payload out
     = (true, {| header := header pkt;
                 values := vs ++ drop (length vs) (values out);
                 checksum := lss_crc16 (frame_body pkt) |}).
Proof.
  intros Hc Hhw Hseq Hst Htx cfg vs pkt payload.
  destruct (collect_values_all hw g) as (Hvals & Hcount & Hlen). fold vs in Hvals, Hcount, Hlen.
  pose proof (telemetry_packet_wf hw g last_cmd_seq ack_status Hc Hhw Hseq Hst) as Hwf.
  cbv zeta in Hwf. fold vs cfg pkt in Hwf.
  assert (Hsize : (lss_multi_sensor_size pkt = 62 + 5 * length vs)%nat)
    by (apply telemetry_packet_size, Hlen).
  assert (Hpl : (length payload = 62 + 5 * length vs)%nat).
  { unfold payload. rewrite length_app. pose proof (length_frame_body pkt).
    cbn [length le16]. lia. }
  split.
  - unfold transmit_telemetry. fold cfg.
    destruct (collect_values (hw_read hw) 0 (sensors g) _ 0) as [[ss vals] vcount].
    cbn [fst snd] in Hvals, Hcount. subst vals vcount. fold pkt.
    destruct (if meshEnabled cfg then mesh_router g else None) as [m|].
    + pose proof (serialized_frame pkt (replicate 255 0)) as Hfr.
      rewrite serialize_multi_sensor_fits in * by (rewrite length_replicate; lia).
      cbn [fst snd] in Hfr. rewrite Hsize.
      destruct (Nat.eqb_spec (62 + 5 * length vs) 0) as [|_]; [lia|].
      rewrite Hsize in Hfr. rewrite Hfr by (rewrite length_replicate; lia).
      fold payload.
      rewrite wrap_fits by (rewrite Hpl, Htx; unfold sizeof_MeshHeader; lia).
      cbn [fst snd Z.eqb].
      destruct (Nat.ltb_spec 0 (sizeof_MeshHeader + length payload));
        [|unfold sizeof_MeshHeader in *; lia].
      f_equal. f_equal. rewrite app_assoc. apply take_app_length'.
      rewrite length_app. reflexivity.
    + pose proof (serialized_frame pkt (tx_buf g)) as Hfr.
      rewrite serialize_multi_sensor_fits in * by (rewrite Htx; lia).
      cbn [fst snd] in *. rewrite Hsize.
      destruct (Nat.ltb_spec 0 (62 + 5 * length vs)); [|lia].
      rewrite Hsize in Hfr. rewrite Hfr by (rewrite Htx; lia). reflexivity.
  - pose proof (multi_sensor_round_trip pkt (replicate 255 0) out Hwf) as Hrt.
    cbv zeta in Hrt.
    rewrite serialized_frame in Hrt by (rewrite length_replicate; lia).
    fold payload in Hrt.
    destruct Hrt as (_ & Hd & _); [rewrite length_replicate; lia|].
    rewrite Hd.
    assert (Htk : take (length payload - 2) payload = frame_body pkt).
    { unfold payload. apply take_app_length'. rewrite length_app. cbn [length le16]. lia. }
    assert (Hvc : Z.to_nat (hdr_valueCount (header pkt)) = length vs)
      by apply Nat2Z.id.
    assert (Hvp : values pkt = vs ++ replicate (16 - length vs) zero_value)
      by reflexivity.
    rewrite Hvc, Hvp, take_app_length, Htk. reflexivity.
Qed.

(** ** The receive path of [loop] *)

(** A packet of at most 254 bytes is parsed as it came. *)
Lemma rx_window pkt rx :
  (length pkt <= 254)%nat -> length rx = 255%nat ->
  take (length pkt) (memcpy rx 0 (take 254 pkt)) = pkt.
Proof.
  intros Hp Hr. rewrite (take_ge pkt 254) by lia. rewrite memcpy_at_start.
  apply take_app_length.
Qed.

Lemma loop_receive_idle hw g :
  rx_done_flag g = false -> loop_receive hw g = LoopDone [] g.
Proof. intros H. unfold loop_receive. rewrite H. reflexivity. Qed.

(** The receive path drops whatever is not a valid command for this node. *)
Lemma loop_receive_drops hw g :
  rx_done_flag g = true ->
  let parse_buf := parse_window (take (length (hw_packet hw)) (rx_buf (received hw g))) in
  hw_read_ok hw = false
  \/ lss_detect_packet parse_buf <> Some PACKET_CONFIG
  \/ (lss_deserialize_command parse_buf zero_command).1 = false
  \/ (let cmd := (lss_deserialize_command parse_buf zero_command).2 in
      cmd_targetSensorId cmd <> nodeId (_cfg (cfg_store g))
      /\ cmd_targetSensorId cmd <> 255) ->
  loop_receive hw g = LoopDone [RadioStartReceive] (received hw g).
Proof.
  intros Hflag parse_buf H. unfold loop_receive. rewrite Hflag. cbn [negb].
  unfold received in *. cbn [rx_buf mesh_router cfg_store tx_buf] in *.
  destruct (hw_read_ok hw) eqn:Hok; cbn [negb]; [|reflexivity].
  destruct H as [H|H]; [discriminate H|]. fold parse_buf.
  destruct (lss_detect_packet parse_buf) as [[]|] eqn:Hd; try reflexivity.
  destruct H as [H|H]; [contradiction|].
  destruct (mesh_router g) as [m|]; [|reflexivity].
  destruct (lss_deserialize_command parse_buf zero_command) as [ok cmd].
  cbn [fst snd] in H.
  destruct H as [->|[H1 H2]]; [reflexivity|].
  destruct (Z.eqb_spec (cmd_targetSensorId cmd) (nodeId (_cfg (cfg_store g))));
    [contradiction|].
  destruct (Z.eqb_spec (cmd_targetSensorId cmd) 255); [contradiction|].
  rewrite andb_false_r. reflexivity.
Qed.

(** The receive path hands a valid command for this node to
    [handle_command], with [tx_buf] for the acknowledgement. *)
Lemma loop_receive_handles hw g m cmd :
  rx_done_flag g = true -> hw_read_ok hw = true ->
  mesh_router g = Some m ->
  let parse_buf := parse_window (take (length (hw_packet hw)) (rx_buf (received hw g))) in
  lss_detect_packet parse_buf = Some PACKET_CONFIG ->
  lss_deserialize_command parse_buf zero_command = (true, cmd) ->
  cmd_targetSensorId cmd = nodeId (_cfg (cfg_store g))
  \/ cmd_targetSensorId cmd = 255 ->
  loop_receive hw g =
    match handle_command cmd (cfg_store g) m (tx_buf g) with
    | (Returned ack_len, buf, store, m') =>
        LoopDone
          ((if (0 <? ack_len)%nat
            then [RadioTransmit (take ack_len buf); RadioStartReceive]
            else []) ++ [RadioStartReceive])
          {| cfg_store := store; mesh_router := Some m';
             sensors := sensors g; last_tx_ms := last_tx_ms g;
             tx_buf := buf; rx_buf := rx_buf (received hw g);
             rx_done_flag := false; tx_done_flag := tx_done_flag g |}
    | (Restarted, _, store, _) => LoopRestart [] store
    end.
Proof.
  intros Hflag Hok Hm parse_buf Hd Hc Ht. unfold loop_receive.
  rewrite Hflag. cbn [negb]. subst parse_buf.
  unfold received in *.
  cbn [rx_buf mesh_router cfg_store tx_buf sensors last_tx_ms rx_done_flag
       tx_done_flag] in *.
  rewrite Hok in *. cbv iota in *. cbn [negb].
  rewrite Hd, Hm, Hc.
  assert (Hto : (cmd_targetSensorId cmd =? nodeId (_cfg (cfg_store g)))
                || (cmd_targetSensorId cmd =? 255) = true).
  { destruct Ht as [->| ->]; [rewrite Z.eqb_refl; reflexivity|].
    apply orb_true_r. }
  rewrite Hto. cbn [andb].
  destruct (handle_command cmd (cfg_store g) m (tx_buf g)) as [[[[n|] buf] store] m'];
    reflexivity.
Qed.

Lemma handle_command_checksum c crc store m buf :
  handle_command (command_with_checksum c crc) store m buf
  = handle_command c store m buf.
Proof. reflexivity. Qed.

Lemma length_command_frame c : length (command_frame c) = sizeof_CommandPacket.
Proof.
  unfold command_frame. rewrite length_app, length_command_body. reflexivity.
Qed.

Lemma detect_command_frame c :
  command_wf c = true ->
  lss_detect_packet (command_frame c)
  = if (cmd_commandType c =? CMD_ACK) || (cmd_commandType c =? CMD_NACK)
    then Some PACKET_ACK else Some PACKET_CONFIG.
Proof.
  intros Hwf. unfold command_wf in Hwf. rewrite !andb_true_iff in Hwf.
  destruct Hwf as [[[[[[[Hsync _] _] _] _] _] _] _].
  apply Z.eqb_eq in Hsync.
  rewrite detect_sync by (rewrite length_command_frame; unfold sizeof_CommandPacket; lia).
  rewrite length_command_frame.
  assert (H0 : rd16 (command_frame c) 0 = SYNC_COMMAND).
  { unfold command_frame, command_body. rewrite Hsync. reflexivity. }
  rewrite H0. reflexivity.
Qed.

Lemma deserialize_command_frame c out :
  command_wf c = true ->
  lss_deserialize_command (command_frame c) out
  = (true, command_with_checksum c (lss_crc16 (command_body c))).
Proof.
  intros Hwf.
  pose proof (command_round_trip c (replicate 255 0) out Hwf) as H.
  cbv zeta in H. destruct H as (H1 & H2 & _);
    [rewrite length_replicate; unfold sizeof_CommandPacket; lia|].
  rewrite H1 in H2.
  rewrite command_frame_shape in H2
    by (rewrite length_replicate; unfold sizeof_CommandPacket; lia).
  fold (command_frame c) in H2. rewrite H2. f_equal. f_equal. f_equal.
  rewrite length_command_frame. unfold command_frame.
  apply take_app_length'. rewrite length_command_body. reflexivity.
Qed.

(** A serialised command, bare or behind a four-byte RadioHead header,
    reaches [handle_command]. *)
Lemma loop_receive_command_frame hw g m c prefix :
  rx_done_flag g = true -> hw_read_ok hw = true ->
  mesh_router g = Some m ->
  length (rx_buf g) = 255%nat ->
  command_wf c = true ->
  cmd_commandType c <> CMD_ACK -> cmd_commandType c <> CMD_NACK ->
  cmd_targetSensorId c = nodeId (_cfg (cfg_store g))
  \/ cmd_targetSensorId c = 255 ->
  prefix = []
  \/ length prefix = 4%nat
     /\ lss_detect_packet (prefix ++ command_frame c) = None ->
  hw_packet hw = prefix ++ command_frame c ->
  loop_receive hw g =
    match handle_command c (cfg_store g) m (tx_buf g) with
    | (Returned ack_len, buf, store, m') =>
        LoopDone
          ((if (0 <? ack_len)%nat
            then [RadioTransmit (take ack_len buf); RadioStartReceive]
            else []) ++ [RadioStartReceive])
          {| cfg_store := store; mesh_router := Some m';
             sensors := sensors g; last_tx_ms := last_tx_ms g;
             tx_buf := buf; rx_buf := rx_buf (received hw g);
             rx_done_flag := false; tx_done_flag := tx_done_flag g |}
    | (Restarted, _, store, _) => LoopRestart [] store
    end.
Proof.
  intros Hflag Hok Hm Hrx Hwf Hna Hnn Ht Hpre Hpkt.
  assert (Hparse : parse_window (take (length (hw_packet hw)) (rx_buf (received hw g)))
                   = command_frame c).
  { unfold received. cbn [rx_buf]. rewrite Hok.
    rewrite rx_window; [|rewrite Hpkt, length_app, length_command_frame;
                          unfold sizeof_CommandPacket;
                          destruct Hpre as [->|[Hl _]]; [cbn [length]|rewrite Hl]; lia
                        |exact Hrx].
    rewrite Hpkt. unfold parse_window.
    destruct Hpre as [->|[Hl Hnone]].
    - cbn [app]. rewrite detect_command_frame by exact Hwf.
      destruct (_ || _); reflexivity.
    - rewrite Hnone, length_app, Hl, length_command_frame.
      cbn [Nat.ltb Nat.leb Nat.add sizeof_CommandPacket].
      rewrite <- Hl. apply drop_app_length. }
  rewrite <- (handle_command_checksum c (lss_crc16 (command_body c))).
  apply loop_receive_handles; try assumption.
  - rewrite Hparse, detect_command_frame by exact Hwf.
    destruct (Z.eqb_spec (cmd_commandType c) CMD_ACK); [contradiction|].
    destruct (Z.eqb_spec (cmd_commandType c) CMD_NACK); [contradiction|].
    reflexivity.
  - rewrite Hparse. apply deserialize_command_frame, Hwf.
Qed.

Lemma rd16_prefix (h rest : list Z) :
  length h = 4%nat -> rd16 (h ++ rest) 0 = rd16 h 0.
Proof.
  intros Hl. do 4 (destruct h as [|? h]; [discriminate Hl|]). reflexivity.
Qed.

(** Detection at offset 0 of a command behind a four-byte header looks at
    the header only. *)
Lemma detect_behind_header h c :
  length h = 4%nat ->
  lss_detect_packet (h ++ command_frame c)
  = if rd16 h 0 =? SYNC_LEGACY then Some PACKET_LEGACY
    else if rd16 h 0 =? SYNC_MULTI_SENSOR then Some PACKET_MULTI_SENSOR
    else if rd16 h 0 =? SYNC_COMMAND then
      if (rd8 h 2 =? CMD_ACK) || (rd8 h 2 =? CMD_NACK)
      then Some PACKET_ACK else Some PACKET_CONFIG
    else None.
Proof.
  intros Hl.
  assert (Hlen : length (h ++ command_frame c) = 205%nat)
    by (rewrite length_app, Hl, length_command_frame; reflexivity).
  rewrite detect_sync by lia. rewrite Hlen, rd16_prefix by exact Hl.
  assert (H2 : rd8 (h ++ command_frame c) 2 = rd8 h 2).
  { do 4 (destruct h as [|? h]; [discriminate Hl|]). reflexivity. }
  rewrite H2. cbn [Nat.leb sizeof_SensorDataLegacy]. rewrite andb_true_r.
  reflexivity.
Qed.

(** X25. A valid command frame addressed to the node or broadcast that
    does not restart the node, received bare or behind a four-byte
    RadioHead header.  Unless the first two bytes of the header read as one
    of the three sync words, the command is applied by [handle_command] and
    answered at once: the receive path of [loop] transmits the ACK or NACK
    frame that carries the node id and the sequence number of the command,
    and goes back to receiving.  Behind a header that reads as the legacy
    or the telemetry sync word the command is dropped: it is not applied
    and nothing is transmitted. *)
Theorem loop_receive_answers_command
    (hw : Hardware) (g : Globals) (m : MeshRouter) (c : CommandPacket)
    (prefix : list Z) :
  rx_done_flag g = true -> hw_read_ok hw = true ->
  mesh_router g = Some m ->
  length (rx_buf g) = 255%nat -> length (tx_buf g) = 255%nat ->
  command_wf c = true ->
  cmd_commandType c <> CMD_ACK -> cmd_commandType c <> CMD_NACK ->
  cmd_targetSensorId c = nodeId (_cfg (cfg_store g))
  \/ cmd_targetSensorId c = 255 ->
  prefix = [] \/ length prefix = 4%nat ->
  hw_packet hw = prefix ++ command_frame c ->
  command_restarts c = false ->
  let r := handle_command c (cfg_store g) m (tx_buf g) in
  (starts_with_sync prefix = false ->
   exists g',
     loop_receive hw g
     = LoopDone
         [RadioTransmit
            (ack_frame (if command_acknowledged c then CMD_ACK else CMD_NACK)
                       (nodeId (_cfg (cfg_store g))) (cmd_sequenceNumber c)
                       (if command_acknowledged c then 0 else 1));
          RadioStartReceive; RadioStartReceive] g'
     /\ cfg_store g' = r.1.2
     /\ mesh_router g' = Some r.2
     /\ rx_done_flag g' = false)
  /\ (rd16 prefix 0 = SYNC_LEGACY \/ rd16 prefix 0 = SYNC_MULTI_SENSOR ->
      loop_receive hw g = LoopDone [RadioStartReceive] (received hw g)
      /\ cfg_store (received hw g) = cfg_store g
      /\ mesh_router (received hw g) = mesh_router g).
Proof.
  intros Hflag Hok Hm Hrx Htx Hwf Hna Hnn Ht Hpre Hpkt Hnr r. split.
  - intros Hns.
    assert (Hpre' : prefix = []
                    \/ length prefix = 4%nat
                       /\ lss_detect_packet (prefix ++ command_frame c) = None).
    { destruct Hpre as [->|Hl]; [left; reflexivity|right]. split; [exact Hl|].
      rewrite detect_behind_header by exact Hl.
      unfold starts_with_sync in Hns. rewrite !orb_false_iff in Hns.
      destruct Hns as [[-> ->] ->]. reflexivity. }
    rewrite (loop_receive_command_frame hw g m c prefix) by assumption.
    assert (Hfit : (sizeof_AckPacket <= length (tx_buf g))%nat)
      by (rewrite Htx; unfold sizeof_AckPacket; lia).
    destruct (handle_command_cases c (cfg_store g) m (tx_buf g) Hfit Hnr)
      as (store' & mesh' & Hrun & _).
    unfold r. rewrite Hrun. cbn [fst snd].
    rewrite (take_app_length' (ack_frame _ _ _ _)) by reflexivity.
    eexists. split; [reflexivity|]. cbn [cfg_store mesh_router rx_done_flag].
    repeat split; reflexivity.
  - intros Hsync. split; [|split; reflexivity].
    assert (Hl : length prefix = 4%nat).
    { destruct Hpre as [->|Hl]; [|exact Hl].
      destruct Hsync as [H|H]; discriminate H. }
    apply loop_receive_drops; [exact Hflag|]. right. left.
    unfold received. cbn [rx_buf]. rewrite Hok.
    rewrite rx_window; [|rewrite Hpkt, length_app, length_command_frame, Hl;
                          unfold sizeof_CommandPacket; lia|exact Hrx].
    rewrite Hpkt.
    assert (Hd : lss_detect_packet (prefix ++ command_frame c) = Some PACKET_LEGACY
                 \/ lss_detect_packet (prefix ++ command_frame c)
                    = Some PACKET_MULTI_SENSOR).
    { rewrite detect_behind_header by exact Hl.
      destruct Hsync as [-> | ->]; [left|right]; reflexivity. }
    unfold parse_window.
    destruct Hd as [Hd|Hd]; rewrite Hd; rewrite Hd; discriminate.
Qed.

(** X26. For [CMD_RESTART] and [CMD_FACTORY_RESET] the node reboots inside
    [handle_command]: the acknowledgement it wrote to [tx_buf] is never
    transmitted, and [loop] makes no radio call at all.  The flash is as
    before for a restart and as [factory_reset] leaves it for a factory
    reset. *)
Theorem loop_receive_restart_sends_no_ack
    (hw : Hardware) (g : Globals) (m : MeshRouter) (c : CommandPacket)
    (prefix : list Z) :
  rx_done_flag g = true -> hw_read_ok hw = true ->
  mesh_router g = Some m ->
  length (rx_buf g) = 255%nat ->
  command_wf c = true ->
  cmd_targetSensorId c = nodeId (_cfg (cfg_store g))
  \/ cmd_targetSensorId c = 255 ->
  prefix = []
  \/ length prefix = 4%nat
     /\ lss_detect_packet (prefix ++ command_frame c) = None ->
  hw_packet hw = prefix ++ command_frame c ->
  command_restarts c = true ->
  loop hw g
  = LoopRestart []
      (if cmd_commandType c =? CMD_FACTORY_RESET
       then factory_reset (cfg_store g) else cfg_store g).
Proof.
  intros Hflag Hok Hm Hrx Hwf Ht Hpre Hpkt Hr.
  unfold command_restarts in Hr.
  assert (Hty : cmd_commandType c = CMD_RESTART \/ cmd_commandType c = CMD_FACTORY_RESET).
  { apply orb_true_iff in Hr as [H|H]; apply Z.eqb_eq in H; auto. }
  unfold loop.
  rewrite (loop_receive_command_frame hw g m c prefix); try assumption;
    try (destruct Hty as [-> | ->]; discriminate).
  unfold handle_command. cbv zeta.
  destruct Hty as [-> | ->];
    cbn [Z.eqb Pos.eqb orb CMD_PING CMD_GET_CONFIG CMD_SET_INTERVAL CMD_SET_LOCATION
         CMD_SET_TEMP_THRESH CMD_SET_BATTERY_THRESH CMD_SET_MESH_CONFIG
         CMD_RESTART CMD_FACTORY_RESET];
    destruct (lss_build_ack _ _ _ _ _); reflexivity.
Qed.

(** ** What [loop] never does with mesh frames *)


(** ** The state [setup] leaves and [loop] keeps *)

Lemma forallb_u8_replicate n : forallb is_u8 (replicate n 0) = true.
Proof.
  apply forallb_forall. intros x Hx. apply list_elem_of_In in Hx.
  apply elem_of_replicate in Hx as [-> _]. reflexivity.
Qed.

Lemma forallb_drop {A} (f : A -> bool) n l :
  forallb f l = true -> forallb f (drop n l) = true.
Proof.
  intros H. apply forallb_forall. intros x Hx.
  rewrite forallb_forall in H. apply H.
  apply list_elem_of_In. apply list_elem_of_In in Hx.
  exact (subseteq_drop n l x Hx).
Qed.

Lemma forallb_u8_fixed n l : forallb is_u8 l = true -> forallb is_u8 (fixed n l) = true.
Proof.
  intros H. unfold fixed. apply forallb_take.
  rewrite forallb_app, H. apply forallb_u8_replicate.
Qed.

Lemma is_array_copy_string n dst src :
  (0 < n)%nat -> forallb is_u8 src = true ->
  is_array n (copy_string n dst src) = true.
Proof.
  intros Hn Hs. rewrite copy_string_bytes by exact Hn.
  unfold is_array. apply andb_true_iff. split.
  - apply Nat.eqb_eq. rewrite length_app, length_strncpy_bytes. cbn [length]. lia.
  - unfold strncpy_bytes. rewrite !forallb_app.
    rewrite (forallb_take _ _ _ Hs), forallb_u8_replicate. reflexivity.
Qed.

Lemma set_location_wf pkt c :
  forallb is_u8 (cmd_data pkt) = true ->
  config_wf c = true -> config_wf (set_location pkt c) = true.
Proof.
  intros Hd Hc. unfold config_wf in *. rewrite !andb_true_iff in *.
  destruct Hc as [[[Hn Hw] Hl] Hz].
  pose proof (forallb_u8_fixed 192 _ Hd) as Hf.
  unfold set_location. cbv zeta.
  destruct (_ && _);
    cbn [nodeId networkId location zone with_zone with_location];
    repeat split; try assumption;
    apply is_array_copy_string;
    try (unfold LOCATION_MAXLEN, ZONE_MAXLEN; lia);
    try apply forallb_drop; exact Hf.
Qed.

(** What the router keeps through [wrap] and [tick]. *)
Lemma wrap_keeps d payload buf m :
  let m' := (wrap d payload buf m).2 in
  _routes m' = _routes m /\ _node_id m' = _node_id m /\ _enabled m' = _enabled m
  /\ length (wrap d payload buf m).1.2 = length buf.
Proof.
  unfold wrap. destruct (Nat.ltb_spec (length buf) (sizeof_MeshHeader + length payload)).
  - repeat split; reflexivity.
  - cbn [_next_seq fst snd _routes _node_id _enabled]. repeat split.
    rewrite length_memcpy; rewrite length_memcpy; cbn [length meshheader_bytes le16 app];
      unfold sizeof_MeshHeader in *; lia.
Qed.

Lemma tick_keeps now buf m :
  let m' := (tick now buf m).2 in
  _routes m' = _routes (evict_stale_routes now m)
  /\ _node_id m' = _node_id m /\ _enabled m' = _enabled m.
Proof. unfold tick. case_ifs; repeat split; reflexivity. Qed.

Lemma no_valid_route_evict now m :
  forallb (fun r => negb (re_valid r)) (_routes m) = true ->
  forallb (fun r => negb (re_valid r)) (_routes (evict_stale_routes now m)) = true.
Proof.
  intros H. rewrite evict_routes. rewrite forallb_forall in *.
  intros r Hr. apply list_elem_of_In, list_elem_of_fmap in Hr as (r0 & -> & Hr0).
  apply list_elem_of_In in Hr0. specialize (H r0 Hr0).
  rewrite evicted_valid. destruct (re_valid r0); [discriminate H|reflexivity].
Qed.

Lemma length_serialize_multi_sensor p buf :
  length (lss_serialize_multi_sensor p buf).2 = length buf.
Proof.
  destruct (Nat.ltb_spec (length buf) (lss_multi_sensor_size p)) as [Hs|Hf].
  - unfold lss_serialize_multi_sensor.
    destruct (Nat.ltb_spec (length buf) (lss_multi_sensor_size p)); [reflexivity|lia].
  - rewrite serialize_multi_sensor_fits by exact Hf. cbn [snd].
    rewrite !length_app, length_drop. pose proof (length_frame_body p).
    cbn [length le16]. lia.
Qed.

(** What [transmit_telemetry] leaves of the globals. *)
Lemma transmit_telemetry_keeps hw s t g :
  let g' := (transmit_telemetry hw s t g).2 in
  cfg_store g' = cfg_store g /\ rx_buf g' = rx_buf g
  /\ length (tx_buf g') = length (tx_buf g)
  /\ match mesh_router g with
     | Some m => exists m', mesh_router g' = Some m'
                            /\ _routes m' = _routes m
                            /\ _node_id m' = _node_id m
                            /\ _enabled m' = _enabled m
     | None => mesh_router g' = None
     end.
Proof.
  unfold transmit_telemetry.
  destruct (collect_values _ _ _ _ _) as [[ss vals] vcount].
  set (pkt := telemetry_packet _ _ _ _ _ _).
  destruct (meshEnabled (_cfg (cfg_store g))).
  - destruct (mesh_router g) as [m|] eqn:Hm.
    + destruct (lss_serialize_multi_sensor pkt (replicate 255 0)) as [pay_len payload].
      destruct (pay_len =? 0)%nat.
      * cbn [snd set_sensors_tx cfg_store rx_buf tx_buf mesh_router].
        repeat split. exists m. auto.
      * pose proof (wrap_keeps 0 (take pay_len payload) (tx_buf g) m) as Hw.
        cbv zeta in Hw.
        destruct (wrap 0 (take pay_len payload) (tx_buf g) m) as [[raw_len buf] m'].
        cbn [fst snd] in Hw. destruct Hw as (H1 & H2 & H3 & H4).
        cbn [snd set_sensors_tx cfg_store rx_buf tx_buf mesh_router].
        repeat split; [exact H4|]. exists m'. auto.
    + pose proof (length_serialize_multi_sensor pkt (tx_buf g)) as Hl.
      destruct (lss_serialize_multi_sensor pkt (tx_buf g)) as [raw_len buf].
      cbn [snd set_sensors_tx cfg_store rx_buf tx_buf mesh_router] in *.
      repeat split. exact Hl.
  - pose proof (length_serialize_multi_sensor pkt (tx_buf g)) as Hl.
    destruct (lss_serialize_multi_sensor pkt (tx_buf g)) as [raw_len buf].
    cbn [snd set_sensors_tx cfg_store rx_buf tx_buf mesh_router] in *.
    repeat split; [exact Hl|]. destruct (mesh_router g) as [m|]; [|reflexivity].
    exists m. auto.
Qed.

(** The parts of [node_ok]. *)
Lemma node_ok_spec g :
  node_ok g = true <->
  exists m, mesh_router g = Some m
    /\ config_wf (_cfg (cfg_store g)) = true
    /\ _enabled m = meshEnabled (_cfg (cfg_store g))
    /\ _node_id m = nodeId (_cfg (cfg_store g))
    /\ router_wf m = true
    /\ forallb (fun r => negb (re_valid r)) (_routes m) = true
    /\ is_array 255 (rx_buf g) = true
    /\ length (tx_buf g) = 255%nat.
Proof.
  unfold node_ok. destruct (mesh_router g) as [m|].
  - rewrite !andb_true_iff, eqb_true_iff, Z.eqb_eq, Nat.eqb_eq. split.
    + intros [[[[[[H1 H2] H3] H4] H5] H6] H7]. exists m. repeat split; assumption.
    + intros (m' & Hm & H1 & H2 & H3 & H4 & H5 & H6 & H7).
      injection Hm as <-. repeat split; assumption.
  - split; [discriminate|]. intros (m & Hm & _). discriminate Hm.
Qed.

Lemma received_rx_array hw g :
  is_array 255 (rx_buf g) = true ->
  forallb is_u8 (hw_packet hw) = true ->
  is_array 255 (rx_buf (received hw g)) = true.
Proof.
  intros Hrx Hp. unfold received. cbn [rx_buf].
  destruct (hw_read_ok hw); [|exact Hrx].
  pose proof (is_array_length _ _ Hrx) as Hl.
  unfold is_array in *. apply andb_true_iff in Hrx as [_ Hb].
  apply andb_true_iff. split.
  - apply Nat.eqb_eq. rewrite memcpy_at_start, length_app, length_drop, length_take. lia.
  - rewrite memcpy_at_start, forallb_app.
    rewrite (forallb_take _ _ _ Hp), (forallb_drop _ _ _ Hb). reflexivity.
Qed.

Lemma node_ok_received hw g :
  node_ok g = true -> forallb is_u8 (hw_packet hw) = true ->
  node_ok (received hw g) = true.
Proof.
  rewrite !node_ok_spec. intros (m & Hm & H1 & H2 & H3 & H4 & H5 & H6 & H7) Hp.
  exists m. repeat split; try assumption. apply received_rx_array; assumption.
Qed.

Lemma deserialize_command_bytes buf out cmd :
  lss_deserialize_command buf out = (true, cmd) -> cmd = command_of_bytes buf.
Proof.
  unfold lss_deserialize_command. cbv zeta. case_ifs; intros H;
    try discriminate H. injection H as <-. reflexivity.
Qed.

Lemma restart_outcome pkt store mesh buf :
  command_restarts pkt = true ->
  (handle_command pkt store mesh buf).1.1.1 = Restarted.
Proof.
  unfold command_restarts. intros H.
  assert (Hty : cmd_commandType pkt = CMD_RESTART \/ cmd_commandType pkt = CMD_FACTORY_RESET).
  { apply orb_true_iff in H as [H|H]; apply Z.eqb_eq in H; auto. }
  unfold handle_command. cbv zeta.
  destruct Hty as [-> | ->];
    cbn [Z.eqb Pos.eqb orb CMD_PING CMD_GET_CONFIG CMD_SET_INTERVAL CMD_SET_LOCATION
         CMD_SET_TEMP_THRESH CMD_SET_BATTERY_THRESH CMD_SET_MESH_CONFIG
         CMD_RESTART CMD_FACTORY_RESET];
    destruct (lss_build_ack _ _ _ _ _); reflexivity.
Qed.

Lemma parse_window_bytes frame :
  forallb is_u8 frame = true -> forallb is_u8 (parse_window frame) = true.
Proof.
  intros H. unfold parse_window. destruct (lss_detect_packet frame); [exact H|].
  destruct (_ <? _)%nat; [apply forallb_drop|]; exact H.
Qed.

Lemma loop_receive_ok hw g calls g' :
  node_ok g = true -> forallb is_u8 (hw_packet hw) = true ->
  loop_receive hw g = LoopDone calls g' -> node_ok g' = true.
Proof.
  intros Hok Hp Hrun.
  destruct (rx_done_flag g) eqn:Hflag.
  2:{ rewrite loop_receive_idle in Hrun by exact Hflag.
      injection Hrun as _ <-. exact Hok. }
  pose proof (node_ok_received hw g Hok Hp) as Hrec.
  set (parse_buf := parse_window (take (length (hw_packet hw)) (rx_buf (received hw g)))).
  assert (Hdrop : hw_read_ok hw = false
            \/ lss_detect_packet parse_buf <> Some PACKET_CONFIG
            \/ (lss_deserialize_command parse_buf zero_command).1 = false
            \/ (let cmd := (lss_deserialize_command parse_buf zero_command).2 in
                cmd_targetSensorId cmd <> nodeId (_cfg (cfg_store g))
                /\ cmd_targetSensorId cmd <> 255) ->
          node_ok g' = true).
  { intros H. rewrite (loop_receive_drops hw g Hflag H) in Hrun.
    injection Hrun as _ <-. exact Hrec. }
  destruct (hw_read_ok hw) eqn:Hread; [|apply Hdrop; left; reflexivity].
  destruct (lss_detect_packet parse_buf) as [[]|] eqn:Hd;
    try (apply Hdrop; right; left; discriminate).
  destruct (lss_deserialize_command parse_buf zero_command) as [ok cmd] eqn:Hc.
  destruct ok; [|apply Hdrop; right; right; left; reflexivity].
  destruct (Z.eq_dec (cmd_targetSensorId cmd) (nodeId (_cfg (cfg_store g)))) as [Ht|Ht];
    [|destruct (Z.eq_dec (cmd_targetSensorId cmd) 255) as [Ht'|Ht'];
      [|apply Hdrop; right; right; right; cbn [snd]; split; assumption]].
  all: clear Hdrop.
  all: apply node_ok_spec in Hok as (m & Hm & H1 & H2 & H3 & H4 & H5 & H6 & H7).
  all: rewrite (loop_receive_handles hw g m cmd Hflag Hread Hm Hd Hc) in Hrun by auto.
  all: destruct (command_restarts cmd) eqn:Hr;
    [pose proof (restart_outcome cmd (cfg_store g) m (tx_buf g) Hr) as Ho;
     destruct (handle_command cmd (cfg_store g) m (tx_buf g)) as [[[o buf] st] m'];
     cbn [fst snd] in Ho; subst o; discriminate Hrun|].
  all: assert (Hfit : (sizeof_AckPacket <= length (tx_buf g))%nat)
    by (rewrite H7; unfold sizeof_AckPacket; lia).
  all: destruct (handle_command_cases cmd (cfg_store g) m (tx_buf g) Hfit Hr)
    as (store' & mesh' & Hh & _ & Hcases).
  all: rewrite Hh in Hrun; injection Hrun as _ <-.
  all: assert (Hdata : forallb is_u8 (cmd_data cmd) = true)
    by (rewrite (deserialize_command_bytes _ _ _ Hc); cbn [cmd_data command_of_bytes];
        apply forallb_take, forallb_drop, parse_window_bytes, forallb_take;
        apply (is_array_bytes 255);
        apply node_ok_spec in Hrec as (? & _ & _ & _ & _ & _ & _ & Hrx & _);
        exact Hrx).
  all: apply node_ok_spec; cbn [mesh_router cfg_store rx_buf tx_buf].
  all: exists mesh'; split; [reflexivity|].
  all: assert (Hrx' : is_array 255 (rx_buf (received hw g)) = true)
    by (apply node_ok_spec in Hrec as (? & _ & _ & _ & _ & _ & _ & Hrx & _); exact Hrx).
  all: assert (Htx' : length (ack_frame (if command_acknowledged cmd then CMD_ACK else CMD_NACK)
                               (nodeId (_cfg (cfg_store g))) (cmd_sequenceNumber cmd)
                               (if command_acknowledged cmd then 0 else 1)
                             ++ drop sizeof_AckPacket (tx_buf g)) = 255%nat)
    by (rewrite length_app, length_drop, H7; reflexivity).
  all: destruct Hcases as [[-> ->]|(c' & -> & Hn & Hw & Hloc & Hmesh)];
    [repeat split; assumption|].
  all: rewrite save_cfg; cbn [_cfg set_cfg].
  all: assert (Hwf' : config_wf c' = true)
    by (destruct Hloc as [[Hl Hz]| ->];
        [unfold config_wf in *; rewrite Hn, Hw, Hl, Hz; exact H1
        |apply set_location_wf; assumption]).
  all: destruct Hmesh as [[Hme ->]|[Hme ->]];
    cbn [_enabled _node_id _routes set_enabled router_wf];
    repeat split; try assumption; congruence.
Qed.

Lemma loop_telemetry_ok hw g :
  node_ok g = true -> node_ok (loop_telemetry hw g).2 = true.
Proof.
  rewrite !node_ok_spec. intros (m & Hm & H1 & H2 & H3 & H4 & H5 & H6 & H7).
  unfold loop_telemetry. cbn [cfg_store last_tx_ms].
  destruct (_ >=? _).
  - set (g1 := {| cfg_store := cfg_store g; last_tx_ms := hw_now hw |}).
    pose proof (transmit_telemetry_keeps hw 0 0 g1) as Hk. cbv zeta in Hk.
    destruct (transmit_telemetry hw 0 0 g1) as [calls' g2].
    cbn [snd fst] in *. destruct Hk as (K1 & K2 & K3 & K4).
    change (mesh_router g1) with (mesh_router g) in K4. rewrite Hm in K4.
    destruct K4 as (m' & Hm' & R1 & R2 & R3).
    exists m'. rewrite K1, K2, K3. cbn [cfg_store rx_buf tx_buf g1].
    unfold router_wf in *. rewrite R1, R2, R3. repeat split; assumption.
  - cbn [snd mesh_router cfg_store rx_buf tx_buf]. exists m.
    repeat split; assumption.
Qed.

Lemma loop_beacon_ok hw g :
  node_ok g = true -> node_ok (loop_beacon hw g).2 = true.
Proof.
  intros Hok. pose proof Hok as Hok'.
  apply node_ok_spec in Hok' as (m & Hm & H1 & H2 & H3 & H4 & H5 & H6 & H7).
  unfold loop_beacon. rewrite Hm.
  destruct (meshEnabled (_cfg (cfg_store g))) eqn:Hme; [|exact Hok].
  pose proof (tick_keeps (hw_tick_now hw) (replicate sizeof_MeshHeader 0) m) as Hk.
  cbv zeta in Hk.
  destruct (tick (hw_tick_now hw) (replicate sizeof_MeshHeader 0) m) as [[blen beacon] m'].
  cbn [fst snd] in *. destruct Hk as (R1 & R2 & R3).
  apply node_ok_spec. cbn [set_sensors_tx mesh_router cfg_store rx_buf tx_buf].
  exists m'. unfold router_wf in *. rewrite R1, R2, R3, Hme.
  repeat split; try assumption.
  - rewrite evict_routes, length_map. exact H4.
  - apply no_valid_route_evict, H5.
Qed.

(** X28. The state [loop] keeps.  If the router carries the node id and
    the mesh flag of the configuration and holds no valid route, and the
    configuration and the buffers have their C types, then this is so again
    after every pass of [loop] that returns, whatever was received: the
    firmware never learns a route. *)
Theorem loop_keeps_node_ok
    (hw : Hardware) (g : Globals) (calls : list RadioCall) (g' : Globals) :
  node_ok g = true ->
  forallb is_u8 (hw_packet hw) = true ->
  loop hw g = LoopDone calls g' ->
  node_ok g' = true
  /\ nodeId (_cfg (cfg_store g')) = nodeId (_cfg (cfg_store g))
  /\ forall m' dest_id, mesh_router g' = Some m' -> next_hop_for m' dest_id = 255.
Proof.
  intros Hok Hp Hrun. unfold loop in Hrun.
  destruct (loop_receive hw g) as [calls1 g1|] eqn:Hrx; [|discriminate Hrun].
  pose proof (loop_receive_ok hw g calls1 g1 Hok Hp Hrx) as Hok1.
  pose proof (loop_telemetry_ok hw g1 Hok1) as Hok2.
  assert (Hid2 : cfg_store (loop_telemetry hw g1).2 = cfg_store g1).
  { unfold loop_telemetry. destruct (_ >=? _); [|reflexivity].
    match goal with
    | |- context [transmit_telemetry hw 0 0 ?x] =>
        pose proof (transmit_telemetry_keeps hw 0 0 x) as Hk; cbv zeta in Hk;
        destruct (transmit_telemetry hw 0 0 x) as [c2 g3]
    end.
    cbn [snd] in *. destruct Hk as (K1 & _). exact K1. }
  destruct (loop_telemetry hw g1) as [calls2 g2]. cbn [snd] in Hok2, Hid2.
  pose proof (loop_beacon_ok hw g2 Hok2) as Hok3.
  assert (Hid3 : cfg_store (loop_beacon hw g2).2 = cfg_store g2).
  { unfold loop_beacon. destruct (mesh_router g2); [|reflexivity].
    destruct (meshEnabled _); [|reflexivity].
    destruct (tick _ _ _) as [[? ?] ?]. reflexivity. }
  destruct (loop_beacon hw g2) as [calls3 g3]. cbn [snd] in Hok3, Hid3.
  injection Hrun as _ <-. split; [exact Hok3|]. split.
  - rewrite Hid3, Hid2.
    (* the receive path keeps the node id *)
    pose proof Hok1 as Hg1. clear -Hrx Hg1.
    unfold loop_receive in Hrx.
    destruct (rx_done_flag g); cbn [negb] in Hrx;
      [|injection Hrx as _ <-; reflexivity].
    destruct (hw_read_ok hw); cbn [negb] in Hrx;
      [|injection Hrx as _ <-; reflexivity].
    cbn [mesh_router cfg_store tx_buf rx_buf] in Hrx.
    destruct (lss_detect_packet _) as [[]|];
      try (injection Hrx as _ <-; reflexivity).
    destruct (mesh_router g) as [m0|]; [|injection Hrx as _ <-; reflexivity].
    destruct (lss_deserialize_command _ _) as [ok cmd].
    destruct (ok && _); [|injection Hrx as _ <-; reflexivity].
    destruct (command_restarts cmd) eqn:Hr.
    + pose proof (restart_outcome cmd (cfg_store g) m0 (tx_buf g) Hr) as Ho.
      destruct (handle_command cmd (cfg_store g) m0 (tx_buf g)) as [[[o buf] st] m'].
      cbn [fst snd] in Ho. subst o. discriminate Hrx.
    + destruct (handle_command cmd (cfg_store g) m0 (tx_buf g))
        as [[[o buf] st] m'] eqn:Hh.
      destruct o as [n|]; [|discriminate Hrx]. injection Hrx as _ <-.
      cbn [cfg_store].
      destruct (Nat.le_gt_cases sizeof_AckPacket (length (tx_buf g))) as [Hfit|Hsmall].
      * pose proof (handle_command_cases cmd (cfg_store g) m0 (tx_buf g) Hfit Hr)
          as (store' & mesh' & Hh' & _ & Hcases).
        rewrite Hh in Hh'. injection Hh' as _ _ <- _.
        destruct Hcases as [[-> _]|(c' & -> & Hn' & _)]; [reflexivity|].
        rewrite save_cfg. exact Hn'.
      * exfalso. cbn [tx_buf] in *.
        apply node_ok_spec in Hg1 as (? & _ & _ & _ & _ & _ & _ & _ & Htx).
        cbn [tx_buf] in Htx.
        pose proof (handle_command_small_ack_buffer cmd (cfg_store g) m0 (tx_buf g) Hsmall)
          as Hs. cbv zeta in Hs. rewrite Hh in Hs. cbn [fst snd] in Hs.
        destruct Hs as [_ ->]. unfold sizeof_AckPacket in Hsmall. lia.
  - intros m' d Hm'. apply node_ok_spec in Hok3 as (m3 & Hm3 & _ & _ & _ & _ & Hnv & _).
    rewrite Hm' in Hm3. injection Hm3 as <-.
    unfold next_hop_for.
    assert (Hnone : _find_route m' d = -1).
    { unfold _find_route. generalize 0 as i. revert Hnv.
      induction (_routes m') as [|r rs IH]; intros Hnv i; [reflexivity|].
      cbn [forallb] in Hnv. apply andb_true_iff in Hnv as [Hr Hrs].
      cbn [find_route_from]. destruct (re_valid r); [discriminate Hr|].
      cbn [andb]. apply IH, Hrs. }
    rewrite Hnone. reflexivity.
Qed.

Lemma announce_command_wf cfg :
  config_wf cfg = true -> command_wf (announce_command cfg) = true.
Proof.
  unfold config_wf, command_wf, announce_command. rewrite !andb_true_iff.
  intros [[[Hn _] _] _].
  cbn [cmd_syncWord cmd_commandType cmd_targetSensorId cmd_sequenceNumber
       cmd_dataLength cmd_pad cmd_data cmd_checksum].
  rewrite Hn. repeat split; reflexivity.
Qed.

Lemma begin_sensors_spec begin ss : forall i,
  if has_null_slot ss then begin_sensors begin i ss = None
  else exists ss', begin_sensors begin i ss = Some ss' /\ length ss' = length ss.
Proof.
  induction ss as [|[s|] ss IH]; intros i.
  - exists []. split; reflexivity.
  - cbn [has_null_slot existsb orb begin_sensors]. fold (has_null_slot ss).
    specialize (IH (S i)). destruct (has_null_slot ss).
    + rewrite IH. reflexivity.
    + destruct IH as (ss' & -> & Hl). eexists. split; [reflexivity|].
      cbn [length]. rewrite Hl. reflexivity.
  - reflexivity.
Qed.

Lemma int8_of_range x : -128 <= int8_of x <= 127.
Proof.
  unfold int8_of. pose proof (Z.mod_pos_bound x 256 ltac:(lia)).
  destruct (Z.ltb_spec (x mod 256) 128); lia.
Qed.

(** X29. [setup] does not return when a sensor slot in use holds a null
    pointer: [sensors[i]->begin()] goes through it.  Otherwise it brings the
    node up in the state that [loop] keeps: it configures the radio from
    the loaded configuration, with the sync word [0x12 + networkId mod 244]
    cut to eight bits and the transmit power read as a signed byte, starts
    receiving and transmits one [CMD_SENSOR_ANNOUNCE] frame that names the
    node id and parses as a command.  On a first boot, when the namespace
    does not open for reading, the configuration is the default one. *)
Theorem setup_establishes_node_ok
    (ro_ok : bool) (begin : nat -> SensorBase -> SensorBase) (g : Globals)
    (out : CommandPacket) :
  length (tx_buf g) = 255%nat ->
  is_array 255 (rx_buf g) = true ->
  config_wf (_cfg (load ro_ok (cfg_store g)).2) = true ->
  let cfg := _cfg (load ro_ok (cfg_store g)).2 in
  let sync_word := (0x12 + networkId cfg mod 244) mod 256 in
  let power := int8_of (loraTxPower cfg) in
  let announce := command_frame (announce_command cfg) in
  (has_null_slot (sensors g) = true -> setup ro_ok begin g = None)
  /\ (has_null_slot (sensors g) = false ->
      exists g',
        setup ro_ok begin g
        = Some ([RadioBegin (loraFrequency cfg) (loraSpreadingFactor cfg)
                            sync_word power;
                 RadioSetDio1Action; RadioStartReceive; RadioTransmit announce],
                g')
        /\ node_ok g' = true
        /\ _cfg (cfg_store g') = cfg
        /\ length (sensors g') = length (sensors g))
  /\ (ro_ok = false -> cfg = _cfg default_store)
  /\ 0 <= sync_word < 256 /\ -128 <= power <= 127
  /\ lss_deserialize_command announce out
     = (true, command_with_checksum (announce_command cfg)
                (lss_crc16 (command_body (announce_command cfg)))).
Proof.
  intros Htx Hrx Hwf cfg sync_word power announce.
  set (store := (load ro_ok (cfg_store g)).2) in *.
  assert (Hfit : (sizeof_CommandPacket <= length (tx_buf g))%nat)
    by (rewrite Htx; unfold sizeof_CommandPacket; lia).
  pose proof (begin_sensors_spec begin (sensors g) 0) as Hb.
  split; [|split; [|split; [|split; [|split]]]].
  - intros Hnull. rewrite Hnull in Hb. unfold setup. cbv zeta. rewrite Hb.
    reflexivity.
  - intros Hnull. rewrite Hnull in Hb. destruct Hb as (ss & Hb & Hlen).
    unfold setup, send_announce. cbv zeta. fold store. rewrite Hb.
    cbn [cfg_store tx_buf sensors mesh_router].
    rewrite serialize_command_fits by exact Hfit.
    cbn [Nat.ltb Nat.leb sizeof_CommandPacket app set_sensors_tx cfg_store
         mesh_router last_tx_ms rx_buf rx_done_flag tx_done_flag].
    fold cfg. fold (command_frame (announce_command cfg)).
    rewrite (app_assoc (command_body _)).
    fold (command_frame (announce_command cfg)).
    rewrite (take_app_length' (command_frame _))
      by (symmetry; apply length_command_frame).
    eexists. split; [reflexivity|].
    cbn [cfg_store sensors]. split; [|split; [reflexivity|exact Hlen]].
    apply node_ok_spec.
    cbn [mesh_router cfg_store rx_buf tx_buf]. eexists. split; [reflexivity|].
    cbn [_enabled _node_id _routes MeshRouter_new].
    repeat split; try assumption; try reflexivity.
    cbn [tx_buf set_sensors_tx].
    rewrite length_app, length_command_frame, length_drop, Htx. reflexivity.
  - intros ->. unfold cfg, store, load. cbn [negb].
    rewrite save_cfg. cbn [_cfg set_cfg]. apply fill_defaults_const.
  - unfold sync_word. apply Z.mod_pos_bound. lia.
  - apply int8_of_range.
  - apply deserialize_command_frame, announce_command_wf, Hwf.
Qed.

(** ** The further theorems at concrete inputs *)

Lemma router_invariant_witness :
  let cs := [(1000, CallReceive (mesh_frame MESH_NEIGHBOR_BEACON 5 255 0 1 []));
             (2000, CallUpdateRoute 7 4 3);
             (31000, CallTick (replicate 9 0));
             (700000, CallEvictStaleRoutes)] in
  table_ok (calls cs two_route_router) = true
  /\ _node_id (calls cs two_route_router) = _node_id two_route_router.
Proof.
  apply (router_invariant _ two_route_router). vm_compute. reflexivity.
Defined.

Lemma update_route_keeps_other_routes_witness :
  next_hop_for (update_route 2000 8 4 2 two_route_router) 7
  = next_hop_for two_route_router 7.
Proof.
  apply (update_route_keeps_other_routes 2000 8 4 2 two_route_router 7).
  - vm_compute. reflexivity.
  - lia.
Defined.

Lemma update_route_full_table_evicts_oldest_witness :
  exists k, (k < length (_routes full_router))%nat
    /\ _routes (update_route 9000 99 3 2 full_router)
       = <[k := new_route 9000 99 3 2]> (_routes full_router)
    /\ Forall (fun r => re_lastUpdated (nth k (_routes full_router) zero_route)
                        <= re_lastUpdated r) (_routes full_router)
    /\ next_hop_for (update_route 9000 99 3 2 full_router)
                    (re_destId (nth k (_routes full_router) zero_route)) = 255.
Proof.
  apply (update_route_full_table_evicts_oldest 9000 99 3 2 full_router).
  - vm_compute. reflexivity.
  - vm_compute. reflexivity.
  - vm_compute. reflexivity.
Defined.

Lemma evict_stale_routes_lookup_witness :
  next_hop_for (evict_stale_routes 700000 two_route_router) 7 = 255
  /\ next_hop_for (evict_stale_routes 700000 two_route_router) 9 = 9.
Proof.
  split.
  - exact (evict_stale_routes_lookup 700000 two_route_router 7 eq_refl).
  - exact (evict_stale_routes_lookup 700000 two_route_router 9 eq_refl).
Defined.

Lemma receive_learns_previous_hop_witness :
  (* an over-limit beacon changes nothing *)
  (receive 1000 (mesh_frame MESH_NEIGHBOR_BEACON 5 255 5 1 []) (MeshRouter_new 1 true)).2
  = MeshRouter_new 1 true
  (* a DATA frame from node 5 teaches the way to it *)
  /\ next_hop_for
       (receive 1000 (mesh_frame MESH_DATA 5 1 1 4 [1; 2; 3]) (MeshRouter_new 1 true)).2
       5 = 5.
Proof.
  split.
  - apply (receive_learns_previous_hop 1000
             (mesh_frame MESH_NEIGHBOR_BEACON 5 255 5 1 []) (MeshRouter_new 1 true)).
    reflexivity.
  - destruct (receive_learns_previous_hop 1000 (mesh_frame MESH_DATA 5 1 1 4 [1; 2; 3])
                (MeshRouter_new 1 true)) as [_ H].
    apply H.
    + reflexivity.
    + vm_compute. discriminate.
    + reflexivity.
Defined.

Lemma wrap_then_receive_witness :
  let w := wrap 0 [1; 2; 3] (replicate 255 0) (MeshRouter_new 5 true) in
  let r := receive 1000 (take w.1.1 w.1.2) (MeshRouter_new 0 true) in
  w.1.1 = 12%nat /\ r.1 = Some [1; 2; 3] /\ next_hop_for r.2 5 = 5.
Proof.
  destruct (wrap_then_receive 0 [1; 2; 3] (replicate 255 0)
              (MeshRouter_new 5 true) (MeshRouter_new 0 true) 1000)
    as (H1 & H2 & H3).
  - vm_compute. lia.
  - reflexivity.
  - left. reflexivity.
  - split; [exact H1|]. split; [exact H2|]. apply H3; vm_compute; discriminate.
Defined.

Lemma tick_beacon_then_receive_witness :
  let b := tick 30000 (replicate 9 0) (MeshRouter_new 5 true) in
  let r := receive 30100 (take b.1.1 b.1.2) (MeshRouter_new 1 true) in
  b.1.1 = sizeof_MeshHeader /\ r.1 = None /\ next_hop_for r.2 5 = 5.
Proof.
  apply (tick_beacon_then_receive 30000 (replicate 9 0) (MeshRouter_new 5 true)
           (MeshRouter_new 1 true) 30100).
  - vm_compute. discriminate.
  - vm_compute. lia.
  - reflexivity.
Defined.

Lemma handle_command_ack_or_nack_witness :
  let pkt := set_interval_command 42 1 4 500 in
  let r := handle_command pkt default_store (MeshRouter_new 1 true)
                          (replicate 255 0) in
  r.1.1.1 = Returned sizeof_AckPacket
  /\ r.1.1.2
     = ack_frame (if command_acknowledged pkt then CMD_ACK else CMD_NACK)
                 (nodeId (_cfg default_store)) (cmd_sequenceNumber pkt)
                 (if command_acknowledged pkt then 0 else 1)
       ++ drop sizeof_AckPacket (replicate 255 0)
  /\ (command_acknowledged pkt = false
      -> r.1.2 = default_store /\ r.2 = MeshRouter_new 1 true).
Proof.
  apply (handle_command_ack_or_nack (set_interval_command 42 1 4 500)
           default_store (MeshRouter_new 1 true) (replicate 255 0)).
  - vm_compute. lia.
  - reflexivity.
Defined.

Lemma handle_command_keeps_identity_witness :
  let c' := _cfg (handle_command
                    (set_location_command 5 [66; 97; 114; 110; 0; 78; 0])
                    default_store (MeshRouter_new 1 true) (replicate 255 0)).1.2 in
  nodeId c' = nodeId (_cfg default_store)
  /\ networkId c' = networkId (_cfg default_store)
  /\ strings_ok c' = true.
Proof.
  apply (handle_command_keeps_identity
           (set_location_command 5 [66; 97; 114; 110; 0; 78; 0])
           default_store (MeshRouter_new 1 true) (replicate 255 0)).
  - vm_compute. lia.
  - reflexivity.
  - reflexivity.
Defined.

Lemma handle_command_mesh_flags_in_step_witness :
  let r := handle_command (command_with CMD_SET_MESH_CONFIG 1 [0]) default_store
                          (MeshRouter_new 1 true) (replicate 255 0) in
  meshEnabled (_cfg r.1.2) = _enabled r.2
  /\ _routes r.2 = _routes (MeshRouter_new 1 true)
  /\ _node_id r.2 = _node_id (MeshRouter_new 1 true)
  /\ (forall dest_id,
        next_hop_for r.2 dest_id = next_hop_for (MeshRouter_new 1 true) dest_id).
Proof.
  apply (handle_command_mesh_flags_in_step (command_with CMD_SET_MESH_CONFIG 1 [0])
           default_store (MeshRouter_new 1 true) (replicate 255 0)).
  - vm_compute. lia.
  - reflexivity.
  - reflexivity.
Defined.

Lemma base_welcome_is_time_sync_witness :
  let pkt := command_with CMD_TIME_SYNC 6 (le32 1700000000 ++ le16 65236) in
  let r := handle_command pkt default_store (MeshRouter_new 1 true)
                          (replicate 255 0) in
  handle_command (with_commandType pkt CMD_BASE_WELCOME) default_store
                 (MeshRouter_new 1 true) (replicate 255 0) = r
  /\ lastTimeSync (_cfg r.1.2) = 1700000000
  /\ tzOffsetMinutes (_cfg r.1.2) = -300.
Proof.
  destruct (base_welcome_is_time_sync
              (command_with CMD_TIME_SYNC 6 (le32 1700000000 ++ le16 65236))
              default_store (MeshRouter_new 1 true) (replicate 255 0))
    as (H1 & H2).
  - reflexivity.
  - vm_compute. lia.
  - vm_compute. reflexivity.
  - split; [exact H1|]. cbv zeta.
    change (6 <=? cmd_dataLength
                    (command_with CMD_TIME_SYNC 6 (le32 1700000000 ++ le16 65236)))
      with true in H2.
    destruct H2 as (H2 & _). rewrite H2. split; vm_compute; reflexivity.
Defined.

Lemma set_location_zone_rule_witness :
  zone (set_location (set_location_command 4 [65; 0; 88; 89; 0]) (_cfg default_store))
  = strncpy_bytes [88; 89; 0] 15 ++ [0]
  /\ zone (set_location (set_location_command 1 [65; 0; 88; 89; 0]) (_cfg default_store))
     = zone (_cfg default_store).
Proof.
  split.
  - exact (set_location_zone_rule (set_location_command 4 [65; 0; 88; 89; 0])
             (_cfg default_store) eq_refl).
  - exact (set_location_zone_rule (set_location_command 1 [65; 0; 88; 89; 0])
             (_cfg default_store) eq_refl).
Defined.

Lemma save_then_load_witness :
  let r := load true (set_cfg (save tuned_store).2 (_cfg (cfg_store (power_on true ∅)))) in
  r.1 = true
  /\ same_settings (_cfg r.2) (_cfg tuned_store)
  /\ nvs r.2 = nvs (save tuned_store).2.
Proof.
  apply (save_then_load tuned_store (_cfg (cfg_store (power_on true ∅)))).
  - vm_compute. reflexivity.
  - vm_compute. reflexivity.
  - reflexivity.
  - reflexivity.
Defined.

Lemma sensor_values_bounded_witness :
  let s := BME680Sensor true 0x41A00000 0x42480000 0x447D5000 0x47435000 in
  sensor_values s (replicate 2 zero_value) 2
  = ([{| sv_type := VALUE_TEMPERATURE; sv_value := 0x41A00000 |};
      {| sv_type := VALUE_HUMIDITY; sv_value := 0x42480000 |}], 2)
  /\ (sensor_values s (replicate 4 zero_value) 4).1 = readings s.
Proof.
  split.
  - apply (sensor_values_bounded
             (BME680Sensor true 0x41A00000 0x42480000 0x447D5000 0x47435000)
             (replicate 2 zero_value) 2); [lia|reflexivity].
  - destruct (sensor_values_bounded
                (BME680Sensor true 0x41A00000 0x42480000 0x447D5000 0x47435000)
                (replicate 4 zero_value) 4) as (_ & _ & H); [lia|reflexivity|].
    apply H. lia.
Defined.

Lemma steady_hardware_wf now pkt : hardware_wf (steady_hardware now pkt).
Proof.
  split; [reflexivity|]. intros i s. destruct s; reflexivity.
Qed.

Lemma transmit_telemetry_frame_witness :
  let hw := steady_hardware 30000 [] in
  let vs := telemetry_values hw sample_node in
  let pkt := telemetry_packet (_cfg (cfg_store sample_node)) 87 0 0
               (vs ++ replicate (16 - length vs) zero_value)
               (Z.of_nat (length vs)) in
  let payload := frame_body pkt ++ le16 (lss_crc16 (frame_body pkt)) in
  (transmit_telemetry hw 0 0 sample_node).1
  = [RadioStartTransmit
       (meshheader_bytes
          {| mh_packetType := MESH_DATA; mh_sourceId := 1; mh_destId := 0;
             mh_nextHop := 255; mh_prevHop := 1; mh_hopCount := 0;
             mh_ttl := MESH_MAX_HOPS; mh_sequenceNum := 0 |} ++ payload)]
  /\ length vs = 6%nat
  /\ lss_deserialize_multi_sensor payload (sample_packet 0)
     = (true, {| header := header pkt;
                 values := vs ++ drop (length vs) (values (sample_packet 0));
                 checksum := lss_crc16 (frame_body pkt) |}).
Proof.
  destruct (transmit_telemetry_frame (steady_hardware 30000 []) 0 0 sample_node
              (sample_packet 0)) as (H1 & H2).
  - vm_compute. reflexivity.
  - apply steady_hardware_wf.
  - reflexivity.
  - reflexivity.
  - vm_compute. reflexivity.
  - split; [exact H1|]. split; [vm_compute; reflexivity|exact H2].
Defined.

Lemma loop_receive_answers_command_witness :
  let c := set_interval_command 42 1 4 15000 in
  let g := with_rx_done sample_node in
  let r := handle_command c (cfg_store g) (MeshRouter_new 1 true) (tx_buf g) in
  (* behind the header FF 00 00 00 the command is answered *)
  (exists g',
     loop_receive (steady_hardware 1000 (radiohead_header ++ command_frame c)) g
     = LoopDone [RadioTransmit (ack_frame CMD_ACK 1 42 0);
                 RadioStartReceive; RadioStartReceive] g'
     /\ cfg_store g' = r.1.2
     /\ mesh_router g' = Some r.2
     /\ rx_done_flag g' = false)
  (* behind the header CD AB 00 00 it is dropped *)
  /\ loop_receive (steady_hardware 1000 ([0xCD; 0xAB; 0; 0] ++ command_frame c)) g
     = LoopDone [RadioStartReceive]
         (received (steady_hardware 1000 ([0xCD; 0xAB; 0; 0] ++ command_frame c)) g).
Proof.
  split.
  - destruct (loop_receive_answers_command
                (steady_hardware 1000
                   (radiohead_header ++ command_frame (set_interval_command 42 1 4 15000)))
                (with_rx_done sample_node) (MeshRouter_new 1 true)
                (set_interval_command 42 1 4 15000) radiohead_header) as [H _].
    + reflexivity.
    + reflexivity.
    + vm_compute. reflexivity.
    + vm_compute. reflexivity.
    + vm_compute. reflexivity.
    + vm_compute. reflexivity.
    + vm_compute. discriminate.
    + vm_compute. discriminate.
    + left. vm_compute. reflexivity.
    + right. reflexivity.
    + reflexivity.
    + reflexivity.
    + apply H. reflexivity.
  - destruct (loop_receive_answers_command
                (steady_hardware 1000
                   ([0xCD; 0xAB; 0; 0] ++ command_frame (set_interval_command 42 1 4 15000)))
                (with_rx_done sample_node) (MeshRouter_new 1 true)
                (set_interval_command 42 1 4 15000) [0xCD; 0xAB; 0; 0]) as [_ H].
    + reflexivity.
    + reflexivity.
    + vm_compute. reflexivity.
    + vm_compute. reflexivity.
    + vm_compute. reflexivity.
    + vm_compute. reflexivity.
    + vm_compute. discriminate.
    + vm_compute. discriminate.
    + left. vm_compute. reflexivity.
    + right. reflexivity.
    + reflexivity.
    + reflexivity.
    + destruct H as [H _]; [right; reflexivity|]. exact H.
Defined.

Lemma loop_receive_restart_sends_no_ack_witness :
  loop (steady_hardware 1000
          (command_frame (command_with CMD_FACTORY_RESET 0 [])))
       (with_rx_done sample_node)
  = LoopRestart [] (factory_reset (cfg_store (with_rx_done sample_node))).
Proof.
  apply (loop_receive_restart_sends_no_ack
           (steady_hardware 1000
              (command_frame (command_with CMD_FACTORY_RESET 0 [])))
           (with_rx_done sample_node) (MeshRouter_new 1 true)
           (command_with CMD_FACTORY_RESET 0 []) []).
  - reflexivity.
  - reflexivity.
  - vm_compute. reflexivity.
  - vm_compute. reflexivity.
  - vm_compute. reflexivity.
  - left. vm_compute. reflexivity.
  - left. reflexivity.
  - reflexivity.
  - reflexivity.
Defined.


Lemma loop_keeps_node_ok_witness :
  let hw := steady_hardware 31000
              (command_frame (command_with CMD_SET_MESH_CONFIG 1 [0])) in
  let g := with_rx_done sample_node in
  let g' := loop_globals (loop hw g) g in
  node_ok g' = true
  /\ nodeId (_cfg (cfg_store g')) = nodeId (_cfg (cfg_store g))
  /\ (forall m' dest_id, mesh_router g' = Some m' -> next_hop_for m' dest_id = 255).
Proof.
  apply (loop_keeps_node_ok
           (steady_hardware 31000
              (command_frame (command_with CMD_SET_MESH_CONFIG 1 [0])))
           (with_rx_done sample_node)
           (loop_calls (loop (steady_hardware 31000
                                (command_frame (command_with CMD_SET_MESH_CONFIG 1 [0])))
                             (with_rx_done sample_node)))).
  - vm_compute. reflexivity.
  - vm_compute. reflexivity.
  - vm_compute. reflexivity.
Defined.

Lemma setup_establishes_node_ok_witness :
  (* a null sensor slot: no return *)
  setup true (fun _ s => s) (installed [Some (DHTSensor false 0 0); None]) = None
  (* network id 243 and power 200 reach the radio as sync word 5 and -56 dBm *)
  /\ exists g',
       setup true (fun _ => refresh 0) (installed [Some (DHTSensor false 0 0)])
       = Some ([RadioBegin 0x4464C000 10 5 (-56);
                RadioSetDio1Action; RadioStartReceive;
                RadioTransmit
                  (command_frame
                     (announce_command
                        (_cfg (load true (cfg_store (installed []))).2)))],
               g')
       /\ node_ok g' = true.
Proof.
  split.
  - destruct (setup_establishes_node_ok true (fun _ s => s)
                (installed [Some (DHTSensor false 0 0); None]) zero_command)
      as (H & _).
    + reflexivity.
    + vm_compute. reflexivity.
    + vm_compute. reflexivity.
    + apply H. reflexivity.
  - destruct (setup_establishes_node_ok true (fun _ => refresh 0)
                (installed [Some (DHTSensor false 0 0)]) zero_command)
      as (_ & H & _).
    + reflexivity.
    + vm_compute. reflexivity.
    + vm_compute. reflexivity.
    + destruct (H eq_refl) as (g' & Hrun & Hok & _).
      exists g'. split; [exact Hrun|exact Hok].
Defined.
